(** * meshio: the PLY codec and the generic read/write helpers

    A shallow embedding of [meshio/ply/_ply.py] and [meshio/_helpers.py].
    Python [str] values are [string]; file contents ([bytes]) are lists of
    8-bit characters; Python integers are [Z]; numpy arrays are records of a
    dtype and their elements; dictionaries looked up by key are [gmap]s and
    dictionaries that are iterated are association lists in insertion order.
    How a call ends (a value, an exception, no return) is an [outcome]. *)

From Stdlib Require Import ZArith String Ascii List Lia DecimalString DecimalN.
From stdpp Require Import base option list strings gmap.

Local Open Scope Z_scope.

(* ===================================================================== *)
(** * Part I: definitions *)
(* ===================================================================== *)

(** ** Python outcomes

    A call returns, raises, or (the loop of [_next_line] at the end of a
    file) never returns.  [Unmodelled] is not a behaviour of the source: it
    marks the few places where numpy does something this embedding has no
    data for (promotion between dtypes, the float value of an integer). *)

Inductive exn : Type :=
| ReadError (msg : string)
| WriteError (msg : string)
| ValueError (msg : string)
| KeyError (key : string)
| IndexError
| AttributeError
| TypeError
| OverflowError
| AssertionError
| FileNotFoundError.

Inductive outcome (A : Type) : Type :=
| Ok (a : A)
| Raise (e : exn)
| Diverge
| Unmodelled (what : string).
Arguments Ok {A} a.
Arguments Raise {A} e.
Arguments Diverge {A}.
Arguments Unmodelled {A} what.

Global Instance outcome_ret : MRet outcome := λ A a, Ok a.

Global Instance outcome_bind : MBind outcome := λ A B k m,
  match m with
  | Ok a => k a
  | Raise e => Raise e
  | Diverge => Diverge
  | Unmodelled w => Unmodelled w
  end.

(** ** Strings

    A [string] is the UTF-8 byte sequence of a Python [str].  The functions
    of this section do on the bytes what Python does on text of the 7-bit
    range ([seven_bit]): there [bytes.decode] cannot fail, and the white
    space of [str.strip] and [str.split], the digits of [int] and of the
    class [\d], and the letters of [str.lower] are the ones below.  Beyond
    that range Python consults the Unicode tables, which are not modelled;
    the theorems about text read from a file or about names are stated for
    7-bit text. *)

Definition bytes := list ascii.

(** [s.encode("utf-8")] and [b.decode("utf-8")] on 7-bit text. *)
Definition encode (s : string) : bytes := list_ascii_of_string s.
Definition decode (b : bytes) : string := string_of_list_ascii b.

(** Bytes, and text, of the 7-bit range. *)
Definition seven_bit (b : bytes) : Prop :=
  Forall (λ c, (N_of_ascii c < 128)%N) b.

Definition seven_bit_text (s : string) : Prop := seven_bit (encode s).

(** The decimal digits of the 7-bit range. *)
Definition is_digit (c : ascii) : bool :=
  let n := N_of_ascii c in ((48 <=? n) && (n <=? 57))%N.

(** The white space of [str.strip()] inside the 7-bit range. *)
Definition is_space (c : ascii) : bool :=
  let n := N_of_ascii c in
  (((9 <=? n) && (n <=? 13)) || ((28 <=? n) && (n <=? 32)))%N.

Fixpoint lstrip (s : string) : string :=
  match s with
  | EmptyString => EmptyString
  | String c r => if is_space c then lstrip r else s
  end.

Fixpoint rstrip (s : string) : string :=
  match s with
  | EmptyString => EmptyString
  | String c r =>
    match rstrip r with
    | EmptyString => if is_space c then EmptyString else String c EmptyString
    | r' => String c r'
    end
  end.

Definition strip (s : string) : string := rstrip (lstrip s).

(** [str.lower()] on 7-bit text. *)
Definition lower_char (c : ascii) : ascii :=
  let n := N_of_ascii c in
  if ((65 <=? n) && (n <=? 90))%N then ascii_of_N (n + 32) else c.

Fixpoint lower (s : string) : string :=
  match s with
  | EmptyString => EmptyString
  | String c r => String (lower_char c) (lower r)
  end.

(** [s[:n]] *)
Definition py_take (n : nat) (s : string) : string := substring 0 n s.

(** [s[n:]] *)
Fixpoint py_drop (n : nat) (s : string) : string :=
  match n, s with
  | O, _ => s
  | S n', EmptyString => EmptyString
  | S n', String _ r => py_drop n' r
  end.

(** [rest] when [s = p + rest]. *)
Fixpoint after_prefix (p s : string) : option string :=
  match p, s with
  | EmptyString, _ => Some s
  | String a p', String b s' => if Ascii.eqb a b then after_prefix p' s' else None
  | String _ _, EmptyString => None
  end.

(** The longest run of decimal digits at the head of [s] (the greedy
    [\d+], or [\d*]), and what follows it. *)
Fixpoint span_digits (s : string) : string * string :=
  match s with
  | EmptyString => (EmptyString, EmptyString)
  | String c r =>
    if is_digit c then let '(d, t) := span_digits r in (String c d, t)
    else (EmptyString, s)
  end.

(** [str(n)] for a Python integer. *)
Definition str (n : Z) : string := NilEmpty.string_of_int (Z.to_int n).

(** [int(g)] for a regex group [g] matched by [\d+]. *)
Definition int_of_digits (g : string) : Z :=
  match NilEmpty.uint_of_string g with
  | Some d => Z.of_N (N.of_uint d)
  | None => 0
  end.

(** [int(s)] for an arbitrary string: surrounding white space, one optional
    sign, then decimal digits in which single underscores may separate
    digits.  [None] is [ValueError]. *)
Fixpoint int_body (prev_digit : bool) (s : string) : option string :=
  match s with
  | EmptyString => if prev_digit then Some EmptyString else None
  | String c r =>
    if is_digit c then option_map (String c) (int_body true r)
    else if Ascii.eqb c "_" then
      if prev_digit then
        match r with
        | EmptyString => None
        | _ => int_body false r
        end
      else None
    else None
  end.

Definition py_int (s : string) : option Z :=
  let s := strip s in
  let '(neg, body) :=
    match s with
    | String "-" r => (true, r)
    | String "+" r => (false, r)
    | _ => (false, s)
    end in
  match int_body false body with
  | Some ds => let v := int_of_digits ds in Some (if neg then - v else v)
  | None => None
  end.

(** [sep.join(l)] *)
Fixpoint join (sep : string) (l : list string) : string :=
  match l with
  | [] => EmptyString
  | [s] => s
  | s :: l' => s +:+ sep +:+ join sep l'
  end.

(** The double quote. *)
Definition dq : string := String "034" EmptyString.

(** [repr(s)] for a string of printable 7-bit characters without a single
    quote or a backslash: the string between single quotes.  [None] for any
    other string. *)
Definition py_repr (s : string) : option string :=
  if forallb (λ c, let n := N_of_ascii c in
                   ((32 <=? n) && (n <? 127) && negb (n =? 39) && negb (n =? 92))%N)
             (list_ascii_of_string s)
  then Some ("'" +:+ s +:+ "'")
  else None.

(** [sorted(l)] for a list of strings. *)
Fixpoint insert_sorted (x : string) (l : list string) : list string :=
  match l with
  | [] => [x]
  | y :: l' => if String.leb x y then x :: l else y :: insert_sorted x l'
  end.

Definition sorted (l : list string) : list string := foldr insert_sorted [] l.

(** ** Cell type names of the PLY codec *)

Definition _cell_type_to_count : list (string * Z) :=
  [("vertex", 1); ("line", 2); ("triangle", 3); ("quad", 4)].

Fixpoint dict_get {V} (k : string) (d : list (string * V)) : option V :=
  match d with
  | [] => None
  | (k', v) :: d' => if String.eqb k k' then Some v else dict_get k d'
  end.

(** [re.fullmatch(r"polygon(\d+)", cell_type)]: the group, when it matches. *)
Definition fullmatch_polygon (cell_type : string) : option string :=
  match after_prefix "polygon" cell_type with
  | Some rest =>
    match span_digits rest with
    | (String c d, EmptyString) => Some (String c d)
    | _ => None
    end
  | None => None
  end.

Definition cell_type_to_count (cell_type : string) : option Z :=
  match dict_get cell_type _cell_type_to_count with
  | Some n => Some n
  | None =>
    match fullmatch_polygon cell_type with
    | Some g => Some (int_of_digits g)
    | None => None
    end
  end.

Definition _cell_type_from_count : list (Z * string) :=
  map (λ kv, (snd kv, fst kv)) _cell_type_to_count.

Fixpoint count_get (k : Z) (d : list (Z * string)) : option string :=
  match d with
  | [] => None
  | (k', v) :: d' => if k =? k' then Some v else count_get k d'
  end.

(** [a or b] on a looked-up string: [None] and the empty string are falsy. *)
Definition str_or (a : option string) (b : string) : string :=
  match a with
  | Some (String c r) => String c r
  | _ => b
  end.

Definition cell_type_from_count (count : Z) : string :=
  str_or (count_get count _cell_type_from_count) ("polygon" +:+ str count).

(** The vocabulary of the codec: the four fixed names and [polygonN]. *)
Definition all_digits (g : string) : Prop :=
  g <> EmptyString /\ span_digits g = (g, EmptyString).

Definition in_vocabulary (tag : string) : Prop :=
  tag = "vertex" \/ tag = "line" \/ tag = "triangle" \/ tag = "quad" \/
  exists g, all_digits g /\ tag = "polygon" +:+ g.


(** ** numpy arrays

    A dtype is its kind and its item size, the way the codec's own table of
    dtype strings names them (["i4"], ["u1"], ["f8"]); byte order is kept out
    of the dtype and given to the encoder and decoder.  An element is an
    integer: the value itself for the integer kinds, the bit pattern (as an
    unsigned number) for every other kind. *)

Inductive dkind : Type := Kint | Kuint | Kfloat | Kother.

Record dtype : Type := Dtype { kind : dkind; itemsize : nat }.

Global Instance dkind_eq_dec : EqDecision dkind.
Proof. solve_decision. Defined.
Global Instance dtype_eq_dec : EqDecision dtype.
Proof. solve_decision. Defined.

Definition np_int8 := Dtype Kint 1.
Definition np_int16 := Dtype Kint 2.
Definition np_int32 := Dtype Kint 4.
Definition np_int64 := Dtype Kint 8.
Definition np_uint8 := Dtype Kuint 1.
Definition np_uint16 := Dtype Kuint 2.
Definition np_uint32 := Dtype Kuint 4.
Definition np_uint64 := Dtype Kuint 8.
Definition np_float32 := Dtype Kfloat 4.
Definition np_float64 := Dtype Kfloat 8.

(** A two-dimensional array of shape [(length rows, ncols)]. *)
Record ndarray : Type := Ndarray {
  arr_dtype : dtype;
  ncols : nat;
  rows : list (list Z)
}.

Definition nrows (a : ndarray) : nat := length (rows a).

(** An array of any shape, flattened: the values of [point_data]. *)
Record flatarray : Type := Flatarray {
  flat_dtype : dtype;
  flat_shape : list nat;
  flat_values : list Z
}.

(** ** The mesh *)

Record CellBlock : Type := mkCellBlock { cell_type : string; data : ndarray }.

Inductive cell_data_value : Type :=
| CDblocks (blocks : list CellBlock)
| CDscalar (dt : dtype) (v : Z)
| CDarrays (arrays : list (list Z)).

Record Mesh : Type := mkMesh {
  points : ndarray;
  cells : list CellBlock;
  point_data : list (string * flatarray);
  cell_data : list (string * cell_data_value)
}.

Definition cell_data_rows (v : cell_data_value) : option (list nat) :=
  match v with
  | CDblocks bs => Some (map (λ b, nrows (data b)) bs)
  | CDscalar _ _ => None
  | CDarrays l => Some (map (λ a, length a) l)
  end.

(** Modelled from the spec: the constructor of [Mesh] lives in
    [meshio/_mesh.py], which is not among the sources.  It stores its
    arguments and validates the invariant of the data model: every
    [point_data] array has one row per point, and every [cell_data] entry has
    one block per cell block, with the row count of that block. *)
Definition Mesh_init (points : ndarray) (cells : list CellBlock)
    (point_data : list (string * flatarray))
    (cell_data : list (string * cell_data_value)) : outcome Mesh :=
  if forallb (λ kv, bool_decide (head (flat_shape (snd kv)) = Some (nrows points)))
       point_data
     && forallb (λ kv, bool_decide
          (cell_data_rows (snd kv) = Some (map (λ b, nrows (data b)) cells)))
       cell_data
  then Ok (mkMesh points cells point_data cell_data)
  else Raise (ValueError "Incompatible data").

(** ** meshio/_helpers.py *)

(** What [is_buffer] of [meshio/_files.py] tells apart: an open buffer with
    its content, or a path. *)
Inductive source : Type :=
| Buffer (content : bytes)
| Path (p : string).

Definition is_buffer (filename : source) : bool :=
  match filename with Buffer _ => true | Path _ => false end.

(** The files that exist, with their content. *)
Abbreviation filesystem := (gmap string bytes).

(** Keyword arguments handed through to a writer. *)
Definition kwargs := list (string * bool).

(** What a call of a writer leaves behind: the caller's mesh (a writer may
    replace cell blocks in [mesh.cells]), the warnings raised in order, the
    bytes written to the destination, and how the call ended. *)
Record write_result : Type := mkWriteResult {
  wr_mesh : Mesh;
  wr_warnings : list string;
  wr_out : bytes;
  wr_end : outcome unit
}.

Abbreviation reader := (filesystem → source → outcome Mesh).
Abbreviation writer := (source → Mesh → kwargs → write_result).

Record registry : Type := mkRegistry {
  extension_to_filetype : gmap string string;
  reader_map : gmap string reader;
  _writer_map : gmap string writer
}.

Definition empty_registry : registry := mkRegistry ∅ ∅ ∅.

Definition register (name : string) (extensions : list string)
    (rd : option reader) (writer_map : list (string * writer))
    (reg : registry) : registry :=
  mkRegistry
    (foldl (λ m ext, <[ext := name]> m) (extension_to_filetype reg) extensions)
    (match rd with
     | Some r => <[name := r]> (reader_map reg)
     | None => reader_map reg
     end)
    (foldl (λ m kv, <[fst kv := snd kv]> m) (_writer_map reg) writer_map).

(** [pathlib] on a POSIX path: the final component of a path (empty
    components and components [.] are dropped when the path is parsed), and
    [PurePath.suffixes] (a name ending in a dot has none; leading dots do not
    count). *)
Fixpoint split_on (sep : ascii) (s : string) : list string :=
  match s with
  | EmptyString => [EmptyString]
  | String c r =>
    if Ascii.eqb c sep then EmptyString :: split_on sep r
    else match split_on sep r with
         | [] => [String c EmptyString]
         | h :: t => String c h :: t
         end
  end.

Fixpoint lstrip_char (x : ascii) (s : string) : string :=
  match s with
  | EmptyString => EmptyString
  | String c r => if Ascii.eqb c x then lstrip_char x r else s
  end.

Definition path_name (path : string) : string :=
  List.last (filter (λ c, c ≠ EmptyString ∧ c ≠ ".") (split_on "/" path))
    EmptyString.

Definition endswith_dot (s : string) : bool :=
  match List.last (list_ascii_of_string s) " "%char with
  | "."%char => true
  | _ => false
  end.

Definition suffixes (path : string) : list string :=
  let name := path_name path in
  if endswith_dot name then []
  else map (λ suffix, "." +:+ suffix) (tail (split_on "." (lstrip_char "." name))).

(** The loop of [_filetype_from_path], over [reversed(path.suffixes)]. *)
Fixpoint filetype_loop (table : gmap string string) (sfx : list string)
    (ext : string) (out : option string) : string * option string :=
  match sfx with
  | [] => (ext, out)
  | suffix :: sfx' =>
    let ext := lower (suffix +:+ ext) in
    let out := match table !! ext with Some v => Some v | None => out end in
    filetype_loop table sfx' ext out
  end.

Definition filetype_from_suffixes (reg : registry) (sfx : list string)
    : outcome string :=
  let '(ext, out) :=
    filetype_loop (extension_to_filetype reg) (reverse sfx) EmptyString None in
  match out with
  | None =>
    Raise (ReadError ("Could not deduce file format from extension '" +:+ ext +:+ "'."))
  | Some o => Ok o
  end.

Definition _filetype_from_path (reg : registry) (path : string) : outcome string :=
  filetype_from_suffixes reg (suffixes path).

Definition read (fs : filesystem) (reg : registry) (filename : source)
    (file_format : option string) : outcome Mesh :=
  '(file_format, msg) ←
    match filename with
    | Buffer _ =>
      match file_format with
      | None => Raise (ReadError "File format must be given if buffer is used")
      | Some ff =>
        if String.eqb ff "tetgen" then
          Raise (ReadError ("tetgen format is spread across multiple files " +:+
                            "and so cannot be read from a buffer"))
        else Ok (ff, "Unknown file format '" +:+ ff +:+ "'")
      end
    | Path p =>
      if bool_decide (is_Some (fs !! p)) then
        ff ← match file_format with
             | Some (String c r) => Ok (String c r)
             | _ => _filetype_from_path reg p
             end;
        Ok (ff, "Unknown file format '" +:+ ff +:+ "' of '" +:+ p +:+ "'.")
      else Raise (ReadError ("File " +:+ p +:+ " not found."))
    end;
  match reader_map reg !! file_format with
  | None => Raise (ReadError msg)
  | Some rd => rd fs filename
  end.

(** The table [num_nodes_per_cell] of [meshio/_common.py] is not among the
    sources: the functions that consult it take it as [nnpc].  The texts of
    the exceptions hold [value.shape], the tuple of the rows and columns of
    the array. *)
Definition shape_text (a : ndarray) : string :=
  "(" +:+ str (Z.of_nat (nrows a)) +:+ ", " +:+ str (Z.of_nat (ncols a)) +:+ ")".

Definition malformed_key (key : string) : string :=
  "Key " +:+ dq +:+ key +:+ dq +:+ " malformed. " +:+
  "Should be " +:+ dq +:+ "polygonN" +:+ dq +:+
  ", where N is the number of points per polygon.".

Definition polygon_mismatch (a : ndarray) (key : string) : string :=
  "Polygon data array (shape " +:+ shape_text a +:+ ") " +:+
  "doesn't match the key " +:+ dq +:+ key +:+ dq.

Definition unexpected_shape (a : ndarray) (key : string) : string :=
  "Unexpected cells array shape " +:+ shape_text a +:+ " for " +:+ key +:+ " cells.".

Definition check_cell (nnpc : gmap string Z) (b : CellBlock) : outcome unit :=
  let key := cell_type b in
  let value := data b in
  if String.eqb (py_take 7 key) "polygon" then
    match py_int (py_drop 7 key) with
    | None => Raise (ValueError (malformed_key key))
    | Some n =>
      if bool_decide (Z.of_nat (ncols value) ≠ n) then
        Raise (WriteError (polygon_mismatch value key))
      else Ok ()
    end
  else
    match nnpc !! key with
    | Some k =>
      if bool_decide (Z.of_nat (ncols value) ≠ k) then
        Raise (WriteError (unexpected_shape value key))
      else Ok ()
    | None => Ok ()
    end.

Fixpoint check_cells (nnpc : gmap string Z) (cells : list CellBlock) : outcome unit :=
  match cells with
  | [] => Ok ()
  | b :: rest => _ ← check_cell nnpc b; check_cells nnpc rest
  end.

Definition write_raised (mesh : Mesh) (e : exn) : write_result :=
  mkWriteResult mesh [] [] (Raise e).

(** The first statement of [write]: the format, given or deduced. *)
Definition write_format (reg : registry) (filename : source)
    (file_format : option string) : outcome string :=
  match filename with
  | Buffer _ =>
    match file_format with
    | None =>
      Raise (WriteError "File format must be supplied if `filename` is a buffer")
    | Some ff =>
      if String.eqb ff "tetgen" then
        Raise (WriteError ("tetgen format is spread across multiple files, " +:+
                           "and so cannot be written to a buffer"))
      else Ok ff
    end
  | Path p =>
    match file_format with
    | Some (String c r) => Ok (String c r)
    | _ => _filetype_from_path reg p
    end
  end.

(** The text of the [WriteError] for a format without a writer:
    [formats] is the sorted list of the registered names, shown as Python
    shows a list of strings. *)
Definition unknown_format (reg : registry) (ff : string) : outcome string :=
  let formats := sorted (map fst (map_to_list (_writer_map reg))) in
  if forallb (λ k, bool_decide (is_Some (py_repr k))) formats then
    Ok ("Unknown format '" +:+ ff +:+ "'. Pick one of ["
        +:+ join ", " (omap py_repr formats) +:+ "]")
  else Unmodelled "repr of a format name with quotes or unprintable characters".

Definition write (nnpc : gmap string Z) (reg : registry) (filename : source)
    (mesh : Mesh) (file_format : option string) (kw : kwargs) : write_result :=
  match write_format reg filename file_format with
  | Raise e => write_raised mesh e
  | Diverge => mkWriteResult mesh [] [] Diverge
  | Unmodelled w => mkWriteResult mesh [] [] (Unmodelled w)
  | Ok ff =>
    match _writer_map reg !! ff with
    | None =>
      match unknown_format reg ff with
      | Ok msg => write_raised mesh (WriteError msg)
      | Raise e => write_raised mesh e
      | Diverge => mkWriteResult mesh [] [] Diverge
      | Unmodelled w => mkWriteResult mesh [] [] (Unmodelled w)
      end
    | Some wr =>
      (* check cells for sanity *)
      match check_cells nnpc (cells mesh) with
      | Raise e => write_raised mesh e
      | Diverge => mkWriteResult mesh [] [] Diverge
      | Unmodelled w => mkWriteResult mesh [] [] (Unmodelled w)
      | Ok _ => wr filename mesh kw
      end
    end
  end.

(** ** meshio/ply/_ply.py: dtype tables *)

Definition ply_to_numpy_dtype : list (string * dtype) :=
  [("char", np_int8); ("uchar", np_uint8); ("short", np_int16);
   ("ushort", np_uint16); ("int", np_int32); ("int8", np_int8);
   ("int32", np_int32); ("int64", np_int64); ("uint", np_uint32);
   ("uint8", np_uint8); ("uint16", np_uint16); ("uint32", np_uint32);
   ("uint64", np_uint64); ("float", np_float32); ("float32", np_float32);
   ("float64", np_float64); ("double", np_float64)].

(** [{np.dtype(v): k for k, v in d.items()}[dt]]: of the keys that carry
    [dt], the comprehension keeps the last. *)
Fixpoint inverse_get (dt : dtype) (d : list (string * dtype)) (found : option string)
    : option string :=
  match d with
  | [] => found
  | (k, v) :: d' => inverse_get dt d' (if decide (v = dt) then Some k else found)
  end.

Definition numpy_to_ply_dtype (dt : dtype) : option string :=
  inverse_get dt ply_to_numpy_dtype None.

(** The table local to [_read_binary], and [np.dtype] of its codes. *)
Definition ply_to_numpy_dtype_string : list (string * string) :=
  [("uchar", "i1"); ("uint", "u4"); ("uint8", "u1"); ("uint16", "u2");
   ("uint32", "u4"); ("uint64", "u8"); ("int", "i4"); ("int8", "i1");
   ("int32", "i4"); ("int64", "i8"); ("float", "f4"); ("float32", "f4");
   ("double", "f8")].

Definition np_dtype (code : string) : dtype :=
  match code with
  | String k (String n EmptyString) =>
    Dtype (match k with
           | "i"%char => Kint
           | "u"%char => Kuint
           | "f"%char => Kfloat
           | _ => Kother
           end)
          (N.to_nat (N_of_ascii n - 48))
  | _ => Dtype Kother 0
  end.

(** The table local to [write]. *)
Definition type_name_table (dt : dtype) : option string :=
  match dt with
  | Dtype Kint 1 => Some "int8"
  | Dtype Kint 2 => Some "int16"
  | Dtype Kint 4 => Some "int32"
  | Dtype Kint 8 => Some "int64"
  | Dtype Kuint 1 => Some "uint8"
  | Dtype Kuint 2 => Some "uint16"
  | Dtype Kuint 4 => Some "uint32"
  | Dtype Kuint 8 => Some "uint64"
  | Dtype Kfloat 4 => Some "float"
  | Dtype Kfloat 8 => Some "double"
  | _ => None
  end.

(** ** Bytes of numbers *)

Inductive endian : Type := Little | Big.

Definition byte_of_Z (v : Z) : ascii := ascii_of_N (Z.to_N (v mod 256)).
Definition Z_of_byte (b : ascii) : Z := Z.of_N (N_of_ascii b).

Fixpoint le_bytes (n : nat) (v : Z) : bytes :=
  match n with
  | O => []
  | S k => byte_of_Z v :: le_bytes k (v / 256)
  end.

Fixpoint le_value (b : bytes) : Z :=
  match b with
  | [] => 0
  | c :: r => Z_of_byte c + 256 * le_value r
  end.

(** The [n] bytes of [v] in two's complement, and [int.from_bytes] (unsigned). *)
Definition to_bytes (bo : endian) (n : nat) (v : Z) : bytes :=
  match bo with
  | Little => le_bytes n v
  | Big => reverse (le_bytes n v)
  end.

Definition from_bytes (bo : endian) (b : bytes) : Z :=
  match bo with
  | Little => le_value b
  | Big => le_value (reverse b)
  end.

(** One array element read from its bytes. *)
Definition decode_elem (bo : endian) (dt : dtype) (b : bytes) : Z :=
  let u := from_bytes bo b in
  match kind dt with
  | Kint =>
    if u <? 2 ^ (8 * Z.of_nat (itemsize dt) - 1) then u
    else u - 2 ^ (8 * Z.of_nat (itemsize dt))
  | _ => u
  end.

Definition encode_elem (bo : endian) (dt : dtype) (v : Z) : bytes :=
  to_bytes bo (itemsize dt) v.

(** The values an element of dtype [dt] can hold. *)
Definition in_range (dt : dtype) (v : Z) : Prop :=
  match kind dt with
  | Kint =>
    - 2 ^ (8 * Z.of_nat (itemsize dt) - 1) <= v
      < 2 ^ (8 * Z.of_nat (itemsize dt) - 1)
  | _ => 0 <= v < 2 ^ (8 * Z.of_nat (itemsize dt))
  end.

(** [l[a:b]] for [0 <= a]. *)
Definition slice {A} (l : list A) (a b : Z) : list A :=
  take (Z.to_nat (b - a)) (drop (Z.to_nat a) l).

(** [k] consecutive records of [n] bytes. *)
Fixpoint records (k n : nat) (b : bytes) : list bytes :=
  match k with
  | O => []
  | S k' => take n b :: records k' n (drop n b)
  end.

(** [np.frombuffer(b, dtype)] for a dtype of [n] bytes: the records, when
    their size divides the length. *)
Definition frombuffer (n : nat) (b : bytes) : outcome (list bytes) :=
  if (n =? 0)%nat then Raise (ValueError "itemsize cannot be zero in type")
  else if (length b mod n =? 0)%nat then Ok (records (length b / n) n b)
  else Raise (ValueError "buffer size must be a multiple of element size").

(** ** The ragged list decoder *)

(** The generator [parse_ragged] of [_read_binary_list], as the list it
    yields. *)
Fixpoint parse_ragged (buffer : bytes) (count_itemsize data_itemsize : Z)
    (byteorder : endian) (at_ : Z) (num_cells : nat) : list Z :=
  at_ ::
  match num_cells with
  | O => []
  | S k =>
    let count := from_bytes byteorder (slice buffer at_ (at_ + count_itemsize)) in
    parse_ragged buffer count_itemsize data_itemsize byteorder
      (at_ + (count * data_itemsize + count_itemsize)) k
  end.

(** [np.diff] *)
Definition diff (l : list Z) : list Z := zip_with (λ a b, b - a) l (tail l).

(** [np.nonzero(l)[0]], counted from [i]. *)
Fixpoint nonzero_from (i : nat) (l : list Z) : list nat :=
  match l with
  | [] => []
  | x :: r => if x =? 0 then nonzero_from (S i) r else i :: nonzero_from (S i) r
  end.

Fixpoint block_bounds_loop (start : nat) (ids : list nat) (last : nat)
    : list (nat * nat) :=
  match ids with
  | [] => [(start, last)]
  | end_ :: ids' => (start, end_) :: block_bounds_loop end_ ids' last
  end.

Definition decode_block (buffer : bytes) (count_dtype data_dtype : dtype)
    (byteorder : endian) (byte_starts_ends row_lengths : list Z)
    (bound : nat * nat) : outcome (option CellBlock) :=
  let '(start, end_) := bound in
  if (start =? end_)%nat then Ok None
  else
    let count_itemsize := Z.of_nat (itemsize count_dtype) in
    let data_itemsize := Z.of_nat (itemsize data_dtype) in
    let block_buffer :=
      slice buffer (nth start byte_starts_ends 0) (nth end_ byte_starts_ends 0) in
    let cells_per_row := (nth start row_lengths 0 - count_itemsize) `div` data_itemsize in
    if cells_per_row <? 0 then Raise (ValueError "Array length must be >= 0")
    else
      let per_row := Z.to_nat cells_per_row in
      recs ← frombuffer (itemsize count_dtype + itemsize data_dtype * per_row) block_buffer;
      (* [data_dtype * 1] is [data_dtype] itself: the field of a block of
         one-element rows has one dimension, and [cells.shape[1]] fails *)
      if (per_row =? 1)%nat then Raise IndexError
      else
      let cells := Ndarray data_dtype per_row
        (map (λ rec, map (decode_elem byteorder data_dtype)
                       (records per_row (itemsize data_dtype)
                          (drop (itemsize count_dtype) rec))) recs) in
      Ok (Some (mkCellBlock (cell_type_from_count (Z.of_nat (ncols cells))) cells)).

Fixpoint decode_blocks (buffer : bytes) (count_dtype data_dtype : dtype)
    (byteorder : endian) (byte_starts_ends row_lengths : list Z)
    (bounds : list (nat * nat)) : outcome (list CellBlock) :=
  match bounds with
  | [] => Ok []
  | bound :: bounds' =>
    b ← decode_block buffer count_dtype data_dtype byteorder
          byte_starts_ends row_lengths bound;
    bs ← decode_blocks buffer count_dtype data_dtype byteorder
          byte_starts_ends row_lengths bounds';
    Ok (match b with Some blk => blk :: bs | None => bs end)
  end.

Definition _read_binary_list (buffer : bytes) (count_dtype data_dtype : dtype)
    (num_cells : Z) (endianness : endian) : outcome (Z * list CellBlock) :=
  let count_itemsize := Z.of_nat (itemsize count_dtype) in
  let data_itemsize := Z.of_nat (itemsize data_dtype) in
  let offsets :=
    parse_ragged buffer count_itemsize data_itemsize endianness 0 (Z.to_nat num_cells) in
  (* np.fromiter(..., np.intp, num_cells + 1) *)
  if negb (forallb (λ a, a <? 2 ^ 63) offsets) then Raise OverflowError
  else
    let byte_starts_ends := offsets in
    let row_lengths := diff byte_starts_ends in
    let count_changed_ids := map S (nonzero_from 0 (diff row_lengths)) in
    let block_bounds :=
      block_bounds_loop 0 count_changed_ids (length byte_starts_ends - 1)%nat in
    blocks ← decode_blocks buffer count_dtype data_dtype endianness
               byte_starts_ends row_lengths block_bounds;
    Ok (List.last byte_starts_ends 0, blocks).

(** ** Reading the header *)

Definition LF : ascii := "010"%char.

(** [f.readline()] on the rest [f] of the stream: the line with its newline,
    and what follows. *)
Fixpoint readline (f : bytes) : bytes * bytes :=
  match f with
  | [] => ([], [])
  | c :: r =>
    if Ascii.eqb c LF then ([c], r)
    else let '(l, r') := readline r in (c :: l, r')
  end.

(** [_next_line]: at the end of the stream [readline] keeps returning the
    empty line and the loop of the source never ends; that is the only way
    the fuel runs out. *)
Fixpoint next_line_loop (fuel : nat) (f : bytes) : outcome (string * bytes) :=
  match fuel with
  | O => Diverge
  | S k =>
    let '(raw, f') := readline f in
    let line := strip (decode raw) in
    if negb (String.eqb line EmptyString)
       && negb (String.eqb (py_take 7 line) "comment")
    then Ok (line, f')
    else next_line_loop k f'
  end.

Definition _next_line (f : bytes) : outcome (string * bytes) :=
  next_line_loop (S (length f)) f.

(** [re.match("element " + what + " (\\d+)", line)]: the group. *)
Definition re_element (what line : string) : option string :=
  match after_prefix ("element " +:+ what +:+ " ") line with
  | Some rest =>
    match span_digits rest with
    | (String c d, _) => Some (String c d)
    | _ => None
    end
  | None => None
  end.

(** The greedy [(.+) (.+)] on a text without newline, from a position where
    the first group may still be empty: the text is cut at its last blank
    that leaves a non-empty second group. *)
Fixpoint last_blank (s : string) : option (string * string) :=
  match s with
  | EmptyString => None
  | String x t =>
    match last_blank t with
    | Some (a, b) => Some (String x a, b)
    | None =>
      if Ascii.eqb x " " then
        match t with
        | EmptyString => None
        | _ => Some (EmptyString, t)
        end
      else None
    end
  end.

Definition two_groups (s : string) : option (string * string) :=
  match s with
  | EmptyString => None
  | String c r =>
    match last_blank r with
    | Some (a, b) => Some (String c a, b)
    | None => None
    end
  end.

(** The greedy [(.+) (.+) (.+)], likewise. *)
Fixpoint first_of_three (s : string) : option (string * string * string) :=
  match s with
  | EmptyString => None
  | String x t =>
    match first_of_three t with
    | Some (a, b, c) => Some (String x a, b, c)
    | None =>
      if Ascii.eqb x " " then
        match two_groups t with
        | Some (b, c) => Some (EmptyString, b, c)
        | None => None
        end
      else None
    end
  end.

Definition three_groups (s : string) : option (string * string * string) :=
  match s with
  | EmptyString => None
  | String c r =>
    match first_of_three r with
    | Some (a, b, d) => Some (String c a, b, d)
    | None => None
    end
  end.

(** [re.match("property (.+) (.+)", line)] *)
Definition re_property (line : string) : option (string * string) :=
  match after_prefix "property " line with
  | Some rest => two_groups rest
  | None => None
  end.

(** [re.match("property list (.+) (.+) (.+)", line)] *)
Definition re_property_list (line : string) : option (string * string * string) :=
  match after_prefix "property list " line with
  | Some rest => three_groups rest
  | None => None
  end.

(** The type of a face property: the pair of a list, or a single name. *)
Inductive ply_prop_type : Type :=
| PList (count_type data_type : string)
| PScalar (type_name : string).

Record header : Type := mkHeader {
  num_verts : Z;
  num_cells : Z;
  point_data_formats : list string;
  point_data_names : list string;
  cell_data_names : list string;
  cell_data_dtypes : list ply_prop_type
}.

Fixpoint vertex_properties (fuel : nat) (line : string) (f : bytes)
    (formats names : list string)
    : outcome (string * bytes * list string * list string) :=
  if String.eqb (py_take 8 line) "property" then
    match fuel with
    | O => Diverge
    | S k =>
      match re_property line with
      | None => Raise AttributeError
      | Some (g0, g1) =>
        '(line', f') ← _next_line f;
        vertex_properties k line' f' (formats ++ [g0]) (names ++ [g1])
      end
    end
  else Ok (line, f, formats, names).

Fixpoint face_properties (fuel : nat) (line : string) (f : bytes)
    (names : list string) (dtypes : list ply_prop_type)
    : outcome (string * bytes * list string * list ply_prop_type) :=
  if String.eqb (py_take 8 line) "property" then
    match fuel with
    | O => Diverge
    | S k =>
      entry ←
        (if String.eqb (py_take 13 line) "property list" then
           match re_property_list line with
           | None => Raise AttributeError
           | Some (g0, g1, g2) => Ok (PList g0 g1, g2)
           end
         else
           match re_property line with
           | None => Raise AttributeError
           | Some (g0, g1) => Ok (PScalar g0, g1)
           end);
      '(line', f') ← _next_line f;
      face_properties k line' f' (names ++ [snd entry]) (dtypes ++ [fst entry])
    end
  else Ok (line, f, names, dtypes).

(** The loop [while line != "end_header"] of [read_buffer].  Every turn
    reads at least one line, so the fuel [S (length f)] is never used up. *)
Fixpoint header_loop (fuel : nat) (line : string) (f : bytes) (h : header)
    : outcome (header * bytes) :=
  if String.eqb line "end_header" then Ok (h, f)
  else
    match fuel with
    | O => Diverge
    | S k =>
      let m_vert := re_element "vertex" line in
      let m_face := re_element "face" line in
      if String.eqb (py_take 8 line) "obj_info" then
        '(line', f') ← _next_line f;
        header_loop k line' f' h
      else
        match m_vert, m_face with
        | Some g, _ =>
          let nv := int_of_digits g in
          '(line1, f1) ← _next_line f;
          '(line', f', formats, names) ←
            vertex_properties (S (length f1)) line1 f1
              (point_data_formats h) (point_data_names h);
          header_loop k line' f'
            (mkHeader nv (num_cells h) formats names
               (cell_data_names h) (cell_data_dtypes h))
        | None, Some g =>
          let nc := int_of_digits g in
          if nc <? 0 then
            Raise (ReadError ("Expected positive num_cells (got `" +:+ str nc +:+ "`."))
          else
            '(line1, f1) ← _next_line f;
            '(line', f', names, dtypes) ←
              face_properties (S (length f1)) line1 f1
                (cell_data_names h) (cell_data_dtypes h);
            header_loop k line' f'
              (mkHeader (num_verts h) nc (point_data_formats h)
                 (point_data_names h) names dtypes)
        | None, None =>
          Raise (ReadError ("Expected `element vertex` or `element face` or `obj_info`, "
                            +:+ "got `" +:+ line +:+ "`"))
        end
    end.

(** ** Reading the body *)

(** What the host and numpy's text conversions contribute: the byte order
    and the two strings of the comment line, the text of a float
    ([str.format] on a numpy float scalar), the float of a text, and
    [np.genfromtxt(f, max_rows, dtype)], which yields the rows it parsed and
    the rest of the stream. *)
Record host : Type := mkHost {
  sys_byteorder : endian;
  meshio_version : string;
  now_isoformat : string;
  format_float : dtype → Z → string;
  parse_float : dtype → string → option Z;
  genfromtxt : bytes → Z → list (string * dtype) → outcome (list (list Z) * bytes)
}.

Fixpoint for_each {A B} (f : A → outcome B) (l : list A) : outcome (list B) :=
  match l with
  | [] => Ok []
  | a :: l' => b ← f a; bs ← for_each f l'; Ok (b :: bs)
  end.

Definition dtype_of_format (fmt : string) : outcome dtype :=
  match dict_get fmt ply_to_numpy_dtype_string with
  | Some code => Ok (np_dtype code)
  | None => Raise (KeyError fmt)
  end.

Fixpoint split_fields (widths : list nat) (rec : bytes) : list bytes :=
  match widths with
  | [] => []
  | w :: ws => take w rec :: split_fields ws (drop w rec)
  end.

Definition decode_record (bo : endian) (dts : list dtype) (rec : bytes) : list Z :=
  zip_with (decode_elem bo) dts (split_fields (map itemsize dts) rec).

Definition sum_nat (l : list nat) : nat := foldr Nat.add O l.

Fixpoint index_of (name : string) (names : list string) : option nat :=
  match names with
  | [] => None
  | n :: ns => if String.eqb name n then Some O else option_map S (index_of name ns)
  end.

Definition column (j : nat) (table : list (list Z)) : list Z :=
  map (λ r, nth j r 0) table.

(** [structured[name]]: the column and its dtype. *)
Definition field (names : list string) (dts : list dtype) (table : list (list Z))
    (name : string) : outcome (dtype * list Z) :=
  match index_of name names with
  | Some j => Ok (nth j dts (Dtype Kother 0), column j table)
  | None => Raise (ValueError ("no field of name " +:+ name))
  end.

(** [np.column_stack] of columns of one dtype. *)
Definition column_stack (cols : list (dtype * list Z)) : outcome ndarray :=
  match cols with
  | [] => Raise (ValueError "need at least one array to concatenate")
  | (dt, c0) :: _ =>
    if forallb (λ c, bool_decide (fst c = dt)) cols then
      if forallb (λ c, bool_decide (length (snd c) = length c0)) cols then
        Ok (Ndarray dt (length cols)
              (map (λ i, map (λ c, nth i (snd c) 0) cols) (seq 0 (length c0))))
      else Raise (ValueError "all the input array dimensions must match")
    else Unmodelled "dtype promotion in column_stack"
  end.

Fixpoint has_dup (l : list string) : bool :=
  match l with
  | [] => false
  | x :: r => bool_decide (x ∈ r) || has_dup r
  end.

(** [d[k] = v] on a dictionary in insertion order. *)
Fixpoint dict_set {V} (k : string) (v : V) (d : list (string * V)) : list (string * V) :=
  match d with
  | [] => [(k, v)]
  | (k', v') :: d' =>
    if String.eqb k k' then (k, v) :: d' else (k', v') :: dict_set k v d'
  end.

Fixpoint dict_del {V} (k : string) (d : list (string * V)) : list (string * V) :=
  match d with
  | [] => []
  | (k', v') :: d' => if String.eqb k k' then d' else (k', v') :: dict_del k d'
  end.

Definition np_dtype_of_prop (p : ply_prop_type) : outcome (dtype * option dtype) :=
  match p with
  | PList c d =>
    cdt ← dtype_of_format c;
    ddt ← dtype_of_format d;
    Ok (cdt, Some ddt)
  | PScalar t => dt ← dtype_of_format t; Ok (dt, None)
  end.

Fixpoint read_cell_data (buffer : bytes) (endianness : endian) (num_cells : Z)
    (props : list (string * (dtype * option dtype))) (buffer_position : Z)
    (cell_data : list (string * cell_data_value))
    : outcome (list (string * cell_data_value)) :=
  match props with
  | [] => Ok cell_data
  | (name, (dt0, Some dt1)) :: props' =>
    '(buffer_increment, blocks) ←
      _read_binary_list (drop (Z.to_nat buffer_position) buffer) dt0 dt1
        num_cells endianness;
    read_cell_data buffer endianness num_cells props'
      (buffer_position + buffer_increment) (dict_set name (CDblocks blocks) cell_data)
  | (name, (dt, None)) :: props' =>
    let buffer_increment := Z.of_nat (itemsize dt) in
    recs ← frombuffer (itemsize dt)
             (slice buffer buffer_position (buffer_position + buffer_increment));
    match recs with
    | [] => Raise IndexError
    | r :: _ =>
      read_cell_data buffer endianness num_cells props'
        (buffer_position + buffer_increment)
        (dict_set name (CDscalar dt (decode_elem endianness dt r)) cell_data)
    end
  end.

Definition _read_binary (f : bytes) (endianness : endian)
    (point_data_names formats : list string) (num_verts num_cells : Z)
    (cell_data_names : list string) (cell_data_dtypes : list ply_prop_type)
    : outcome Mesh :=
  (* read point data *)
  dts ← for_each dtype_of_format (take (length point_data_names) formats);
  let names := take (length dts) point_data_names in
  if has_dup names then Raise (ValueError "field occurs more than once")
  else
    let rec_size := sum_nat (map itemsize dts) in
    let chunk := take (Z.to_nat (num_verts * Z.of_nat rec_size)) f in
    let f := drop (Z.to_nat (num_verts * Z.of_nat rec_size)) f in
    recs ← frombuffer rec_size chunk;
    let table := map (decode_record endianness dts) recs in
    x ← field names dts table "x";
    y ← field names dts table "y";
    z ← field names dts table "z";
    verts ← column_stack [x; y; z];
    let point_data :=
      omap (λ name,
              if bool_decide (name ∈ ["x"; "y"; "z"]) then None
              else match index_of name names with
                   | Some j =>
                     Some (name, Flatarray (nth j dts (Dtype Kother 0))
                                   [length table] (column j table))
                   | None => None
                   end) names in
    (* Convert strings to proper numpy dtypes *)
    dts ← for_each np_dtype_of_prop cell_data_dtypes;
    let buffer := f in
    cell_data ← read_cell_data buffer endianness num_cells
                  (zip cell_data_names dts) 0 [];
    cells ← match dict_get "vertex_indices" cell_data with
            | None => Ok []
            | Some (CDblocks blocks) => Ok blocks
            | Some _ => Raise TypeError
            end;
    Mesh_init verts cells point_data (dict_del "vertex_indices" cell_data).

(** [line.split()] *)
Fixpoint split_ws (cur : string) (s : string) : list string :=
  match s with
  | EmptyString =>
    match cur with EmptyString => [] | _ => [cur] end
  | String c r =>
    if is_space c then
      match cur with
      | EmptyString => split_ws EmptyString r
      | _ => cur :: split_ws EmptyString r
      end
    else split_ws (cur +:+ String c EmptyString) r
  end.

Definition py_split (s : string) : list string := split_ws EmptyString s.

(** [data[i]] *)
Definition item (data : list string) (i : Z) : outcome string :=
  let j := if i <? 0 then i + Z.of_nat (length data) else i in
  if j <? 0 then Raise IndexError
  else match data !! Z.to_nat j with
       | Some s => Ok s
       | None => Raise IndexError
       end.

(** [int(data[i])] *)
Definition int_item (data : list string) (i : Z) : outcome Z :=
  s ← item data i;
  match py_int s with
  | Some n => Ok n
  | None => Raise (ValueError "invalid literal for int()")
  end.

Definition in_rangeb (dt : dtype) (v : Z) : bool :=
  match kind dt with
  | Kint =>
    (- 2 ^ (8 * Z.of_nat (itemsize dt) - 1) <=? v)
    && (v <? 2 ^ (8 * Z.of_nat (itemsize dt) - 1))
  | _ => (0 <=? v) && (v <? 2 ^ (8 * Z.of_nat (itemsize dt)))
  end.

(** [dtype(text)] for a numpy scalar type. *)
Definition scalar_of_string (h : host) (dt : dtype) (s : string) : outcome Z :=
  match kind dt with
  | Kint | Kuint =>
    match py_int s with
    | Some v => if in_rangeb dt v then Ok v else Raise OverflowError
    | None => Raise (ValueError "invalid literal for int()")
    end
  | _ =>
    match parse_float h dt s with
    | Some v => Ok v
    | None => Raise (ValueError "could not convert string to float")
    end
  end.

(** [range(a, b)] *)
Definition py_range (a b : Z) : list Z :=
  map (λ k, a + Z.of_nat k) (seq 0 (Z.to_nat (b - a))).

(** A [defaultdict(list)] keyed by a row length, in insertion order:
    [d[n] += [x]]. *)
Fixpoint bucket_add {V} (n : Z) (x : V) (d : list (Z * list V)) : list (Z * list V) :=
  match d with
  | [] => [(n, [x])]
  | (n', xs) :: d' =>
    if n =? n' then (n', xs ++ [x]) :: d' else (n', xs) :: bucket_add n x d'
  end.

Definition dtype_of_name (name : string) : outcome dtype :=
  match dict_get name ply_to_numpy_dtype with
  | Some dt => Ok dt
  | None => Raise (KeyError name)
  end.

(** The state of the loop over the face lines of [_read_ascii]: the variable
    [n], the dictionary [polygons] (rows with the dtype that made them) and
    [cell_data]. *)
Record faces_state : Type := mkFaces {
  fs_n : Z;
  polygons : list (Z * list (dtype * list Z));
  fs_cell_data : list (string * list (Z * list Z))
}.

(** The first pass over the first line, [if k == 0]. *)
Fixpoint init_cell_data (data : list string) (props : list (string * ply_prop_type))
    (i : Z) (n : Z) (cell_data : list (string * list (Z * list Z)))
    : outcome (Z * list (string * list (Z * list Z))) :=
  match props with
  | [] => Ok (n, cell_data)
  | (name, _) :: props' =>
    if String.eqb name "vertex_indices" then
      n ← int_item data i;
      init_cell_data data props' (i + (n + 1)) n cell_data
    else
      init_cell_data data props' (i + 1) 1 (dict_set name [] cell_data)
  end.

(** The pass over one line. *)
Fixpoint read_face (h : host) (data : list string)
    (props : list (string * ply_prop_type)) (i : Z) (st : faces_state)
    : outcome faces_state :=
  match props with
  | [] => Ok st
  | (name, dtype) :: props' =>
    if String.eqb name "vertex_indices" then
      n ← int_item data i;
      dt ← match dtype with
           | PList _ d => dtype_of_name d
           | PScalar (String _ (String c _)) => dtype_of_name (String c EmptyString)
           | PScalar _ => Raise IndexError
           end;
      row ← for_each (λ j, s ← item data j; scalar_of_string h dt s)
              (py_range (i + 1) (i + n + 1));
      read_face h data props' (i + (n + 1))
        (mkFaces n (bucket_add n (dt, row) (polygons st)) (fs_cell_data st))
    else
      dt ← match dtype with
           | PScalar t => dtype_of_name t
           | PList c d => Raise (KeyError ("('" +:+ c +:+ "', '" +:+ d +:+ "')"))
           end;
      s ← item data i;
      v ← scalar_of_string h dt s;
      match dict_get name (fs_cell_data st) with
      | None => Raise (KeyError name)
      | Some buckets =>
        read_face h data props' (i + 1)
          (mkFaces (fs_n st) (polygons st)
             (dict_set name (bucket_add (fs_n st) v buckets) (fs_cell_data st)))
      end
  end.

(** [for k in range(num_cells)], on the rest [f] of the stream. *)
Fixpoint read_faces (h : host) (cell_data_names : list string)
    (cell_dtypes : list ply_prop_type)
    (k : nat) (num_cells : nat) (f : bytes) (st : faces_state)
    : outcome faces_state :=
  match num_cells with
  | O => Ok st
  | S m =>
    let '(raw, f') := readline f in
    let line := strip (decode raw) in
    let data := py_split line in
    st ← (if (k =? 0)%nat then
            (* initialize the cell data arrays *)
            if bool_decide (length cell_data_names = length cell_dtypes) then
              '(n, cd) ← init_cell_data data (zip cell_data_names cell_dtypes)
                           0 (fs_n st) [];
              Ok (mkFaces n (polygons st) cd)
            else Raise AssertionError
          else Ok st);
    st ← read_face h data (zip cell_data_names cell_dtypes) 0 st;
    read_faces h cell_data_names cell_dtypes (S k) m f' st
  end.

(** [np.array(rows)] for the rows of one bucket of [polygons]. *)
Definition np_array (n : Z) (rows : list (dtype * list Z)) : outcome ndarray :=
  match rows with
  | [] => Ok (Ndarray np_float64 0 [])
  | (dt, _) :: _ =>
    if n <=? 0 then Ok (Ndarray np_float64 0 (map snd rows))
    else if forallb (λ r, bool_decide (fst r = dt)) rows
    then Ok (Ndarray dt (Z.to_nat n) (map snd rows))
    else Unmodelled "dtype promotion in np.array"
  end.

(** [cells] of [_read_ascii], from the dictionary [polygons]. *)
Definition cells_of_polygons (polygons : list (Z * list (dtype * list Z)))
    : outcome (list CellBlock) :=
  for_each (λ '(n, data), a ← np_array n data;
              Ok (mkCellBlock (cell_type_from_count n) a)) polygons.

(** The part of [_read_ascii] that follows the points: the face lines. *)
Definition read_ascii_cells (h : host) (f : bytes) (num_cells : Z)
    (cell_data_names : list string) (cell_dtypes : list ply_prop_type)
    : outcome (list CellBlock * list (string * cell_data_value)) :=
  st ← read_faces h cell_data_names cell_dtypes 0 (Z.to_nat num_cells) f
         (mkFaces 0 [] []);
  cells ← cells_of_polygons (polygons st);
  Ok (cells, map (λ kv, (fst kv, CDarrays (map snd (snd kv)))) (fs_cell_data st)).

(** The part of [_read_ascii] that comes before the faces: the points and
    the point data, and the rest of the stream. *)
Definition read_ascii_points (h : host) (f : bytes)
    (point_data_names point_data_formats : list string) (num_verts : Z)
    : outcome (ndarray * list (string * flatarray) * bytes) :=
  dts ← for_each dtype_of_name (take (length point_data_names) point_data_formats);
  let names := take (length dts) point_data_names in
  if has_dup names then Raise (ValueError "field occurs more than once")
  else
  '(table, f) ← genfromtxt h f num_verts (zip names dts);
  (* split off coordinate data and additional point data *)
  n0 ← item point_data_names 0;
  x ← (if String.eqb n0 "x" then c ← field names dts table "x"; Ok [c] else Ok []);
  n1 ← item point_data_names 1;
  y ← (if String.eqb n1 "y" then c ← field names dts table "y"; Ok [c] else Ok []);
  n2 ← item point_data_names 2;
  z ← (if String.eqb n2 "z" then c ← field names dts table "z"; Ok [c] else Ok []);
  let k := length (x ++ y ++ z) in
  verts ← column_stack (x ++ y ++ z);
  point_data ← for_each (λ name, c ← field names dts table name;
                           Ok (name, Flatarray (fst c) [length table] (snd c)))
                 (drop k point_data_names);
  Ok (verts, point_data, f).

Definition _read_ascii (h : host) (f : bytes)
    (point_data_names point_data_formats : list string)
    (num_verts num_cells : Z) (cell_data_names : list string)
    (cell_dtypes : list ply_prop_type) : outcome Mesh :=
  '(verts, point_data, f) ←
    read_ascii_points h f point_data_names point_data_formats num_verts;
  '(cells, cell_data) ← read_ascii_cells h f num_cells cell_data_names cell_dtypes;
  Mesh_init verts cells point_data cell_data.

(** ** The reader *)

Definition read_buffer (h : host) (f : bytes) : outcome Mesh :=
  (* assert that the first line reads `ply` *)
  let '(raw, f) := readline f in
  let line := strip (decode raw) in
  if negb (String.eqb line "ply") then Raise (ReadError "Expected ply")
  else
    '(line, f) ← _next_line f;
    '(is_binary, endianness) ←
      (if String.eqb line "format ascii 1.0" then Ok (false, Little)
       else if String.eqb line "format binary_big_endian 1.0" then Ok (true, Big)
       else if negb (String.eqb line "format binary_little_endian 1.0")
       then Raise (ReadError EmptyString)
       else Ok (true, Little));
    (* read header *)
    '(line, f) ← _next_line f;
    '(hd, f) ← header_loop (S (length f)) line f (mkHeader 0 0 [] [] [] []);
    if is_binary : bool then
      _read_binary f endianness (point_data_names hd) (point_data_formats hd)
        (num_verts hd) (num_cells hd) (cell_data_names hd) (cell_data_dtypes hd)
    else
      _read_ascii h f (point_data_names hd) (point_data_formats hd)
        (num_verts hd) (num_cells hd) (cell_data_names hd) (cell_data_dtypes hd).

(** [open_file] of [meshio/_files.py] yields a buffer as it is and opens a
    path. *)
Definition open_file (fs : filesystem) (filename : source) : outcome bytes :=
  match filename with
  | Buffer content => Ok content
  | Path p =>
    match fs !! p with
    | Some content => Ok content
    | None => Raise FileNotFoundError
    end
  end.


(** ** The writer

    [write] runs on a state: the list [mesh.cells] of the caller's mesh
    (which it updates in place), the warnings raised so far, and the bytes
    written to [fh] so far.  All three survive an exception.  The
    warnings are those of the codec itself. *)

Record wstate : Type := mkW {
  w_cells : list CellBlock;
  w_warnings : list string;
  fh : bytes
}.

Definition W (A : Type) : Type := wstate → wstate * outcome A.

Global Instance W_ret : MRet W := λ A a s, (s, Ok a).

Global Instance W_bind : MBind W := λ A B k m s,
  let '(s', r) := m s in
  match r with
  | Ok a => k a s'
  | Raise e => (s', Raise e)
  | Diverge => (s', Diverge)
  | Unmodelled w => (s', Unmodelled w)
  end.

Definition fh_write (b : bytes) : W unit := λ s,
  (mkW (w_cells s) (w_warnings s) (fh s ++ b), Ok ()).

Definition warnings_warn (msg : string) : W unit := λ s,
  (mkW (w_cells s) (w_warnings s ++ [msg]) (fh s), Ok ()).

Definition lift {A} (o : outcome A) : W A := λ s, (s, o).

Definition get_cells : W (list CellBlock) := λ s, (s, Ok (w_cells s)).

(** [mesh.cells[k] = b] *)
Definition set_cell (k : nat) (b : CellBlock) : W unit := λ s,
  (mkW (<[k := b]> (w_cells s)) (w_warnings s) (fh s), Ok ()).

Fixpoint for_ {A} (l : list A) (body : A → W unit) : W unit :=
  match l with
  | [] => mret ()
  | a :: l' => body a ;; for_ l' body
  end.

Definition byteorder_name (bo : endian) : string :=
  match bo with Little => "little" | Big => "big" end.

(** The text and a newline, encoded. *)
Definition text_line (text : string) : bytes :=
  encode (text +:+ String LF EmptyString).

Definition dim_names : list string := ["x"; "y"; "z"].

(** [[coord for coord in a.T]] *)
Definition columns (a : ndarray) : list (list Z) :=
  map (λ j, column j (rows a)) (seq 0 (ncols a)).

(** [np.rec.fromarrays]: a list of arrays of one shape as a table of records,
    with the dtype of each field. *)
Definition rec_fromarrays (arrays : list flatarray)
    : outcome (list dtype * list (list Z)) :=
  match arrays with
  | [] => Raise IndexError
  | a0 :: _ =>
    if forallb (λ a, bool_decide (flat_shape a = flat_shape a0)) arrays then
      match flat_shape a0 with
      | [n] =>
        Ok (map flat_dtype arrays,
            map (λ i, map (λ a, nth i (flat_values a) 0) arrays) (seq 0 n))
      | _ => Unmodelled "records of another shape than (n,)"
      end
    else Raise (ValueError "array-shape mismatch")
  end.

(** [out.tobytes()] of a record array, in the byte order of the host. *)
Definition tobytes (bo : endian) (dts : list dtype) (table : list (list Z)) : bytes :=
  concat (map (λ row, concat (zip_with (encode_elem bo) dts row)) table).

(** ["{}".format(x)] for an array element. *)
Definition format_scalar (h : host) (dt : dtype) (v : Z) : string :=
  match kind dt with
  | Kint | Kuint => str v
  | _ => format_float h dt v
  end.

(** The rows of [out], each formatted with [fmt], joined by newlines, and a
    final newline. *)
Definition format_rows (h : host) (dts : list dtype) (table : list (list Z)) : string :=
  join (String LF EmptyString)
       (map (λ row, join " " (zip_with (format_scalar h) dts row)) table)
  +:+ String LF EmptyString.

(** [data.astype(np.int32)] on 64-bit integers. *)
Definition wrap_int32 (v : Z) : Z := (v + 2 ^ 31) `mod` 2 ^ 32 - 2 ^ 31.

Definition astype_int32 (a : ndarray) : ndarray :=
  Ndarray np_int32 (ncols a) (map (map wrap_int32) (rows a)).

(** [for key, value in mesh.point_data.items()] of the header. *)
Fixpoint write_point_data_header (point_data : list (string * flatarray))
    (pd : list flatarray) : W (list flatarray) :=
  match point_data with
  | [] => mret pd
  | (key, value) :: rest =>
    if (1 <? length (flat_shape value))%nat then
      warnings_warn ("PLY writer doesn't support multidimensional point data yet. Skipping "
                     +:+ key +:+ ".") ;;
      write_point_data_header rest pd
    else
      match type_name_table (flat_dtype value) with
      | None => lift (Raise (KeyError "dtype"))
      | Some type_name =>
        fh_write (text_line ("property " +:+ type_name +:+ " " +:+ key)) ;;
        write_point_data_header rest (pd ++ [value])
      end
  end.

(** [num_cells] of the header: the rows of the blocks whose count is truthy. *)
Fixpoint count_cells (cells : list CellBlock) (num_cells : Z) : Z :=
  match cells with
  | [] => num_cells
  | b :: rest =>
    count_cells rest
      (match cell_type_to_count (cell_type b) with
       | Some c => if c =? 0 then num_cells else num_cells + Z.of_nat (nrows (data b))
       | None => num_cells
       end)
  end.

(** [for k, (cell_type, data) in enumerate(mesh.cells)]: possibly cast down
    to int32. *)
Fixpoint cast_down (k : nat) (todo : list CellBlock) (has_cast : bool) : W bool :=
  match todo with
  | [] => mret has_cast
  | b :: rest =>
    if decide (arr_dtype (data b) = np_int64) then
      set_cell k (mkCellBlock (cell_type b) (astype_int32 (data b))) ;;
      cast_down (S k) rest true
    else cast_down (S k) rest has_cast
  end.

(** [assert that all cell dtypes are equal] *)
Fixpoint common_dtype (cells : list CellBlock) (cell_dtype : option dtype)
    : outcome (option dtype) :=
  match cells with
  | [] => Ok cell_dtype
  | b :: rest =>
    let cell_dtype :=
      match cell_dtype with
      | None => arr_dtype (data b)
      | Some dt => dt
      end in
    if decide (arr_dtype (data b) ≠ cell_dtype) then Raise (WriteError EmptyString)
    else common_dtype rest (Some cell_dtype)
  end.

(** The message for a block that the binary branch skips; the source does
    not fill in the placeholder. *)
Definition skipping_warning : string :=
  "cell_type " +:+ String "034" "{}" +:+ String "034"
    " is not supported by ply format - skipping".

(** What numpy before version 2 makes of a Python integer that it stores
    in an integer dtype, in [np.uint8(n)] and in [np.full(..., n, dtype)]: the
    value modulo the size of the dtype (numpy 2 raises OverflowError when
    the value does not fit). *)
Definition wrap (dt : dtype) (v : Z) : Z :=
  let m := 2 ^ (8 * Z.of_nat (itemsize dt)) in
  match kind dt with
  | Kint => (v + m / 2) `mod` m - m / 2
  | _ => v `mod` m
  end.

Definition write_binary_cells (h : host) (b : CellBlock) : W unit :=
  match cell_type_to_count (cell_type b) with
  | None => warnings_warn skipping_warning
  | Some _ =>
    let d := data b in
    '(dts, table) ← lift (rec_fromarrays
      (Flatarray np_uint8 [nrows d]
         (replicate (nrows d) (wrap np_uint8 (Z.of_nat (ncols d))))
       :: map (λ c, Flatarray (arr_dtype d) [nrows d] c) (columns d)));
    fh_write (tobytes (sys_byteorder h) dts table)
  end.

Definition write_ascii_cells (h : host) (b : CellBlock) : W unit :=
  let d := data b in
  let dt := arr_dtype d in
  match kind dt with
  | Kint | Kuint =>
    fh_write (encode (format_rows h (replicate (S (ncols d)) dt)
                        (map (λ row, wrap dt (Z.of_nat (ncols d)) :: row) (rows d))))
  | _ => lift (Unmodelled "np.full of a row length in a dtype that is not an integer")
  end.

(** [write] in three parts: the header up to the point data (it returns the
    list [pd]), the face element of the header with the cast to int32, and
    the body. *)
Definition write_vertex_header (h : host) (mesh : Mesh) (binary : bool)
    : W (list flatarray) :=
  fh_write (text_line "ply") ;;
  (if binary then
     fh_write (text_line ("format binary_" +:+ byteorder_name (sys_byteorder h)
                          +:+ "_endian 1.0"))
   else fh_write (text_line "format ascii 1.0")) ;;
  fh_write (text_line ("comment Created by meshio v" +:+ meshio_version h +:+ ", "
                       +:+ now_isoformat h)) ;;
  (* counts *)
  fh_write (text_line ("element vertex " +:+ str (Z.of_nat (nrows (points mesh))))) ;;
  for_ (seq 0 (ncols (points mesh))) (λ k,
    match type_name_table (arr_dtype (points mesh)) with
    | None => lift (Raise (KeyError "dtype"))
    | Some type_name =>
      match dim_names !! k with
      | None => lift (Raise IndexError)
      | Some dim => fh_write (text_line ("property " +:+ type_name +:+ " " +:+ dim))
      end
    end) ;;
  write_point_data_header (point_data mesh) [].

Definition narrowing_warning : string :=
  "PLY doesn't support 64-bit integers. Casting down to 32-bit.".

Definition write_face_header : W unit :=
  cells0 ← get_cells;
  let num_cells := count_cells cells0 0 in
  if 0 <? num_cells then
    fh_write (text_line ("element face " +:+ str num_cells)) ;;
    (* possibly cast down to int32 *)
    has_cast ← cast_down 0 cells0 false;
    (if has_cast : bool then warnings_warn narrowing_warning else mret ()) ;;
    (* assert that all cell dtypes are equal *)
    cells1 ← get_cells;
    cell_dtype ← lift (common_dtype cells1 None);
    match cell_dtype with
    | None => mret ()
    | Some dt =>
      match numpy_to_ply_dtype dt with
      | None => lift (Raise (KeyError "dtype"))
      | Some ply_type =>
        fh_write (text_line ("property list uint8 " +:+ ply_type +:+ " vertex_indices"))
      end
    end
  else mret ().

Definition write_data (h : host) (mesh : Mesh) (binary : bool)
    (pd : list flatarray) : W unit :=
  let point_arrays :=
    map (λ c, Flatarray (arr_dtype (points mesh)) [nrows (points mesh)] c)
        (columns (points mesh)) ++ pd in
  if binary then
    (* points and point_data *)
    '(dts, table) ← lift (rec_fromarrays point_arrays);
    fh_write (tobytes (sys_byteorder h) dts table) ;;
    (* cells *)
    cells2 ← get_cells;
    for_ cells2 (write_binary_cells h)
  else
    (* vertices *)
    '(dts, table) ← lift (rec_fromarrays point_arrays);
    (match table with
     | [] => lift (Raise IndexError)
     | _ => fh_write (encode (format_rows h dts table))
     end) ;;
    (* cells *)
    cells2 ← get_cells;
    for_ cells2 (write_ascii_cells h).

Definition ply_write_body (h : host) (mesh : Mesh) (binary : bool) : W unit :=
  pd ← write_vertex_header h mesh binary;
  write_face_header ;;
  (* TODO other cell data *)
  fh_write (text_line "end_header") ;;
  write_data h mesh binary pd.

(** ** The functions [read] and [write] of the codec, and its registration *)

Module ply.

Definition read (h : host) : reader := λ fs filename,
  f ← open_file fs filename;
  read_buffer h f.

Definition write (h : host) (filename : source) (mesh : Mesh) (binary : bool)
    : write_result :=
  let '(s, r) := ply_write_body h mesh binary (mkW (cells mesh) [] []) in
  mkWriteResult
    (mkMesh (points mesh) (w_cells s) (point_data mesh) (cell_data mesh))
    (w_warnings s) (fh s) r.

(** [write] as the registry calls it, with keyword arguments. *)
Definition write_kw (h : host) : writer := λ filename mesh kw,
  match kw with
  | [] => write h filename mesh true
  | [(name, binary)] =>
    if String.eqb name "binary" then write h filename mesh binary
    else write_raised mesh TypeError
  | _ => write_raised mesh TypeError
  end.

End ply.

(** [register("ply", [".ply"], read, {"ply": write})] on the empty tables. *)
Definition ply_registry (h : host) : registry :=
  register "ply" [".ply"] (Some (ply.read h)) [("ply", ply.write_kw h)] empty_registry.

(** ** Notions used to state the properties *)

(** The extensions a path carries, the longest first: its suffixes joined
    from each position on, in lower case. *)
Fixpoint accumulated (sfx : list string) : list string :=
  match sfx with
  | [] => []
  | s :: rest => lower (foldr String.append EmptyString sfx) :: accumulated rest
  end.

(** The format of the first registered extension of a list. *)
Fixpoint first_registered (table : gmap string string) (exts : list string)
    : option string :=
  match exts with
  | [] => None
  | e :: rest =>
    match table !! e with
    | Some name => Some name
    | None => first_registered table rest
    end
  end.

(** ** Concrete inputs *)

(** A little-endian host.  Its float conversions are stand-ins (the text
    of a float is the decimal of its bits); the binary codec does not use
    them. *)
Definition host0 : host :=
  mkHost Little "4.0.0" "2020-02-18T10:30:00.000000"
    (λ _ v, str v) (λ _ _, None) (λ _ _ _, Raise TypeError).

(** The entries of [num_nodes_per_cell] for the four names the codec shares
    with it. *)
Definition nnpc0 : gmap string Z :=
  list_to_map [("vertex", 1); ("line", 2); ("triangle", 3); ("quad", 4)].

(** The bits of the double [1.0]. *)
Definition one_f64 : Z := 4607182418800017408.

Definition square_points : ndarray :=
  Ndarray np_float64 3
    [[0; 0; 0]; [one_f64; 0; 0]; [0; one_f64; 0]; [one_f64; one_f64; 0]].


(** An empty binary PLY file. *)
Definition empty_ply : bytes :=
  text_line "ply" ++ text_line "format binary_little_endian 1.0"
  ++ text_line "element vertex 0"
  ++ text_line "property float x" ++ text_line "property float y"
  ++ text_line "property float z" ++ text_line "end_header".

(** One record of a ragged list on disk: the count of its elements, then the
    elements. *)
Definition encode_row (bo : endian) (count_dtype data_dtype : dtype)
    (row : list Z) : bytes :=
  to_bytes bo (itemsize count_dtype) (Z.of_nat (length row))
  ++ concat (map (encode_elem bo data_dtype) row).

Definition encode_rows (bo : endian) (count_dtype data_dtype : dtype)
    (table : list (list Z)) : bytes :=
  concat (map (encode_row bo count_dtype data_dtype) table).

(** The maximal runs of consecutive rows of one length: [cur] is the run
    being collected, [rest] what is still to come. *)
Fixpoint runs_from (cur : list (list Z)) (n : nat) (rest : list (list Z))
    : list (list (list Z)) :=
  match rest with
  | [] => [cur]
  | r :: rest' =>
    if decide (length r = n) then runs_from (cur ++ [r]) n rest'
    else cur :: runs_from [r] (length r) rest'
  end.

Definition runs (table : list (list Z)) : list (list (list Z)) :=
  match table with
  | [] => []
  | r :: rest => runs_from [r] (length r) rest
  end.

(** The cell block the decoder makes of a run. *)
Definition block_of_run (data_dtype : dtype) (run : list (list Z)) : CellBlock :=
  let n := length (hd [] run) in
  mkCellBlock (cell_type_from_count (Z.of_nat n)) (Ndarray data_dtype n run).

(** The byte offsets of the records of a table that starts at [a]. *)
Fixpoint offsets_from (count_dtype data_dtype : dtype) (a : Z)
    (table : list (list Z)) : list Z :=
  a ::
  match table with
  | [] => []
  | r :: rest =>
    offsets_from count_dtype data_dtype
      (a + (Z.of_nat (length r) * Z.of_nat (itemsize data_dtype)
            + Z.of_nat (itemsize count_dtype))) rest
  end.

(** The row ranges of consecutive runs, from row [b] on. *)
Fixpoint intervals (b : nat) (rs : list (list (list Z))) : list (nat * nat) :=
  match rs with
  | [] => []
  | run :: rs' => (b, b + length run)%nat :: intervals (b + length run) rs'
  end.

(** A run is not empty and its rows have one length. *)
Definition uniform_run (run : list (list Z)) : Prop :=
  run ≠ [] ∧ ∀ r, r ∈ run -> length r = length (hd [] run).

(** Consecutive runs differ in the length of their rows. *)
Fixpoint runs_maximal (rs : list (list (list Z))) : Prop :=
  match rs with
  | run :: ((run' :: _) as rs') =>
    length (hd [] run) ≠ length (hd [] run') ∧ runs_maximal rs'
  | _ => True
  end.

(** A row the count field and the data dtype can hold. *)
Definition row_ok (count_dtype data_dtype : dtype) (row : list Z) : Prop :=
  Z.of_nat (length row) < 256 ^ Z.of_nat (itemsize count_dtype)
  ∧ Forall (in_range data_dtype) row.

(** The size of a record on disk. *)
Definition row_bytes (count_dtype data_dtype : dtype) (row : list Z) : Z :=
  Z.of_nat (length row) * Z.of_nat (itemsize data_dtype)
  + Z.of_nat (itemsize count_dtype).

(** Six records of lengths 3, 3, 3, 4, 4, 5. *)
Definition ragged_example : list (list Z) :=
  [[0; 1; 2]; [0; 2; 3]; [0; 3; 4]; [0; 1; 2; 3]; [4; 5; 6; 7]; [0; 1; 2; 3; 4]].




(** The stream [f] starts with one line per row of the table: the tokens of
    the line start with the length of the row and its elements, as integer
    literals. *)
Fixpoint face_lines (f : bytes) (table : list (list Z)) : Prop :=
  match table with
  | [] => True
  | r :: rest =>
    (∃ extra,
       map py_int (py_split (strip (decode (fst (readline f)))))
       = map Some (Z.of_nat (length r) :: r) ++ extra)
    ∧ face_lines (snd (readline f)) rest
  end.




(** What the cast of [write] makes of [mesh.cells]. *)
Definition narrow (b : CellBlock) : CellBlock :=
  if decide (arr_dtype (data b) = np_int64)
  then mkCellBlock (cell_type b) (astype_int32 (data b))
  else b.

Definition has_int64 (cells : list CellBlock) : bool :=
  existsb (λ b, bool_decide (arr_dtype (data b) = np_int64)) cells.

(** A later state of the writer that has the same cells and, among its new
    warnings, none about the cast. *)
Definition same_cells (s s' : wstate) : Prop :=
  w_cells s' = w_cells s
  ∧ ∃ ws, w_warnings s' = w_warnings s ++ ws ∧ narrowing_warning ∉ ws.

(** A call that returned or raised. *)
Definition ended {A} (r : outcome A) : Prop :=
  (∃ a, r = Ok a) ∨ (∃ e, r = Raise e).


(** The vertex part of the header can be written: the dtypes of the points
    and of the point data have names, and there are at most three
    coordinates. *)
Definition vertex_header_written (h : host) (mesh : Mesh) (binary : bool) : Prop :=
  ∃ s pd, write_vertex_header h mesh binary (mkW (cells mesh) [] []) = (s, Ok pd).

(** A triangle and a quad with indices of two dtypes. *)
Definition mesh_mixed : Mesh :=
  mkMesh square_points
    [mkCellBlock "triangle" (Ndarray np_int32 3 [[0; 1; 2]]);
     mkCellBlock "quad" (Ndarray np_int16 4 [[0; 1; 3; 2]])] [] [].

(** Two blocks of custom cell types with indices of two dtypes. *)
Definition mesh_mixed_custom : Mesh :=
  mkMesh square_points
    [mkCellBlock "wedge5" (Ndarray np_int32 5 [[0; 1; 2; 3; 0]]);
     mkCellBlock "edge" (Ndarray np_int16 2 [[0; 1]])] [] [].

(** The corners of the unit square with integer coordinates. *)
Definition grid_points : ndarray :=
  Ndarray np_int32 3 [[0; 0; 0]; [1; 0; 0]; [0; 1; 0]; [1; 1; 0]].

(** A triangle and a block of a custom cell type. *)
Definition mesh_custom : Mesh :=
  mkMesh grid_points
    [mkCellBlock "triangle" (Ndarray np_int32 3 [[0; 1; 2]]);
     mkCellBlock "wedge5" (Ndarray np_int32 5 [[1; 3; 2; 0; 0]])] [] [].

(** A text that holds no newline. *)
Definition no_LF (s : string) : Prop :=
  Forall (λ c, c ≠ LF) (list_ascii_of_string s).

(** A text that [strip] leaves as it is, and that [_next_line] does not take
    for a comment or an empty line. *)
Definition significant (s : string) : Prop :=
  no_LF s ∧ strip (s +:+ String LF EmptyString) = s
  ∧ s ≠ EmptyString ∧ py_take 7 s ≠ "comment".

(** The header that [write] makes in binary mode for [n] points of a dtype
    named [tp] and [k] faces with indices of a dtype named [tc]. *)
Definition vertex_properties_text (tp : string) : bytes :=
  text_line ("property " +:+ tp +:+ " " +:+ "x")
  ++ text_line ("property " +:+ tp +:+ " " +:+ "y")
  ++ text_line ("property " +:+ tp +:+ " " +:+ "z").

Definition vertex_header_text (h : host) (binary : bool) (n : Z) (tp : string) : bytes :=
  text_line "ply"
  ++ text_line (if binary then
                  "format binary_" +:+ byteorder_name (sys_byteorder h) +:+ "_endian 1.0"
                else "format ascii 1.0")
  ++ text_line ("comment Created by meshio v" +:+ meshio_version h +:+ ", "
                +:+ now_isoformat h)
  ++ text_line ("element vertex " +:+ str n)
  ++ vertex_properties_text tp.

Definition face_header_text (k : Z) (tc : string) : bytes :=
  text_line ("element face " +:+ str k)
  ++ text_line ("property list uint8 " +:+ tc +:+ " vertex_indices").

(** The names under which [write] declares a dtype and under which the
    binary reader finds it again. *)
Definition point_type_names : list string :=
  ["int8"; "int32"; "int64"; "uint8"; "uint16"; "uint32"; "uint64";
   "float"; "double"].

Definition cell_type_names : list string :=
  ["int8"; "int32"; "int64"; "uint8"; "uint16"; "uint32"; "uint64";
   "float32"; "double"].

(** ** The meshes that survive [write] and [read] in binary mode *)

(** The rows of an array have its width and its elements fit its dtype. *)
Definition array_ok (a : ndarray) : Prop :=
  Forall (λ r, length r = ncols a ∧ Forall (in_range (arr_dtype a)) r) (rows a).

(** A block the format can hold under its own tag: rows of 1 to 255
    indices, at least one row, and the tag that [cell_type_from_count] gives
    to this width. *)
Definition block_ready (b : CellBlock) : Prop :=
  (1 <= ncols (data b) <= 255)%nat
  ∧ cell_type b = cell_type_from_count (Z.of_nat (ncols (data b)))
  ∧ rows (data b) ≠ []
  ∧ array_ok (data b).

(** Consecutive blocks differ in width. *)
Fixpoint widths_alternate (cs : list CellBlock) : Prop :=
  match cs with
  | b :: ((b' :: _) as cs') =>
    ncols (data b) ≠ ncols (data b') ∧ widths_alternate cs'
  | _ => True
  end.

(** A dtype that [write] names for the points and the binary reader knows
    under that name. *)
Definition point_dtype_supported (dt : dtype) : Prop :=
  ∃ tp, type_name_table dt = Some tp ∧ dtype_of_format tp = Ok dt.

(** The same for the indices of the cells. *)
Definition cell_dtype_supported (dt : dtype) : Prop :=
  ∃ tc, numpy_to_ply_dtype dt = Some tc ∧ dtype_of_format tc = Ok dt.

(** The size of the cell records on disk. *)
Definition cell_bytes (cs : list CellBlock) : Z :=
  foldr (λ b acc,
           Z.of_nat (nrows (data b))
           * (1 + Z.of_nat (ncols (data b))
                  * Z.of_nat (itemsize (arr_dtype (data (narrow b))))) + acc)
        0 cs.

(** A key of the point data that a line of the header can carry: not empty,
    and made of visible ASCII characters. *)
Definition plain_name (s : string) : Prop :=
  s ≠ EmptyString
  ∧ Forall (λ c, (32 < N_of_ascii c < 127)%N) (list_ascii_of_string s).

(** The name of the dtype of a point data array and its key, as the header
    declares them. *)
Definition property_of (kv : string * flatarray) : string * string :=
  (default EmptyString (type_name_table (flat_dtype (snd kv))), fst kv).

(** The header lines of the point data. *)
Definition point_data_text (props : list (string * string)) : bytes :=
  concat (map (λ p, text_line ("property " +:+ fst p +:+ " " +:+ snd p)) props).

(** A point data array that the format can hold: a plain key, one value
    per point, each in the range of a dtype that [write] names and the
    binary reader knows. *)
Definition point_array_ready (n : nat) (kv : string * flatarray) : Prop :=
  plain_name (fst kv)
  ∧ flat_shape (snd kv) = [n]
  ∧ length (flat_values (snd kv)) = n
  ∧ Forall (in_range (flat_dtype (snd kv))) (flat_values (snd kv))
  ∧ point_dtype_supported (flat_dtype (snd kv)).

(** The records of the points on disk: the coordinates of a point, then its
    value in each point data array. *)
Definition point_table (mesh : Mesh) : list (list Z) :=
  map (λ i, nth i (rows (points mesh)) []
            ++ map (λ kv, nth i (flat_values (snd kv)) 0) (point_data mesh))
      (seq 0 (nrows (points mesh))).

Definition point_dtypes (mesh : Mesh) : list dtype :=
  replicate 3 (arr_dtype (points mesh))
  ++ map (λ kv, flat_dtype (snd kv)) (point_data mesh).

(** The meshes for which the round trip through the binary format is
    proved: three coordinates per point, point data and cells that the
    format can hold, blocks that the reader tells apart, none of them with
    rows of a single index (the binary reader fails on those), and a host
    whose version and date fit on a line. *)
Record roundtrip_ready (h : host) (mesh : Mesh) : Prop := mkReady {
  rr_version : no_LF (meshio_version h);
  rr_now : no_LF (now_isoformat h);
  rr_point_data :
    Forall (point_array_ready (nrows (points mesh))) (point_data mesh);
  rr_keys : NoDup (map fst (point_data mesh));
  rr_keys_xyz : Forall (λ k, k ∉ dim_names) (map fst (point_data mesh));
  rr_dim : ncols (points mesh) = 3%nat;
  rr_points : array_ok (points mesh);
  rr_point_dtype : point_dtype_supported (arr_dtype (points mesh));
  rr_cells : cells mesh ≠ [];
  rr_blocks : Forall block_ready (cells mesh);
  rr_widths : widths_alternate (cells mesh);
  rr_cell_dtype :
    ∃ dt, cell_dtype_supported dt
          ∧ ∀ b, b ∈ cells mesh -> arr_dtype (data (narrow b)) = dt;
  rr_size : cell_bytes (cells mesh) < 2 ^ 63;
  rr_wide : Forall (λ b, ncols (data b) ≠ 1%nat) (cells mesh)
}.

(** All the rows of a list of blocks. *)
Definition all_rows (cs : list CellBlock) : list (list Z) :=
  concat (map (λ b, rows (data b)) cs).

(** A 64-bit block whose indices the cast to 32 bits leaves as they are. *)
Definition fits_int32 (b : CellBlock) : Prop :=
  arr_dtype (data b) = np_int64 ->
  Forall (Forall (in_range np_int32)) (rows (data b)).

(** The lines that the ASCII branch of [write] makes of a block: each row
    after the number of its columns. *)
Definition ascii_rows (h : host) (b : CellBlock) : bytes :=
  encode (format_rows h (replicate (S (ncols (data b))) (arr_dtype (data b)))
            (map (λ row, Z.of_nat (ncols (data b)) :: row) (rows (data b)))).

(** A block that the ASCII branch can format: integer indices, and the
    number of columns is a value of their dtype. *)
Definition ascii_block (b : CellBlock) : Prop :=
  kind (arr_dtype (data b)) ∈ [Kint; Kuint]
  ∧ in_rangeb (arr_dtype (data b)) (Z.of_nat (ncols (data b))) = true.





(** A block whose cell type [cell_type_to_count] does not know. *)
Definition unrecognised (b : CellBlock) : bool :=
  match cell_type_to_count (cell_type b) with
  | None => true
  | Some _ => false
  end.

(** The records that the binary branch of [write] makes of a block. *)
Definition binary_rows (h : host) (b : CellBlock) : bytes :=
  encode_rows (sys_byteorder h) np_uint8 (arr_dtype (data b)) (rows (data b)).

(** A triangle and a quad with 64-bit indices, and a value per point. *)
Definition mesh_point_data : Mesh :=
  mkMesh square_points
    [mkCellBlock "triangle" (Ndarray np_int64 3 [[0; 1; 2]]);
     mkCellBlock "quad" (Ndarray np_int64 4 [[0; 1; 3; 2]])]
    [("id", Flatarray np_int32 [4%nat] [10; 11; 12; 13]);
     ("weight", Flatarray np_float64 [4%nat] [one_f64; 0; one_f64; 0])] [].

(** ** Notions for the properties of the rest of the code *)

(** A table [num_nodes_per_cell] that gives the four cell types of the codec
    their number of nodes. *)
Definition nnpc_standard (nnpc : gmap string Z) : Prop :=
  nnpc !! "vertex" = Some 1 ∧ nnpc !! "line" = Some 2
  ∧ nnpc !! "triangle" = Some 3 ∧ nnpc !! "quad" = Some 4.

(** A block whose tag is the one of its width, whose rows have that width
    and whose dtype is [dt]. *)
Definition block_formed (dt : dtype) (b : CellBlock) : Prop :=
  cell_type b = cell_type_from_count (Z.of_nat (ncols (data b)))
  ∧ arr_dtype (data b) = dt
  ∧ Forall (λ r, length r = ncols (data b)) (rows (data b)).



(** The lines of a stream as [readline] and [strip] give them, the last one
    with or without its newline. *)
Fixpoint stripped_lines (fuel : nat) (f : bytes) : list string :=
  match fuel with
  | O => []
  | S k =>
    match f with
    | [] => []
    | _ => strip (decode (fst (readline f))) :: stripped_lines k (snd (readline f))
    end
  end.

(** Two points with four coordinates each. *)
Definition mesh_four_columns : Mesh :=
  mkMesh (Ndarray np_int32 4 [[0; 0; 0; 1]; [1; 0; 0; 1]]) [] [] [].

(** The lines of a stream up to the first one that reads [end_header]: the
    part of a file that the reader takes for text whatever the format. *)
Fixpoint header_bytes (fuel : nat) (f : bytes) : bytes :=
  match fuel, f with
  | S k, _ :: _ =>
    let '(raw, f') := readline f in
    if String.eqb (strip (decode raw)) "end_header" then raw
    else raw ++ header_bytes k f'
  | _, _ => []
  end.

(** The stream declares the ASCII format on its second significant line. *)
Definition declares_ascii (f : bytes) : Prop :=
  ∃ f2, _next_line (snd (readline f)) = Ok ("format ascii 1.0", f2).

(** A big-endian host. *)
Definition host_big : host :=
  mkHost Big "4.0.0" "2020-02-18T10:30:00.000000"
    (λ _ v, str v) (λ _ _, None) (λ _ _ _, Raise TypeError).

(** The points and the point data of a mesh that the binary format can
    hold, and a host whose version and date fit on a line: the conditions of
    the round trip that do not concern the cells. *)
Record points_ready (h : host) (mesh : Mesh) : Prop := mkPointsReady {
  pr_version : no_LF (meshio_version h);
  pr_now : no_LF (now_isoformat h);
  pr_point_data :
    Forall (point_array_ready (nrows (points mesh))) (point_data mesh);
  pr_keys : NoDup (map fst (point_data mesh));
  pr_keys_xyz : Forall (λ k, k ∉ dim_names) (map fst (point_data mesh));
  pr_dim : ncols (points mesh) = 3%nat;
  pr_points : array_ok (points mesh);
  pr_point_dtype : point_dtype_supported (arr_dtype (points mesh))
}.

(** Four points with a value each and two blocks of custom cell types. *)
Definition mesh_cloud : Mesh :=
  mkMesh square_points
    [mkCellBlock "wedge5" (Ndarray np_int32 5 [[1; 3; 2; 0; 0]]);
     mkCellBlock "edge" (Ndarray np_int16 2 [[0; 1]])]
    [("id", Flatarray np_int32 [4%nat] [10; 11; 12; 13])] [].

(** The stream after [n] calls of [readline]. *)
Fixpoint after_lines (n : nat) (f : bytes) : bytes :=
  match n with
  | O => f
  | S k => after_lines k (snd (readline f))
  end.

(** The next line of the stream holds no token: it is blank, or the stream
    is at its end. *)
Definition no_tokens (f : bytes) : Prop :=
  py_split (strip (decode (fst (readline f)))) = [].

(** ** The ASCII format *)

(** A stand-in for [np.genfromtxt] on the input of the examples: two rows
    or more, each a line of as many integer literals as there are fields,
    all of integer dtypes.  (A single row comes back from numpy without a
    dimension.) *)
Fixpoint all_some {A} (l : list (option A)) : option (list A) :=
  match l with
  | [] => Some []
  | Some a :: l' => option_map (cons a) (all_some l')
  | None :: _ => None
  end.

Definition int_field (dt : dtype) (s : string) : option Z :=
  match kind dt with
  | Kint | Kuint =>
    match py_int s with
    | Some v => if in_rangeb dt v then Some v else None
    | None => None
    end
  | _ => None
  end.

Fixpoint read_int_rows (n : nat) (f : bytes) (dts : list dtype)
    : option (list (list Z) * bytes) :=
  match n with
  | O => Some ([], f)
  | S k =>
    let '(raw, f') := readline f in
    let tokens := py_split (decode raw) in
    if bool_decide (length tokens = length dts) then
      match all_some (zip_with int_field dts tokens), read_int_rows k f' dts with
      | Some row, Some (table, rest) => Some (row :: table, rest)
      | _, _ => None
      end
    else None
  end.

Definition genfromtxt_int (f : bytes) (max_rows : Z) (fields : list (string * dtype))
    : outcome (list (list Z) * bytes) :=
  if max_rows <? 2 then Unmodelled "np.genfromtxt of fewer than two rows"
  else
    match read_int_rows (Z.to_nat max_rows) f (map snd fields) with
    | Some r => Ok r
    | None => Unmodelled "np.genfromtxt on other input than rows of integers"
    end.

(** A little-endian host that reads tables of integers. *)
Definition host_text : host :=
  mkHost Little "4.0.0" "2020-02-18T10:30:00.000000"
    (λ _ v, str v) (λ _ _, None) genfromtxt_int.







(** A triangle, a quad and another triangle. *)
Definition mesh_interleaved : Mesh :=
  mkMesh grid_points
    [mkCellBlock "triangle" (Ndarray np_int32 3 [[0; 1; 2]]);
     mkCellBlock "quad" (Ndarray np_int32 4 [[0; 2; 3; 1]]);
     mkCellBlock "triangle" (Ndarray np_int32 3 [[2; 1; 3]])] [] [].

(** One vertex block. *)
Definition mesh_vertex : Mesh :=
  mkMesh grid_points [mkCellBlock "vertex" (Ndarray np_int32 1 [[0]; [3]])] [] [].



(** The first [n] lines of a stream. *)
Fixpoint first_lines (n : nat) (f : bytes) : bytes :=
  match n with
  | O => []
  | S k => fst (readline f) ++ first_lines k (snd (readline f))
  end.


(* ===================================================================== *)
(** * Part II: properties *)
(* ===================================================================== *)

Example cell_type_from_count_5 : cell_type_from_count 5 = "polygon5".
Proof. reflexivity. Qed.

(** ** Decimal digits *)

Lemma uint_of_string_span s d :
  NilEmpty.uint_of_string s = Some d -> span_digits s = (s, EmptyString).
Proof.
  revert d; induction s as [|a s IH]; intros d H; [reflexivity|].
  simpl in H. destruct (NilEmpty.uint_of_string s) as [d0|] eqn:E.
  - apply uint_of_char_spec in H.
    simpl. rewrite (IH d0 eq_refl).
    destruct H as [[-> _]|[[-> _]|[[-> _]|[[-> _]|[[-> _]|[[-> _]|[[-> _]|
      [[-> _]|[[-> _]|[-> _]]]]]]]]]]; reflexivity.
  - destruct a as [[] [] [] [] [] [] [] []]; discriminate.
Qed.

Lemma str_pos_digits p :
  span_digits (str (Z.pos p)) = (str (Z.pos p), EmptyString).
Proof.
  unfold str; simpl.
  apply (uint_of_string_span _ (Pos.to_uint p)), NilEmpty.usu.
Qed.

Lemma str_pos_nonempty p : str (Z.pos p) <> EmptyString.
Proof.
  unfold str; simpl. intros H.
  pose proof (NilEmpty.usu (Pos.to_uint p)) as U. rewrite H in U.
  simpl in U. injection U as U. symmetry in U.
  exact (DecimalPos.Unsigned.to_uint_nonnil p U).
Qed.

Lemma int_of_digits_str n : 0 <= n -> int_of_digits (str n) = n.
Proof.
  intros Hn. unfold int_of_digits, str.
  destruct n as [|p|p]; [reflexivity| |lia].
  simpl. rewrite NilEmpty.usu.
  change (N.of_uint (Pos.to_uint p)) with (Pos.of_uint (Pos.to_uint p)).
  rewrite DecimalPos.Unsigned.of_to. reflexivity.
Qed.

Lemma dict_get_polygon g :
  dict_get ("polygon" +:+ g) _cell_type_to_count = None.
Proof. reflexivity. Qed.

Lemma fullmatch_polygon_app g :
  fullmatch_polygon ("polygon" +:+ g) =
  match span_digits g with
  | (String c d, EmptyString) => Some (String c d)
  | _ => None
  end.
Proof. reflexivity. Qed.

Lemma cell_type_to_count_polygon_str n :
  0 < n -> cell_type_to_count ("polygon" +:+ str n) = Some n.
Proof.
  intros Hn. destruct n as [|p|p]; try lia.
  unfold cell_type_to_count.
  rewrite dict_get_polygon, fullmatch_polygon_app, str_pos_digits.
  destruct (str (Z.pos p)) as [|c d] eqn:E.
  - exfalso. exact (str_pos_nonempty p E).
  - rewrite <- E. f_equal. apply int_of_digits_str. lia.
Qed.

Lemma cell_type_from_count_other n :
  n <> 1 -> n <> 2 -> n <> 3 -> n <> 4 ->
  cell_type_from_count n = "polygon" +:+ str n.
Proof.
  intros H1 H2 H3 H4. unfold cell_type_from_count. simpl.
  destruct (Z.eqb_spec n 1); [lia|].
  destruct (Z.eqb_spec n 2); [lia|].
  destruct (Z.eqb_spec n 3); [lia|].
  destruct (Z.eqb_spec n 4); [lia|].
  reflexivity.
Qed.

Lemma after_prefix_Some p s r : after_prefix p s = Some r -> s = p +:+ r.
Proof.
  revert s; induction p as [|a p IH]; intros s H; simpl in *.
  - destruct s; simpl in H; injection H as <-; reflexivity.
  - destruct s as [|b s]; [discriminate|].
    destruct (Ascii.eqb_spec a b); [|discriminate]. subst.
    change (String b s = String b (p +:+ r)). f_equal. apply IH, H.
Qed.

Lemma dict_get_Some_In {V} k (d : list (string * V)) v :
  dict_get k d = Some v -> In (k, v) d.
Proof.
  induction d as [|[k' v'] d IH]; simpl; [discriminate|].
  destruct (String.eqb_spec k k'); [intros [= ->]; subst; auto|auto].
Qed.

Lemma cell_type_to_count_None tag :
  cell_type_to_count tag = None <-> ~ in_vocabulary tag.
Proof.
  unfold cell_type_to_count, in_vocabulary. split.
  - intros H.
    destruct (dict_get tag _cell_type_to_count) eqn:E; [discriminate|].
    destruct (fullmatch_polygon tag) eqn:F; [discriminate|].
    intros [->|[->|[->|[->|[g [[Hne Hg] ->]]]]]]; try discriminate.
    rewrite fullmatch_polygon_app, Hg in F.
    destruct g; [congruence|discriminate].
  - intros H.
    destruct (dict_get tag _cell_type_to_count) eqn:E.
    + apply dict_get_Some_In in E. simpl in E. exfalso. apply H.
      intuition congruence.
    + destruct (fullmatch_polygon tag) eqn:F; [|reflexivity].
      exfalso. apply H. unfold fullmatch_polygon in F.
      destruct (after_prefix "polygon" tag) as [rest|] eqn:P; [|discriminate].
      apply after_prefix_Some in P.
      destruct (span_digits rest) as [[|c d] [|? ?]] eqn:S; try discriminate.
      do 4 right. exists rest. split; [|exact P].
      assert (rest = String c d) as ->.
      { clear -S. revert c d S. induction rest as [|a r IH]; intros c d S.
        - discriminate.
        - simpl in S. destruct (is_digit a); [|discriminate].
          destruct (span_digits r) as [d' t] eqn:S'.
          injection S as <- <- ->.
          destruct d' as [|c' d'].
          + destruct r; [reflexivity|]. simpl in S'.
            destruct (is_digit a0); [|discriminate].
            destruct (span_digits r); discriminate.
          + f_equal. apply IH. reflexivity. }
      split; [discriminate|exact S].
Qed.

Lemma cell_type_to_from_count n :
  0 < n -> cell_type_to_count (cell_type_from_count n) = Some n.
Proof.
  intros Hn.
  destruct (Z.eq_dec n 1) as [->|H1]; [reflexivity|].
  destruct (Z.eq_dec n 2) as [->|H2]; [reflexivity|].
  destruct (Z.eq_dec n 3) as [->|H3]; [reflexivity|].
  destruct (Z.eq_dec n 4) as [->|H4]; [reflexivity|].
  rewrite cell_type_from_count_other by assumption.
  apply cell_type_to_count_polygon_str, Hn.
Qed.

(** C9: [cell_type_from_count] names the counts 1 to 4 and maps every
    other count to ["polygon" + str(count)]; for every positive count
    [cell_type_to_count] undoes it; [polygon] followed by decimal digits has
    the count that the digits spell; and on a tag of 7-bit characters
    outside the vocabulary (fixed names and [polygon] followed by decimal
    digits) [cell_type_to_count] is [None], so that a custom tag is told
    apart without an exception. *)
Theorem cell_type_count_roundtrip (n : Z) (Hn : 0 < n) :
  cell_type_to_count (cell_type_from_count n) = Some n /\
  cell_type_from_count 1 = "vertex" /\
  cell_type_from_count 2 = "line" /\
  cell_type_from_count 3 = "triangle" /\
  cell_type_from_count 4 = "quad" /\
  (n <> 1 -> n <> 2 -> n <> 3 -> n <> 4 ->
   cell_type_from_count n = "polygon" +:+ str n) /\
  (forall g, all_digits g ->
     cell_type_to_count ("polygon" +:+ g) = Some (int_of_digits g)) /\
  (forall tag, seven_bit_text tag -> ~ in_vocabulary tag ->
     cell_type_to_count tag = None) /\
  cell_type_to_count "wedge5" = None /\
  cell_type_to_count "polygon" = None /\
  cell_type_to_count "polygon12" = Some 12.
Proof.
  split; [|split; [|split; [|split; [|split; [|split; [|split; [|split]]]]]]];
    try reflexivity.
  - apply cell_type_to_from_count, Hn.
  - apply cell_type_from_count_other.
  - intros g [Hne Hg]. unfold cell_type_to_count.
    rewrite dict_get_polygon, fullmatch_polygon_app, Hg.
    destruct g; [done|reflexivity].
  - intros tag _. apply cell_type_to_count_None.
  - repeat split.
Qed.

Lemma cell_type_count_roundtrip_witness :
  cell_type_to_count (cell_type_from_count 7) = Some 7.
Proof. exact (proj1 (cell_type_count_roundtrip 7 eq_refl)). Defined.

(** ** Format resolution *)

Lemma append_cons c s t : String c s +:+ t = String c (s +:+ t).
Proof. reflexivity. Qed.

Lemma append_nil_l s : EmptyString +:+ s = s.
Proof. reflexivity. Qed.

Lemma lower_char_idemp c : lower_char (lower_char c) = lower_char c.
Proof. destruct c as [[] [] [] [] [] [] [] []]; reflexivity. Qed.

Lemma lower_idemp s : lower (lower s) = lower s.
Proof.
  induction s as [|c s IH]; [reflexivity|].
  cbn. by rewrite lower_char_idemp, IH.
Qed.

Lemma lower_app s1 s2 : lower (s1 +:+ s2) = lower s1 +:+ lower s2.
Proof.
  induction s1 as [|c s IH]; [reflexivity|].
  rewrite append_cons. cbn [lower]. by rewrite append_cons, IH.
Qed.

Lemma lower_length s : String.length (lower s) = String.length s.
Proof. induction s as [|c s IH]; [reflexivity|]. cbn. by rewrite IH. Qed.

Lemma append_length s1 s2 :
  String.length (s1 +:+ s2) = (String.length s1 + String.length s2)%nat.
Proof.
  induction s1 as [|c s IH]; [reflexivity|].
  rewrite append_cons. cbn [String.length]. rewrite IH. reflexivity.
Qed.

Lemma filetype_loop_app table l1 l2 ext out :
  filetype_loop table (l1 ++ l2) ext out =
  let '(e, o) := filetype_loop table l1 ext out in filetype_loop table l2 e o.
Proof.
  revert ext out; induction l1 as [|s l1 IH]; intros ext out; [reflexivity|].
  cbn. apply IH.
Qed.

(** The loop, run over the reversed suffixes, leaves the whole extension in
    lower case and the format of the longest registered one. *)
Lemma filetype_loop_spec table sfx :
  filetype_loop table (reverse sfx) EmptyString None =
  (lower (foldr String.append EmptyString sfx),
   first_registered table (accumulated sfx)).
Proof.
  induction sfx as [|s sfx IH]; [reflexivity|].
  rewrite reverse_cons, filetype_loop_app, IH. cbn.
  rewrite !lower_app, lower_idemp.
  destruct (table !! (lower s +:+ lower (foldr String.append EmptyString sfx)));
    reflexivity.
Qed.

Lemma filetype_from_suffixes_spec reg sfx :
  filetype_from_suffixes reg sfx =
  match first_registered (extension_to_filetype reg) (accumulated sfx) with
  | Some name => Ok name
  | None =>
    Raise (ReadError ("Could not deduce file format from extension '" +:+
                      lower (foldr String.append EmptyString sfx) +:+ "'."))
  end.
Proof.
  unfold filetype_from_suffixes. rewrite filetype_loop_spec.
  destruct (first_registered _ _); reflexivity.
Qed.

Lemma lower_joined_lower l :
  lower (foldr String.append EmptyString (map lower l)) =
  lower (foldr String.append EmptyString l).
Proof.
  induction l as [|s l IHl]; [reflexivity|].
  cbn [map foldr]. rewrite !lower_app, lower_idemp, IHl. reflexivity.
Qed.

Lemma accumulated_lower sfx : accumulated (map lower sfx) = accumulated sfx.
Proof.
  pose proof lower_joined_lower as H.
  induction sfx as [|s sfx IH]; [reflexivity|].
  change (accumulated (map lower (s :: sfx))) with
    (lower (foldr String.append EmptyString (map lower (s :: sfx)))
     :: accumulated (map lower sfx)).
  rewrite H, IH. reflexivity.
Qed.

Lemma accumulated_length_le sfx e :
  e ∈ accumulated sfx ->
  (String.length e <= String.length (foldr String.append EmptyString sfx))%nat.
Proof.
  induction sfx as [|s sfx IH]; cbn; intros He.
  - by apply elem_of_nil in He.
  - apply elem_of_cons in He as [->|He].
    + by rewrite lower_length.
    + specialize (IH He). rewrite append_length. lia.
Qed.

Lemma first_registered_longest table sfx name :
  first_registered table (accumulated sfx) = Some name ->
  ∃ e, e ∈ accumulated sfx ∧ table !! e = Some name ∧
       ∀ e', e' ∈ accumulated sfx -> is_Some (table !! e') ->
             (String.length e' <= String.length e)%nat.
Proof.
  induction sfx as [|s sfx IH]; [discriminate|].
  cbn [accumulated first_registered].
  destruct (table !! lower (foldr String.append EmptyString (s :: sfx))) as [v|] eqn:E.
  - intros [= ->]. eexists. split; [apply elem_of_cons; by left|]. split; [exact E|].
    intros e' He' _. apply elem_of_cons in He' as [->|He']; [done|].
    apply accumulated_length_le in He'. rewrite lower_length. cbn.
    rewrite append_length. lia.
  - intros H. destruct (IH H) as (e & He & Hv & Hmax).
    exists e. split; [apply elem_of_cons; by right|]. split; [done|].
    intros e' He' Hs. apply elem_of_cons in He' as [->|He'].
    + rewrite E in Hs. by destruct Hs.
    + by apply Hmax.
Qed.

(** C6: [_filetype_from_path] takes the suffixes of the name of the path
    from the right, joins them into ever longer extensions in lower case, and
    answers the format of the longest one that is registered; the case of
    the suffixes does not matter; without a registered extension it raises
    [ReadError].  This is stated for paths of 7-bit characters.  With the
    PLY codec registered, ["mesh.ply"] resolves to ["ply"], also in upper
    case, behind other suffixes and under directories, and ["mesh.unknown"]
    fails, as do names in which [.ply] is not the last suffix; of two
    registered extensions [.gz] and [.tar.gz] the longer one wins. *)
Theorem filetype_from_path_longest_match :
  (∀ reg path, seven_bit_text path ->
     _filetype_from_path reg path =
     match first_registered (extension_to_filetype reg) (accumulated (suffixes path)) with
     | Some name => Ok name
     | None =>
       Raise (ReadError ("Could not deduce file format from extension '" +:+
                lower (foldr String.append EmptyString (suffixes path)) +:+ "'."))
     end) ∧
  (∀ reg path name, seven_bit_text path ->
     _filetype_from_path reg path = Ok name ->
     ∃ e, e ∈ accumulated (suffixes path) ∧
          extension_to_filetype reg !! e = Some name ∧
          ∀ e', e' ∈ accumulated (suffixes path) ->
                is_Some (extension_to_filetype reg !! e') ->
                (String.length e' <= String.length e)%nat) ∧
  (∀ reg sfx, Forall seven_bit_text sfx ->
     filetype_from_suffixes reg (map lower sfx) = filetype_from_suffixes reg sfx) ∧
  (∀ h, _filetype_from_path (ply_registry h) "mesh.ply" = Ok "ply") ∧
  (∀ h, _filetype_from_path (ply_registry h) "mesh.PLY" = Ok "ply") ∧
  (∀ h, _filetype_from_path (ply_registry h) "mesh.unknown" =
        Raise (ReadError "Could not deduce file format from extension '.unknown'.")) ∧
  (∀ h, _filetype_from_path (ply_registry h) "out.d/run.1/mesh.v2.Ply" = Ok "ply") ∧
  (∀ h, _filetype_from_path (ply_registry h) "a/b.ply/." = Ok "ply") ∧
  (∀ h, _filetype_from_path (ply_registry h) "a//b.ply/" = Ok "ply") ∧
  (∀ h, _filetype_from_path (ply_registry h) "mesh.ply.gz" =
        Raise (ReadError "Could not deduce file format from extension '.ply.gz'.")) ∧
  (∀ h, _filetype_from_path (ply_registry h) "dir.ply/mesh" =
        Raise (ReadError "Could not deduce file format from extension ''.")) ∧
  (∀ h, _filetype_from_path (ply_registry h) ".ply" =
        Raise (ReadError "Could not deduce file format from extension ''.")) ∧
  (∀ h, _filetype_from_path (ply_registry h) "mesh.ply." =
        Raise (ReadError "Could not deduce file format from extension ''.")) ∧
  (∀ reg, extension_to_filetype reg !! ".gz" = Some "gzip" ->
          extension_to_filetype reg !! ".tar.gz" = Some "tar" ->
          _filetype_from_path reg "backup/mesh.tar.gz" = Ok "tar"
          ∧ _filetype_from_path reg "mesh.TAR.GZ" = Ok "tar").
Proof.
  split; [|split; [|split]].
  - intros reg path _. apply filetype_from_suffixes_spec.
  - intros reg path name _ H. unfold _filetype_from_path in H.
    rewrite filetype_from_suffixes_spec in H.
    destruct (first_registered _ _) as [n|] eqn:E; [|discriminate].
    injection H as ->. by apply first_registered_longest.
  - intros reg sfx _.
    rewrite !filetype_from_suffixes_spec, accumulated_lower, lower_joined_lower.
    reflexivity.
  - repeat (split; [intros h; vm_compute; reflexivity|]).
    intros reg Hgz Htar. split.
    + unfold _filetype_from_path. rewrite filetype_from_suffixes_spec.
      change (accumulated (suffixes "backup/mesh.tar.gz")) with [".tar.gz"; ".gz"].
      cbn [first_registered]. by rewrite Htar.
    + unfold _filetype_from_path. rewrite filetype_from_suffixes_spec.
      change (accumulated (suffixes "mesh.TAR.GZ")) with [".tar.gz"; ".gz"].
      cbn [first_registered]. by rewrite Htar.
Qed.

Lemma filetype_from_path_longest_match_witness :
  ∃ e, e ∈ accumulated (suffixes "mesh.ply") ∧
       extension_to_filetype
         (register "ply" [".ply"] None [] empty_registry) !! e = Some "ply".
Proof.
  destruct (proj1 (proj2 filetype_from_path_longest_match)
              (register "ply" [".ply"] None [] empty_registry) "mesh.ply" "ply")
    as (e & He & Hv & _).
  - unfold seven_bit_text. cbn. repeat constructor.
  - vm_compute. reflexivity.
  - exists e. split; assumption.
Defined.

(** ** The generic entry points *)




Lemma check_cells_all_ok nnpc l :
  Forall (λ b, check_cell nnpc b = Ok ()) l -> check_cells nnpc l = Ok ().
Proof.
  induction 1 as [|b l Hb _ IH]; [reflexivity|].
  cbn. rewrite Hb. exact IH.
Qed.


(** C7: [read] on a buffer raises when no format is given and when the
    format is ["tetgen"]; otherwise the call is that of the reader registered
    for the format ([ReadError] when there is none), and for ["ply"] that is
    [read_buffer] of the codec on the content of the buffer, which returns a
    mesh for a well-formed file.  On a path that does not exist, [read]
    raises its not-found [ReadError]. *)
Theorem read_buffer_or_missing_path :
  (∀ fs reg content,
     read fs reg (Buffer content) None =
     Raise (ReadError "File format must be given if buffer is used")) ∧
  (∀ fs reg content,
     read fs reg (Buffer content) (Some "tetgen") =
     Raise (ReadError ("tetgen format is spread across multiple files " +:+
                       "and so cannot be read from a buffer"))) ∧
  (∀ fs reg content ff rd,
     ff ≠ "tetgen" -> reader_map reg !! ff = Some rd ->
     read fs reg (Buffer content) (Some ff) = rd fs (Buffer content)) ∧
  (∀ fs reg content ff,
     ff ≠ "tetgen" -> reader_map reg !! ff = None ->
     read fs reg (Buffer content) (Some ff) =
     Raise (ReadError ("Unknown file format '" +:+ ff +:+ "'"))) ∧
  (∀ h fs content,
     read fs (ply_registry h) (Buffer content) (Some "ply") = read_buffer h content) ∧
  (∀ h fs,
     read fs (ply_registry h) (Buffer empty_ply) (Some "ply") =
     Ok (mkMesh (Ndarray np_float32 3 []) [] [] [])) ∧
  (∀ fs reg p file_format,
     fs !! p = None ->
     read fs reg (Path p) file_format =
     Raise (ReadError ("File " +:+ p +:+ " not found."))).
Proof.
  assert (Hply : ∀ h fs content,
    read fs (ply_registry h) (Buffer content) (Some "ply") = read_buffer h content).
  { intros. unfold read, ply_registry, register. cbn.
    rewrite lookup_insert_eq. reflexivity. }
  split; [|split; [|split; [|split; [|split; [|split]]]]].
  - reflexivity.
  - reflexivity.
  - intros fs reg content ff rd Hff Hrd. unfold read.
    destruct (String.eqb_spec ff "tetgen"); [done|]. cbn. by rewrite Hrd.
  - intros fs reg content ff Hff Hrd. unfold read.
    destruct (String.eqb_spec ff "tetgen"); [done|]. cbn. by rewrite Hrd.
  - exact Hply.
  - intros. rewrite Hply. vm_compute. reflexivity.
  - intros fs reg p file_format Hp. unfold read. rewrite Hp.
    rewrite bool_decide_eq_false_2; [reflexivity|]. by intros [? ?].
Qed.

Lemma read_buffer_or_missing_path_witness :
  read ∅ (ply_registry host0) (Buffer empty_ply) (Some "ply") =
  ply.read host0 ∅ (Buffer empty_ply).
Proof.
  apply (proj1 (proj2 (proj2 read_buffer_or_missing_path))).
  - discriminate.
  - reflexivity.
Defined.

(** ** Bytes of numbers *)

Lemma Z_of_byte_of_Z v : Z_of_byte (byte_of_Z v) = v mod 256.
Proof.
  unfold Z_of_byte, byte_of_Z.
  pose proof (Z.mod_pos_bound v 256 ltac:(lia)).
  rewrite N_ascii_embedding by lia. lia.
Qed.

Lemma le_bytes_length n v : length (le_bytes n v) = n.
Proof. revert v; induction n as [|n IH]; intros v; cbn; [done|by rewrite IH]. Qed.

Lemma to_bytes_length bo n v : length (to_bytes bo n v) = n.
Proof.
  destruct bo; unfold to_bytes; [|rewrite length_reverse]; apply le_bytes_length.
Qed.

Lemma le_value_le_bytes n v : le_value (le_bytes n v) = v mod 256 ^ Z.of_nat n.
Proof.
  revert v; induction n as [|n IH]; intros v.
  - cbn. by rewrite Z.mod_1_r.
  - cbn [le_bytes le_value]. rewrite Z_of_byte_of_Z, IH.
    rewrite Nat2Z.inj_succ, Z.pow_succ_r by lia.
    rewrite Z.rem_mul_r by lia. reflexivity.
Qed.

Lemma from_to_bytes bo n v : from_bytes bo (to_bytes bo n v) = v mod 256 ^ Z.of_nat n.
Proof.
  destruct bo; unfold from_bytes, to_bytes; [|rewrite reverse_involutive];
    apply le_value_le_bytes.
Qed.

Lemma pow256 n : 256 ^ Z.of_nat n = 2 ^ (8 * Z.of_nat n).
Proof. rewrite Z.pow_mul_r by lia. reflexivity. Qed.

Lemma decode_encode_elem bo dt v :
  in_range dt v -> decode_elem bo dt (encode_elem bo dt v) = v.
Proof.
  unfold in_range, decode_elem, encode_elem. rewrite from_to_bytes, pow256.
  set (w := 8 * Z.of_nat (itemsize dt)).
  destruct (kind dt).
  - intros [Hlo Hhi].
    destruct (Z.eq_dec w 0) as [Hw|Hw].
    { rewrite Hw in *. cbn in *. lia. }
    assert (0 < w) by (unfold w in *; lia).
    assert (2 ^ w = 2 * 2 ^ (w - 1)) as Hp.
    { rewrite <- Z.pow_succ_r by lia. f_equal. lia. }
    destruct (Z_lt_le_dec v 0).
    + rewrite <- (Z.mod_add v 1 (2 ^ w)) by lia.
      rewrite Z.mod_small by lia.
      destruct (Z.ltb_spec (v + 1 * 2 ^ w) (2 ^ (w - 1))); lia.
    + rewrite Z.mod_small by lia.
      destruct (Z.ltb_spec v (2 ^ (w - 1))); lia.
  - intros H. by rewrite Z.mod_small.
  - intros H. by rewrite Z.mod_small.
  - intros H. by rewrite Z.mod_small.
Qed.

Lemma encode_elem_length bo dt v : length (encode_elem bo dt v) = itemsize dt.
Proof. apply to_bytes_length. Qed.

(** ** Records of one size *)

Lemma concat_fixed_length {A} (f : A -> bytes) n (l : list A) :
  (∀ x, length (f x) = n) -> length (concat (map f l)) = (n * length l)%nat.
Proof.
  intros H. induction l as [|x l IH]; cbn; [lia|].
  rewrite length_app, H, IH. lia.
Qed.

Lemma records_concat {A} (f : A -> bytes) n (l : list A) rest :
  (∀ x, x ∈ l -> length (f x) = n) ->
  records (length l) n (concat (map f l) ++ rest) = map f l.
Proof.
  intros H. induction l as [|x l IH]; [reflexivity|].
  cbn [length records map concat]. rewrite <- app_assoc.
  assert (length (f x) = n) as Hx by (apply H; left).
  rewrite take_app_length' by done. rewrite drop_app_length' by done.
  rewrite IH; [done|]. intros y Hy. apply H. by right.
Qed.

(** ** The ragged list decoder *)

Section ragged.
Context (bo : endian) (cdt ddt : dtype).
Context (Hc : (0 < itemsize cdt)%nat) (Hd : (0 < itemsize ddt)%nat).

Local Abbreviation csz := (itemsize cdt).
Local Abbreviation dsz := (itemsize ddt).
Local Abbreviation enc_row := (encode_row bo cdt ddt).
Local Abbreviation enc_rows := (encode_rows bo cdt ddt).
Local Abbreviation offs := (offsets_from cdt ddt).
Local Abbreviation rok := (row_ok cdt ddt).
Local Abbreviation rbytes := (row_bytes cdt ddt).

Lemma encode_row_length row :
  length (enc_row row) = (csz + dsz * length row)%nat.
Proof.
  unfold encode_row. rewrite length_app, to_bytes_length.
  rewrite (concat_fixed_length _ dsz); [done|]. apply encode_elem_length.
Qed.

Lemma encode_rows_cons r rest : enc_rows (r :: rest) = enc_row r ++ enc_rows rest.
Proof. reflexivity. Qed.

Lemma encode_rows_app t1 t2 : enc_rows (t1 ++ t2) = enc_rows t1 ++ enc_rows t2.
Proof. unfold encode_rows. by rewrite map_app, concat_app. Qed.

Lemma encode_rows_uniform_length n run :
  (∀ r, r ∈ run -> length r = n) ->
  length (enc_rows run) = ((csz + dsz * n) * length run)%nat.
Proof.
  intros H. induction run as [|r run IH]; [cbn; lia|].
  rewrite encode_rows_cons, length_app, encode_row_length, IH.
  - rewrite (H r) by left. cbn [length]. lia.
  - intros r' Hr'. apply H. by right.
Qed.

Lemma slice_count pre row rest :
  slice (pre ++ enc_row row ++ rest) (Z.of_nat (length pre))
        (Z.of_nat (length pre) + Z.of_nat csz)
  = to_bytes bo csz (Z.of_nat (length row)).
Proof.
  unfold slice.
  replace (Z.to_nat (Z.of_nat (length pre) + Z.of_nat csz - Z.of_nat (length pre)))
    with csz by lia.
  rewrite Nat2Z.id, drop_app_length.
  unfold encode_row. rewrite <- app_assoc.
  by rewrite take_app_length' by (symmetry; apply to_bytes_length).
Qed.

Lemma parse_ragged_encoded table : ∀ pre tail,
  Forall rok table ->
  parse_ragged (pre ++ enc_rows table ++ tail) (Z.of_nat csz) (Z.of_nat dsz) bo
    (Z.of_nat (length pre)) (length table)
  = offs (Z.of_nat (length pre)) table.
Proof.
  induction table as [|r table IH]; intros pre tail Hok; [reflexivity|].
  apply Forall_cons in Hok as [[Hr _] Hok].
  cbn [length parse_ragged offsets_from]. f_equal.
  rewrite encode_rows_cons, <- app_assoc, slice_count, from_to_bytes.
  rewrite Z.mod_small by lia.
  specialize (IH (pre ++ enc_row r) tail Hok).
  rewrite <- app_assoc in IH.
  rewrite length_app, encode_row_length in IH.
  replace (Z.of_nat (length pre) +
           (Z.of_nat (length r) * Z.of_nat dsz + Z.of_nat csz))
    with (Z.of_nat (length pre + (csz + dsz * length r))) by lia.
  exact IH.
Qed.

Lemma offsets_from_length a table :
  length (offs a table) = S (length table).
Proof.
  revert a; induction table as [|r table IH]; intros a; [reflexivity|].
  cbn [offsets_from length]. by rewrite IH.
Qed.

Lemma diff_offsets a table : diff (offs a table) = map rbytes table.
Proof.
  revert a; induction table as [|r table IH]; intros a; [reflexivity|].
  cbn [offsets_from map]. rewrite <- (IH (a + rbytes r)).
  unfold row_bytes.
  destruct table as [|r' table]; cbn; f_equal; lia.
Qed.

Lemma offsets_nth a table k :
  (k <= length table)%nat ->
  nth k (offs a table) 0 = a + Z.of_nat (length (enc_rows (take k table))).
Proof.
  revert a k; induction table as [|r table IH]; intros a k Hk.
  - cbn in Hk. replace k with O by lia. cbn. lia.
  - destruct k as [|k].
    + cbn. lia.
    + cbn [offsets_from nth take]. rewrite IH by (cbn in Hk; lia).
      rewrite encode_rows_cons, length_app, encode_row_length. lia.
Qed.

Lemma offsets_last a table :
  List.last (offs a table) 0 = a + Z.of_nat (length (enc_rows table)).
Proof.
  revert a; induction table as [|r table IH]; intros a.
  - cbn. lia.
  - cbn [offsets_from].
    change (List.last (a :: offs ?b table) 0) with
      (match offs b table with [] => a | _ :: _ => List.last (offs b table) 0 end).
    destruct (offs _ table) eqn:E.
    { pose proof (offsets_from_length
        (a + (Z.of_nat (length r) * Z.of_nat dsz + Z.of_nat csz)) table) as L.
      rewrite E in L. discriminate. }
    rewrite <- E, IH, encode_rows_cons, length_app, encode_row_length. lia.
Qed.

Lemma offsets_bounded a table x :
  x ∈ offs a table -> x <= a + Z.of_nat (length (enc_rows table)).
Proof.
  revert a; induction table as [|r table IH]; intros a Hx.
  - cbn in Hx. apply list_elem_of_singleton in Hx. subst. lia.
  - cbn [offsets_from] in Hx. apply elem_of_cons in Hx as [->|Hx]; [lia|].
    apply IH in Hx. rewrite encode_rows_cons, length_app, encode_row_length. lia.
Qed.

(** *** Block bounds and runs *)

Lemma diff_cons2 a b l : diff (a :: b :: l) = (b - a) :: diff (b :: l).
Proof. reflexivity. Qed.

Lemma block_bounds_runs rest : ∀ cur n b s,
  S s = (b + length cur)%nat ->
  block_bounds_loop b
    (map S (nonzero_from s
       (diff ((Z.of_nat n * Z.of_nat dsz + Z.of_nat csz) :: map rbytes rest))))
    (S s + length rest)
  = intervals b (runs_from cur n rest).
Proof.
  induction rest as [|r rest IH]; intros cur n b s Hs.
  - cbn. do 2 f_equal. lia.
  - cbn [map]. rewrite diff_cons2. cbn [nonzero_from runs_from].
    destruct (decide (length r = n)) as [E|E].
    + replace (rbytes r - (Z.of_nat n * Z.of_nat dsz + Z.of_nat csz)) with 0
        by (unfold row_bytes; rewrite E; lia).
      cbn [Z.eqb].
      specialize (IH (cur ++ [r]) n b (S s)).
      rewrite length_app in IH. cbn [length] in IH.
      replace (S s + length (r :: rest))%nat with (S (S s) + length rest)%nat
        by (cbn [length]; lia).
      unfold row_bytes at 1. rewrite E. apply IH. lia.
    + destruct (Z.eqb_spec (rbytes r - (Z.of_nat n * Z.of_nat dsz + Z.of_nat csz)) 0)
        as [Hz|Hz].
      { exfalso. apply E. unfold row_bytes in Hz. nia. }
      cbn [map block_bounds_loop intervals].
      replace (b + length cur)%nat with (S s) by lia.
      f_equal.
      replace (S s + length (r :: rest))%nat with (S (S s) + length rest)%nat
        by (cbn [length]; lia).
      apply (IH [r] (length r) (S s) (S s)). cbn [length]. lia.
Qed.

Lemma runs_from_concat rest : ∀ cur n, concat (runs_from cur n rest) = cur ++ rest.
Proof.
  induction rest as [|r rest IH]; intros cur n; cbn [runs_from].
  - cbn. by rewrite app_nil_r.
  - destruct (decide (length r = n)).
    + rewrite IH, <- app_assoc. reflexivity.
    + cbn [concat]. rewrite IH. reflexivity.
Qed.

Lemma uniform_hd (cur : list (list Z)) n :
  cur ≠ [] -> (∀ r, r ∈ cur -> length r = n) -> length (hd [] cur) = n.
Proof. destruct cur as [|r cur]; [done|]. intros _ H. apply H. left. Qed.

Lemma runs_from_head rest : ∀ cur n,
  cur ≠ [] ->
  ∃ run rs, runs_from cur n rest = run :: rs ∧ hd [] run = hd [] cur.
Proof.
  induction rest as [|r rest IH]; intros cur n Hne; cbn [runs_from].
  - by eexists _, _.
  - destruct (decide (length r = n)).
    + destruct (IH (cur ++ [r]) n) as (run & rs & -> & Hh).
      { by destruct cur. }
      eexists _, _. split; [done|]. rewrite Hh. by destruct cur.
    + by eexists _, _.
Qed.

Lemma runs_from_uniform rest : ∀ cur n,
  cur ≠ [] -> (∀ r, r ∈ cur -> length r = n) ->
  Forall uniform_run (runs_from cur n rest).
Proof.
  induction rest as [|r rest IH]; intros cur n Hne Hu; cbn [runs_from].
  - constructor; [|constructor]. split; [done|].
    intros r Hr. rewrite (uniform_hd cur n) by done. by apply Hu.
  - destruct (decide (length r = n)).
    + apply IH; [by destruct cur|].
      intros r' Hr'. apply elem_of_app in Hr' as [Hr'|Hr']; [by apply Hu|].
      apply list_elem_of_singleton in Hr'. by subst.
    + constructor.
      * split; [done|]. intros r' Hr'. rewrite (uniform_hd cur n) by done.
        by apply Hu.
      * apply IH; [done|]. intros r' Hr'.
        apply list_elem_of_singleton in Hr'. by subst.
Qed.

Lemma runs_from_maximal rest : ∀ cur n,
  cur ≠ [] -> (∀ r, r ∈ cur -> length r = n) ->
  runs_maximal (runs_from cur n rest).
Proof.
  induction rest as [|r rest IH]; intros cur n Hne Hu; cbn [runs_from].
  - exact I.
  - destruct (decide (length r = n)) as [E|E].
    + apply IH; [by destruct cur|].
      intros r' Hr'. apply elem_of_app in Hr' as [Hr'|Hr']; [by apply Hu|].
      apply list_elem_of_singleton in Hr'. by subst.
    + destruct (runs_from_head rest [r] (length r)) as (run & rs & Hrun & Hh);
        [done|].
      assert (runs_maximal (runs_from [r] (length r) rest)) as Hm.
      { apply IH; [done|]. intros r' Hr'.
        apply list_elem_of_singleton in Hr'. by subst. }
      rewrite Hrun in *. cbn [runs_maximal]. split; [|exact Hm].
      rewrite Hh, (uniform_hd cur n) by done. cbn. congruence.
Qed.

(** *** Decoding one run *)

Lemma decode_encoded_row row :
  rok row ->
  map (decode_elem bo ddt)
      (records (length row) dsz (drop csz (enc_row row))) = row.
Proof.
  intros [_ Hr]. unfold encode_row.
  rewrite drop_app_length' by (symmetry; apply to_bytes_length).
  rewrite <- (app_nil_r (concat _)).
  rewrite records_concat by (intros; apply encode_elem_length).
  rewrite map_map. induction Hr as [|v row Hv _ IH]; [reflexivity|].
  cbn [map]. by rewrite decode_encode_elem, IH.
Qed.

Lemma decode_rows_uniform n run :
  (∀ r, r ∈ run -> length r = n) -> Forall rok run ->
  map (λ rec, map (decode_elem bo ddt) (records n dsz (drop csz rec)))
      (map enc_row run) = run.
Proof.
  intros Hu Hok. induction Hok as [|r run Hr _ IH]; [reflexivity|].
  cbn [map]. rewrite <- (Hu r) at 1 by left.
  rewrite decode_encoded_row by done. f_equal.
  apply IH. intros r' Hr'. apply Hu. by right.
Qed.

Lemma decode_block_run tail done run after :
  uniform_run run -> Forall rok run ->
  decode_block (enc_rows (done ++ run ++ after) ++ tail) cdt ddt bo
    (offs 0 (done ++ run ++ after)) (map rbytes (done ++ run ++ after))
    (length done, (length done + length run)%nat)
  = if (length (hd [] run) =? 1)%nat then Raise IndexError
    else Ok (Some (block_of_run ddt run)).
Proof.
  intros [Hne Hu] Hok. unfold decode_block.
  destruct (Nat.eqb_spec (length done) (length done + length run)) as [E|_].
  { destruct run; [done|cbn in E; lia]. }
  set (n := length (hd [] run)).
  rewrite !offsets_nth by (rewrite !length_app; lia).
  rewrite take_app_length.
  rewrite (app_assoc done run after), take_app_length'
    by (by rewrite length_app).
  assert (nth (length done) (map rbytes ((done ++ run) ++ after)) 0
          = Z.of_nat n * Z.of_nat dsz + Z.of_nat csz) as ->.
  { rewrite <- app_assoc, map_app, app_nth2 by (rewrite length_map; lia).
    rewrite length_map, Nat.sub_diag. subst n. by destruct run. }
  replace ((Z.of_nat n * Z.of_nat dsz + Z.of_nat csz - Z.of_nat csz)
           `div` Z.of_nat dsz) with (Z.of_nat n)
    by (rewrite Z.add_simpl_r, Z.div_mul; lia).
  destruct (Z.ltb_spec (Z.of_nat n) 0) as [?|_]; [lia|].
  rewrite Nat2Z.id.
  assert (slice (enc_rows ((done ++ run) ++ after) ++ tail)
            (0 + Z.of_nat (length (enc_rows done)))
            (0 + Z.of_nat (length (enc_rows (done ++ run))))
          = enc_rows run) as ->.
  { unfold slice. rewrite !encode_rows_app, length_app, <- !app_assoc.
    replace (Z.to_nat (0 + Z.of_nat (length (enc_rows done))))
      with (length (enc_rows done)) by lia.
    rewrite drop_app_length. rewrite take_app_length'; [done|]. lia. }
  unfold frombuffer.
  destruct (Nat.eqb_spec (csz + dsz * n) 0) as [?|_]; [lia|].
  rewrite (encode_rows_uniform_length n run) by exact Hu.
  rewrite Nat.mul_comm, Nat.Div0.mod_mul. cbn [Nat.eqb].
  rewrite Nat.div_mul by lia.
  cbn [mbind outcome_bind].
  destruct (n =? 1)%nat; [reflexivity|].
  unfold block_of_run. fold n. cbn [ncols].
  unfold encode_rows. rewrite <- (app_nil_r (concat _)).
  rewrite records_concat.
  2:{ intros r Hr. rewrite encode_row_length, (Hu r Hr). reflexivity. }
  rewrite decode_rows_uniform by done. reflexivity.
Qed.

Lemma decode_blocks_runs tail table rs : ∀ done,
  table = done ++ concat rs ->
  Forall uniform_run rs -> Forall (Forall rok) rs ->
  decode_blocks (enc_rows table ++ tail) cdt ddt bo
    (offs 0 table) (map rbytes table) (intervals (length done) rs)
  = if forallb (λ run, negb (length (hd [] run) =? 1)%nat) rs
    then Ok (map (block_of_run ddt) rs)
    else Raise IndexError.
Proof.
  induction rs as [|run rs IH]; intros done Ht Hu Hok; [reflexivity|].
  apply Forall_cons in Hu as [Hu1 Hu], Hok as [Hok1 Hok].
  cbn [intervals decode_blocks concat forallb] in *.
  rewrite Ht at 1 2 3. rewrite decode_block_run by done.
  destruct (length (hd [] run) =? 1)%nat; [reflexivity|].
  cbn [mbind outcome_bind negb andb].
  specialize (IH (done ++ run)). rewrite length_app in IH.
  rewrite IH; [by destruct (forallb _ rs)| |done|done].
  by rewrite <- app_assoc.
Qed.

End ragged.

Lemma elem_of_concat {A} (x : A) l ls : x ∈ l -> l ∈ ls -> x ∈ concat ls.
Proof.
  intros Hx Hl. induction ls as [|l' ls IH].
  - by apply elem_of_nil in Hl.
  - cbn. apply elem_of_app. apply elem_of_cons in Hl as [->|Hl]; auto.
Qed.

Lemma runs_properties (table : list (list Z)) :
  concat (runs table) = table ∧ Forall uniform_run (runs table)
  ∧ runs_maximal (runs table).
Proof.
  destruct table as [|r table]; [by repeat split|].
  assert (∀ r', r' ∈ [r] -> length r' = length r) as Hu.
  { intros r' Hr'. apply list_elem_of_singleton in Hr'. by subst. }
  unfold runs. split; [apply runs_from_concat|].
  split; [by apply runs_from_uniform|by apply runs_from_maximal].
Qed.

Lemma uniform_heads n (l : list (list Z)) :
  l ≠ [] -> (∀ r, r ∈ l -> length r = n) ->
  forallb (λ r, negb (length r =? 1)%nat) l = negb (length (hd [] l) =? 1)%nat.
Proof.
  intros Hne Hu. destruct l as [|r0 l]; [done|]. cbn [hd forallb].
  assert (forallb (λ r, negb (length r =? 1)%nat) l = true
          ∨ negb (length r0 =? 1)%nat = false) as [->| ->];
    [|apply andb_true_r|reflexivity].
  destruct (Nat.eqb_spec (length r0) 1) as [E|E]; [by right|left].
  apply forallb_forall. intros r Hr. apply list_elem_of_In in Hr.
  rewrite (Hu r) by (by right). rewrite <- (Hu r0) by left.
  by destruct (Nat.eqb_spec (length r0) 1).
Qed.

Lemma runs_from_heads rest : ∀ cur n,
  cur ≠ [] -> (∀ r, r ∈ cur -> length r = n) ->
  forallb (λ run, negb (length (hd [] run) =? 1)%nat) (runs_from cur n rest)
  = forallb (λ r, negb (length r =? 1)%nat) (cur ++ rest).
Proof.
  induction rest as [|r rest IH]; intros cur n Hne Hu.
  - cbn [runs_from forallb]. rewrite app_nil_r, andb_true_r.
    by rewrite (uniform_heads n).
  - cbn [runs_from]. destruct (decide (length r = n)) as [E|E].
    + rewrite IH.
      * by rewrite <- app_assoc.
      * by destruct cur.
      * intros r' Hr'. apply elem_of_app in Hr' as [Hr'|Hr']; [by apply Hu|].
        apply list_elem_of_singleton in Hr'. by subst.
    + cbn [forallb]. rewrite IH.
      * rewrite (forallb_app _ cur). by rewrite (uniform_heads n cur).
      * done.
      * intros r' Hr'. apply list_elem_of_singleton in Hr'. by subst.
Qed.

Lemma runs_heads table :
  forallb (λ run, negb (length (hd [] run) =? 1)%nat) (runs table)
  = forallb (λ r, negb (length r =? 1)%nat) table.
Proof.
  destruct table as [|r table]; [reflexivity|].
  unfold runs. rewrite (runs_from_heads table [r] (length r)); [done|done|].
  intros r' Hr'. apply list_elem_of_singleton in Hr'. by subst.
Qed.

(** The decoder on the records of a table, whatever follows them in the
    buffer: it fails when a row holds a single element. *)
Lemma read_binary_list_rows bo cdt ddt table tail :
  (0 < itemsize cdt)%nat -> (0 < itemsize ddt)%nat ->
  Forall (row_ok cdt ddt) table ->
  Z.of_nat (length (encode_rows bo cdt ddt table)) < 2 ^ 63 ->
  _read_binary_list (encode_rows bo cdt ddt table ++ tail) cdt ddt
    (Z.of_nat (length table)) bo
  = if forallb (λ r, negb (length r =? 1)%nat) table
    then Ok (Z.of_nat (length (encode_rows bo cdt ddt table)),
             map (block_of_run ddt) (runs table))
    else Raise IndexError.
Proof.
  intros Hc Hd Hok Hlen. unfold _read_binary_list.
  rewrite Nat2Z.id.
  pose proof (parse_ragged_encoded bo cdt ddt Hc Hd table [] tail Hok) as Hp.
  cbn [app length] in Hp. change (Z.of_nat 0) with 0 in Hp. rewrite Hp.
  assert (forallb (λ a, a <? 2 ^ 63) (offsets_from cdt ddt 0 table) = true) as ->.
  { apply forallb_forall. intros x Hx. apply list_elem_of_In in Hx.
    apply (offsets_bounded bo cdt ddt Hc Hd) in Hx. apply Z.ltb_lt. lia. }
  cbn [negb].
  rewrite (diff_offsets cdt ddt Hc Hd), offsets_from_length,
    (offsets_last bo cdt ddt Hc Hd).
  replace (S (length table) - 1)%nat with (length table) by lia.
  destruct (runs_properties table) as (Hcat & Hu & _).
  assert (Forall (Forall (row_ok cdt ddt)) (runs table)) as Hoks.
  { apply Forall_forall. intros run Hrun. apply Forall_forall. intros r Hr.
    rewrite Forall_forall in Hok. apply Hok. rewrite <- Hcat.
    by apply (elem_of_concat r run). }
  assert (block_bounds_loop 0
            (map S (nonzero_from 0 (diff (map (row_bytes cdt ddt) table))))
            (length table) = intervals 0 (runs table)
          ∨ table = []) as [Hb| ->].
  { destruct table as [|r table]; [by right|left].
    cbn [map length runs].
    exact (block_bounds_runs cdt ddt Hc Hd table [r] (length r) O O eq_refl). }
  - rewrite Hb.
    pose proof (decode_blocks_runs bo cdt ddt Hc Hd tail table (runs table) []
                  (eq_sym Hcat) Hu Hoks) as Hdec.
    cbn [length] in Hdec. rewrite Hdec, runs_heads.
    by destruct (forallb _ table).
  - reflexivity.
Qed.

Lemma no_single_rows (table : list (list Z)) :
  Forall (λ r, length r ≠ 1%nat) table ->
  forallb (λ r, negb (length r =? 1)%nat) table = true.
Proof.
  intros H. apply forallb_forall. intros r Hr.
  rewrite Forall_forall in H. specialize (H r (proj2 (list_elem_of_In _ _) Hr)).
  by destruct (Nat.eqb_spec (length r) 1).
Qed.


Lemma read_binary_list_encoded bo cdt ddt table tail :
  (0 < itemsize cdt)%nat -> (0 < itemsize ddt)%nat ->
  Forall (row_ok cdt ddt) table ->
  Forall (λ r, length r ≠ 1%nat) table ->
  Z.of_nat (length (encode_rows bo cdt ddt table)) < 2 ^ 63 ->
  _read_binary_list (encode_rows bo cdt ddt table ++ tail) cdt ddt
    (Z.of_nat (length table)) bo
  = Ok (Z.of_nat (length (encode_rows bo cdt ddt table)),
        map (block_of_run ddt) (runs table)).
Proof.
  intros Hc Hd Hok Hw Hlen.
  by rewrite read_binary_list_rows, no_single_rows.
Qed.

(** The records of one row that holds the single element 5. *)
Lemma single_row_raises bo :
  _read_binary_list (encode_rows bo np_uint8 np_int32 [[5]]) np_uint8 np_int32 1 bo
  = Raise IndexError.
Proof. by destruct bo. Qed.




(** ** The face lines of an ASCII body *)








Lemma in_rangeb_true dt v : in_range dt v -> in_rangeb dt v = true.
Proof.
  unfold in_range, in_rangeb. destruct (kind dt); intros [H1 H2];
    apply andb_true_intro; split;
    (apply Z.leb_le || apply Z.ltb_lt); assumption.
Qed.

Lemma item_lookup (data : list string) i s :
  data !! i = Some s -> item data (Z.of_nat i) = Ok s.
Proof.
  intros H. unfold item.
  destruct (Z.ltb_spec (Z.of_nat i) 0) as [?|_]; [lia|].
  destruct (Z.ltb_spec (Z.of_nat i) 0) as [?|_]; [lia|].
  by rewrite Nat2Z.id, H.
Qed.

Lemma py_range_cons a b : a < b -> py_range a b = a :: py_range (a + 1) b.
Proof.
  intros H. unfold py_range.
  replace (Z.to_nat (b - a)) with (S (Z.to_nat (b - (a + 1)))) by lia.
  cbn [seq map]. f_equal; [lia|].
  rewrite <- seq_shift, map_map. apply map_ext. intros k. lia.
Qed.

Lemma py_range_nil a : py_range a a = [].
Proof. unfold py_range. by rewrite Z.sub_diag. Qed.

Section faces.
Context (h : host) (dt : dtype).
Context (Hk : kind dt = Kint ∨ kind dt = Kuint).

Lemma scalar_of_literal s v :
  py_int s = Some v -> in_range dt v -> scalar_of_string h dt s = Ok v.
Proof.
  intros Hs Hv. unfold scalar_of_string.
  destruct Hk as [-> | ->]; by rewrite Hs, in_rangeb_true.
Qed.

Lemma for_each_items (data : list string) row : ∀ a,
  (∃ extra, map py_int (drop a data) = map Some row ++ extra) ->
  Forall (in_range dt) row ->
  for_each (λ j, s ← item data j; scalar_of_string h dt s)
    (py_range (Z.of_nat a) (Z.of_nat a + Z.of_nat (length row)))
  = Ok row.
Proof.
  induction row as [|v row IH]; intros a [extra Hd] Hr.
  - cbn [length]. rewrite Z.add_0_r, py_range_nil. reflexivity.
  - apply Forall_cons in Hr as [Hv Hr].
    rewrite py_range_cons by (cbn [length]; lia).
    destruct (drop a data) as [|s rest] eqn:E; [discriminate|].
    cbn [map app] in Hd. injection Hd as Hs Hrest.
    assert (data !! a = Some s) as Ha.
    { rewrite <- (Nat.add_0_r a), <- lookup_drop, E. reflexivity. }
    cbn [for_each]. rewrite (item_lookup _ _ _ Ha). cbn [mbind outcome_bind].
    rewrite (scalar_of_literal s v) by done. cbn [mbind outcome_bind].
    assert (drop (S a) data = rest) as E'.
    { rewrite (drop_S _ _ _ Ha) in E. by injection E. }
    specialize (IH (S a)). rewrite E' in IH.
    replace (Z.of_nat a + 1) with (Z.of_nat (S a)) by lia.
    replace (Z.of_nat a + Z.of_nat (length (v :: row)))
      with (Z.of_nat (S a) + Z.of_nat (length row)) by (cbn [length]; lia).
    rewrite IH; [reflexivity|by exists extra|exact Hr].
Qed.

End faces.

Section face_lines.
Context (h : host) (c d : string) (dt : dtype).
Context (Hd : dict_get d ply_to_numpy_dtype = Some dt).
Context (Hk : kind dt = Kint ∨ kind dt = Kuint).

Local Abbreviation props := [("vertex_indices", PList c d)].

Lemma int_item_head (data : list string) n extra :
  map py_int data = Some n :: extra -> int_item data 0 = Ok n.
Proof.
  intros H. destruct data as [|s data]; [discriminate|].
  injection H as Hs _. unfold int_item.
  pose proof (item_lookup (s :: data) 0 s eq_refl) as Hi.
  change (Z.of_nat 0) with 0 in Hi. rewrite Hi. cbn [mbind outcome_bind].
  by rewrite Hs.
Qed.

Lemma init_cell_data_row (data : list string) row extra n0 :
  map py_int data = map Some (Z.of_nat (length row) :: row) ++ extra ->
  init_cell_data data props 0 n0 [] = Ok (Z.of_nat (length row), []).
Proof.
  intros H. cbn [init_cell_data String.eqb Ascii.eqb Bool.eqb].
  change (String.eqb "vertex_indices" "vertex_indices") with true.
  cbn [map app] in H. rewrite (int_item_head _ _ _ H). reflexivity.
Qed.

Lemma read_face_row (data : list string) row extra st :
  map py_int data = map Some (Z.of_nat (length row) :: row) ++ extra ->
  Forall (in_range dt) row ->
  read_face h data props 0 st
  = Ok (mkFaces (Z.of_nat (length row))
          (bucket_add (Z.of_nat (length row)) (dt, row) (polygons st))
          (fs_cell_data st)).
Proof.
  intros H Hr. cbn [read_face].
  change (String.eqb "vertex_indices" "vertex_indices") with true.
  cbn [map app] in H. rewrite (int_item_head _ _ _ H).
  cbn [mbind outcome_bind]. unfold dtype_of_name. rewrite Hd.
  cbn [mbind outcome_bind].
  change (0 + 1) with (Z.of_nat 1).
  replace (0 + Z.of_nat (length row) + 1)
    with (Z.of_nat 1 + Z.of_nat (length row)) by lia.
  rewrite (for_each_items h dt Hk data row 1); [reflexivity| |exact Hr].
  exists extra. destruct data as [|s data]; [discriminate|].
  cbn [drop map] in *. by injection H.
Qed.


End face_lines.





(** ** The writer *)

Lemma same_cells_refl s : same_cells s s.
Proof. split; [done|]. exists []. split; [by rewrite app_nil_r|]. apply not_elem_of_nil. Qed.

Lemma same_cells_trans s1 s2 s3 :
  same_cells s1 s2 -> same_cells s2 s3 -> same_cells s1 s3.
Proof.
  intros [Hc1 (w1 & Hw1 & Hn1)] [Hc2 (w2 & Hw2 & Hn2)]. split; [congruence|].
  exists (w1 ++ w2). split; [by rewrite Hw2, Hw1, app_assoc|].
  rewrite elem_of_app. tauto.
Qed.

Lemma same_cells_write s b :
  same_cells s (mkW (w_cells s) (w_warnings s) (fh s ++ b)).
Proof.
  split; [done|]. exists []. split; [by rewrite app_nil_r|]. apply not_elem_of_nil.
Qed.

Lemma same_cells_warn s msg :
  msg ≠ narrowing_warning ->
  same_cells s (mkW (w_cells s) (w_warnings s ++ [msg]) (fh s)).
Proof.
  intros H. split; [done|]. exists [msg]. split; [done|].
  rewrite list_elem_of_singleton. congruence.
Qed.

Lemma for_frame {A} (body : A -> W unit) l :
  (∀ a s, same_cells s (fst (body a s)) ∧ ended (snd (body a s))) ->
  ∀ s, same_cells s (fst (for_ l body s)) ∧ ended (snd (for_ l body s)).
Proof.
  intros Hb. induction l as [|a l IH]; intros s.
  - split; [apply same_cells_refl|left; by eexists].
  - cbn [for_]. unfold mbind, W_bind.
    destruct (Hb a s) as [H1 H2]. destruct (body a s) as [s1 r1].
    cbn [fst snd] in *.
    destruct H2 as [[[] ->]|[e ->]].
    + destruct (IH s1) as [H3 H4]. split; [|done].
      by apply (same_cells_trans _ s1).
    + split; [done|right; by eexists].
Qed.

Lemma write_point_data_header_frame point_data : ∀ pd s,
  same_cells s (fst (write_point_data_header point_data pd s))
  ∧ ended (snd (write_point_data_header point_data pd s)).
Proof.
  induction point_data as [|[key value] rest IH]; intros pd s.
  - split; [apply same_cells_refl|left; by eexists].
  - cbn [write_point_data_header].
    destruct (1 <? length (flat_shape value))%nat.
    + unfold mbind, W_bind, warnings_warn.
      destruct (IH pd (mkW (w_cells s)
        (w_warnings s ++ ["PLY writer doesn't support multidimensional point data yet. Skipping "
                          +:+ key +:+ "."]) (fh s))) as [H1 H2].
      split; [|done].
      eapply same_cells_trans; [|exact H1].
      apply same_cells_warn. unfold narrowing_warning. clear.
      intros E. apply (f_equal (String.get 4)) in E. vm_compute in E.
      discriminate.
    + destruct (type_name_table (flat_dtype value)) as [type_name|].
      * unfold mbind, W_bind, fh_write.
        destruct (IH (pd ++ [value]) (mkW (w_cells s) (w_warnings s)
          (fh s ++ text_line ("property " +:+ type_name +:+ " " +:+ key))))
          as [H1 H2].
        split; [|done].
        eapply same_cells_trans; [|exact H1]. apply same_cells_write.
      * split; [apply same_cells_refl|right; by eexists].
Qed.

Lemma write_vertex_header_frame h mesh binary s :
  same_cells s (fst (write_vertex_header h mesh binary s))
  ∧ ended (snd (write_vertex_header h mesh binary s)).
Proof.
  unfold write_vertex_header.
  set (s4 := mkW (w_cells s) (w_warnings s)
    (((fh s ++ text_line "ply")
      ++ (if binary then
            text_line ("format binary_" +:+ byteorder_name (sys_byteorder h)
                       +:+ "_endian 1.0")
          else text_line "format ascii 1.0"))
     ++ text_line ("comment Created by meshio v" +:+ meshio_version h +:+ ", "
                   +:+ now_isoformat h))).
  set (s5 := mkW (w_cells s) (w_warnings s)
    (fh s4 ++ text_line ("element vertex " +:+ str (Z.of_nat (nrows (points mesh)))))).
  set (body := λ k : nat,
    match type_name_table (arr_dtype (points mesh)) with
    | None => lift (Raise (KeyError "dtype"))
    | Some type_name =>
      match dim_names !! k with
      | None => lift (Raise IndexError)
      | Some dim => fh_write (text_line ("property " +:+ type_name +:+ " " +:+ dim))
      end
    end).
  assert (Hbody : ∀ k s, same_cells s (fst (body k s)) ∧ ended (snd (body k s))).
  { intros k s0. unfold body.
    destruct (type_name_table _);
      [destruct (dim_names !! k)|];
      cbn; (split; [first [apply same_cells_write | apply same_cells_refl]
                   |first [left; by eexists | right; by eexists]]). }
  destruct (for_frame body (seq 0 (ncols (points mesh))) Hbody s5) as [H1 H2].
  assert (same_cells s s5) as H0 by (split; [done|exists []; split;
    [by rewrite app_nil_r|apply not_elem_of_nil]]).
  replace (fst _) with
    (fst ((for_ (seq 0 (ncols (points mesh))) body ;;
           write_point_data_header (point_data mesh) []) s5))
    by (destruct binary; reflexivity).
  replace (snd _) with
    (snd ((for_ (seq 0 (ncols (points mesh))) body ;;
           write_point_data_header (point_data mesh) []) s5))
    by (destruct binary; reflexivity).
  unfold mbind, W_bind.
  destruct (for_ (seq 0 (ncols (points mesh))) body s5) as [s6 r6].
  cbn [fst snd] in *.
  destruct H2 as [[[] ->]|[e ->]].
  - destruct (write_point_data_header_frame (point_data mesh) [] s6) as [H3 H4].
    split; [|done].
    eapply same_cells_trans; [exact H0|].
    eapply same_cells_trans; [exact H1|exact H3].
  - split; [|right; by eexists].
    eapply same_cells_trans; [exact H0|exact H1].
Qed.


Lemma cast_down_spec todo : ∀ pre has_cast s,
  w_cells s = pre ++ todo ->
  cast_down (length pre) todo has_cast s
  = (mkW (pre ++ map narrow todo) (w_warnings s) (fh s),
     Ok (has_cast || has_int64 todo)).
Proof.
  induction todo as [|b todo IH]; intros pre has_cast s Hs.
  - cbn. rewrite orb_false_r. destruct s; cbn in *. by rewrite Hs.
  - cbn [cast_down map has_int64 existsb]. unfold narrow at 1.
    destruct (decide (arr_dtype (data b) = np_int64)) as [E|E].
    + rewrite bool_decide_eq_true_2 by done.
      unfold mbind, W_bind, set_cell.
      specialize (IH (pre ++ [mkCellBlock (cell_type b) (astype_int32 (data b))])
                    true
                    (mkW (<[length pre := mkCellBlock (cell_type b) (astype_int32 (data b))]>
                            (w_cells s)) (w_warnings s) (fh s))).
      rewrite length_app in IH. cbn [length] in IH. rewrite Nat.add_1_r in IH.
      rewrite IH.
      * cbn [w_warnings fh]. rewrite <- app_assoc. cbn [app orb].
        by rewrite orb_true_r.
      * cbn [w_cells]. rewrite Hs.
        rewrite insert_app_r_alt by lia. rewrite Nat.sub_diag. cbn.
        by rewrite <- app_assoc.
    + rewrite bool_decide_eq_false_2 by done. cbn [orb].
      specialize (IH (pre ++ [b]) has_cast s).
      rewrite length_app in IH. cbn [length] in IH. rewrite Nat.add_1_r in IH.
      rewrite IH by (by rewrite <- app_assoc).
      by rewrite <- app_assoc.
Qed.

(** What the face element of the header does to the state. *)
Lemma write_face_header_spec s :
  write_face_header s =
  let cells0 := w_cells s in
  if 0 <? count_cells cells0 0 then
    let s2 := mkW (map narrow cells0)
                  (w_warnings s ++
                   (if has_int64 cells0 then [narrowing_warning] else []))
                  (fh s ++ text_line ("element face " +:+ str (count_cells cells0 0))) in
    match common_dtype (map narrow cells0) None with
    | Ok None => (s2, Ok ())
    | Ok (Some dt) =>
      match numpy_to_ply_dtype dt with
      | None => (s2, Raise (KeyError "dtype"))
      | Some ply_type =>
        (mkW (w_cells s2) (w_warnings s2)
             (fh s2 ++ text_line ("property list uint8 " +:+ ply_type
                                  +:+ " vertex_indices")), Ok ())
      end
    | Raise e => (s2, Raise e)
    | Diverge => (s2, Diverge)
    | Unmodelled w => (s2, Unmodelled w)
    end
  else (s, Ok ()).
Proof.
  unfold write_face_header. unfold mbind at 1, W_bind at 1, get_cells at 1.
  destruct (0 <? count_cells (w_cells s) 0); [|reflexivity].
  unfold mbind at 1, W_bind at 1, fh_write at 1.
  unfold mbind at 1, W_bind at 1.
  rewrite (cast_down_spec (w_cells s) [] false) by reflexivity.
  cbn [app orb w_warnings fh].
  destruct (has_int64 (w_cells s)).
  - unfold mbind, W_bind, warnings_warn, get_cells, lift. cbn [w_cells w_warnings fh].
    destruct (common_dtype _ _) as [[dt|]| | |]; try reflexivity.
    destruct (numpy_to_ply_dtype dt); reflexivity.
  - unfold mbind, W_bind, mret, W_ret, get_cells, lift. cbn [w_cells w_warnings fh].
    rewrite app_nil_r.
    destruct (common_dtype _ _) as [[dt|]| | |]; try reflexivity.
    destruct (numpy_to_ply_dtype dt); reflexivity.
Qed.

Lemma for_same_cells {A} (body : A -> W unit) l :
  (∀ a s, same_cells s (fst (body a s))) ->
  ∀ s, same_cells s (fst (for_ l body s)).
Proof.
  intros Hb. induction l as [|a l IH]; intros s.
  - apply same_cells_refl.
  - cbn [for_]. unfold mbind, W_bind.
    pose proof (Hb a s) as H1. destruct (body a s) as [s1 [[]| | |]];
      cbn [fst] in *; try done.
    by apply (same_cells_trans _ s1).
Qed.

Lemma unsupported_is_not_narrowing :
  skipping_warning ≠ narrowing_warning.
Proof. discriminate. Qed.

Lemma write_binary_cells_same_cells h b s :
  same_cells s (fst (write_binary_cells h b s)).
Proof.
  unfold write_binary_cells.
  destruct (cell_type_to_count (cell_type b)).
  - unfold mbind, W_bind, lift.
    destruct (rec_fromarrays _) as [[dts table]| | |];
      first [apply same_cells_write | apply same_cells_refl].
  - apply same_cells_warn, unsupported_is_not_narrowing.
Qed.

Lemma write_ascii_cells_same_cells h b s :
  same_cells s (fst (write_ascii_cells h b s)).
Proof.
  unfold write_ascii_cells.
  destruct (kind (arr_dtype (data b)));
    try destruct (negb _);
    first [apply same_cells_write | apply same_cells_refl].
Qed.

Lemma write_data_same_cells h mesh binary pd s :
  same_cells s (fst (write_data h mesh binary pd s)).
Proof.
  unfold write_data. destruct binary.
  - unfold mbind at 1, W_bind at 1, lift.
    destruct (rec_fromarrays _) as [[dts table]| | |]; try apply same_cells_refl.
    unfold mbind at 1, W_bind at 1, fh_write at 1.
    unfold mbind at 1, W_bind at 1, get_cells at 1.
    eapply same_cells_trans; [|apply for_same_cells, write_binary_cells_same_cells].
    apply same_cells_write.
  - unfold mbind at 1, W_bind at 1, lift.
    destruct (rec_fromarrays _) as [[dts table]| | |]; try apply same_cells_refl.
    unfold mbind at 1, W_bind at 1.
    destruct table as [|row table]; [apply same_cells_refl|].
    unfold fh_write at 1.
    unfold mbind at 1, W_bind at 1, get_cells at 1.
    eapply same_cells_trans; [|apply for_same_cells, write_ascii_cells_same_cells].
    apply same_cells_write.
Qed.

Lemma common_dtype_Some cs : ∀ dt,
  common_dtype cs (Some dt) =
  if forallb (λ b, bool_decide (arr_dtype (data b) = dt)) cs
  then Ok (Some dt) else Raise (WriteError EmptyString).
Proof.
  induction cs as [|b cs IH]; intros dt; [reflexivity|].
  cbn [common_dtype forallb].
  destruct (decide (arr_dtype (data b) ≠ dt)) as [E|E].
  - by rewrite bool_decide_eq_false_2.
  - rewrite bool_decide_eq_true_2 by (by destruct (decide (arr_dtype (data b) = dt))).
    apply IH.
Qed.

Lemma common_dtype_None b cs :
  common_dtype (b :: cs) None = common_dtype cs (Some (arr_dtype (data b))).
Proof.
  cbn [common_dtype]. by destruct (decide (arr_dtype (data b) ≠ arr_dtype (data b))).
Qed.

Lemma common_dtype_mixed cs b1 b2 :
  b1 ∈ cs -> b2 ∈ cs -> arr_dtype (data b1) ≠ arr_dtype (data b2) ->
  common_dtype cs None = Raise (WriteError EmptyString).
Proof.
  intros H1 H2 Hne. destruct cs as [|b cs]; [by apply elem_of_nil in H1|].
  rewrite common_dtype_None, common_dtype_Some.
  destruct (forallb _ cs) eqn:E; [|reflexivity].
  exfalso. rewrite forallb_forall in E.
  assert (∀ x, x ∈ b :: cs -> arr_dtype (data x) = arr_dtype (data b)) as Hall.
  { intros x Hx. apply elem_of_cons in Hx as [->|Hx]; [done|].
    apply list_elem_of_In, E, bool_decide_eq_true in Hx. done. }
  apply Hne. by rewrite (Hall b1 H1), (Hall b2 H2).
Qed.

Lemma common_dtype_uniform cs dt :
  cs ≠ [] -> (∀ b, b ∈ cs -> arr_dtype (data b) = dt) ->
  common_dtype cs None = Ok (Some dt).
Proof.
  intros Hne Hall. destruct cs as [|b cs]; [done|].
  rewrite common_dtype_None, common_dtype_Some.
  rewrite (Hall b) by apply list_elem_of_here.
  assert (forallb (λ b0, bool_decide (arr_dtype (data b0) = dt)) cs = true) as ->;
    [|reflexivity].
  apply forallb_forall. intros x Hx. apply bool_decide_eq_true_2, Hall.
  apply list_elem_of_further, list_elem_of_In, Hx.
Qed.

(** [write] once its vertex header is written. *)
Lemma ply_write_body_after_header h mesh binary s0 s1 pd :
  write_vertex_header h mesh binary s0 = (s1, Ok pd) ->
  ply_write_body h mesh binary s0 =
  match write_face_header s1 with
  | (s2, Ok _) =>
    write_data h mesh binary pd
      (mkW (w_cells s2) (w_warnings s2) (fh s2 ++ text_line "end_header"))
  | (s2, Raise e) => (s2, Raise e)
  | (s2, Diverge) => (s2, Diverge)
  | (s2, Unmodelled w) => (s2, Unmodelled w)
  end.
Proof.
  intros H. unfold ply_write_body. unfold mbind at 1, W_bind at 1. rewrite H.
  unfold mbind at 1, W_bind at 1.
  destruct (write_face_header s1) as [s2 [[]| | |]]; reflexivity.
Qed.

Lemma ply_write_body_header_raise h mesh binary s0 s1 e :
  write_vertex_header h mesh binary s0 = (s1, Raise e) ->
  ply_write_body h mesh binary s0 = (s1, Raise e).
Proof.
  intros H. unfold ply_write_body. unfold mbind at 1, W_bind at 1. by rewrite H.
Qed.

Lemma ply_write_unfold h filename mesh binary :
  ply.write h filename mesh binary =
  let '(s, r) := ply_write_body h mesh binary (mkW (cells mesh) [] []) in
  mkWriteResult
    (mkMesh (points mesh) (w_cells s) (point_data mesh) (cell_data mesh))
    (w_warnings s) (fh s) r.
Proof. reflexivity. Qed.

(** C4 (amended): when the mesh has at least one row in a block of a
    recognised cell type, so that [write] declares a face element, and two
    of its blocks still differ in dtype after the cast of the 64-bit blocks,
    [write] raises; it is the bare [WriteError] of the dtype check whenever
    the vertex part of the header could be written. *)
Theorem mixed_cell_dtypes_are_fatal h filename mesh binary b1 b2
    (Hn : 0 < count_cells (cells mesh) 0)
    (H1 : b1 ∈ map narrow (cells mesh))
    (H2 : b2 ∈ map narrow (cells mesh))
    (Hne : arr_dtype (data b1) ≠ arr_dtype (data b2)) :
  (∃ e, wr_end (ply.write h filename mesh binary) = Raise e)
  ∧ (vertex_header_written h mesh binary ->
     wr_end (ply.write h filename mesh binary) = Raise (WriteError EmptyString)).
Proof.
  assert (Hkey : ∀ s1 pd,
    write_vertex_header h mesh binary (mkW (cells mesh) [] []) = (s1, Ok pd) ->
    wr_end (ply.write h filename mesh binary) = Raise (WriteError EmptyString)).
  { intros s1 pd Hh. rewrite ply_write_unfold.
    rewrite (ply_write_body_after_header _ _ _ _ _ _ Hh).
    rewrite write_face_header_spec.
    pose proof (write_vertex_header_frame h mesh binary (mkW (cells mesh) [] []))
      as [[Hc _] _].
    rewrite Hh in Hc. cbn [fst w_cells] in Hc. cbn zeta. rewrite Hc.
    destruct (Z.ltb_spec 0 (count_cells (cells mesh) 0)) as [_|?]; [|lia].
    rewrite (common_dtype_mixed _ b1 b2 H1 H2 Hne). reflexivity. }
  split.
  - pose proof (write_vertex_header_frame h mesh binary (mkW (cells mesh) [] []))
      as [_ He].
    destruct (write_vertex_header h mesh binary (mkW (cells mesh) [] []))
      as [s1 r1] eqn:Hh.
    cbn [snd] in He. destruct He as [[pd ->]|[e ->]].
    + eexists. by eapply Hkey.
    + exists e. rewrite ply_write_unfold.
      by rewrite (ply_write_body_header_raise _ _ _ _ _ _ Hh).
  - intros (s1 & pd & Hh). by eapply Hkey.
Qed.

Lemma mixed_cell_dtypes_are_fatal_witness :
  wr_end (ply.write host0 (Path "mesh.ply") mesh_mixed true)
  = Raise (WriteError EmptyString).
Proof.
  apply (proj2 (mixed_cell_dtypes_are_fatal host0 (Path "mesh.ply") mesh_mixed true
    (mkCellBlock "triangle" (Ndarray np_int32 3 [[0; 1; 2]]))
    (mkCellBlock "quad" (Ndarray np_int16 4 [[0; 1; 3; 2]]))
    eq_refl
    ltac:(apply list_elem_of_here)
    ltac:(apply list_elem_of_further, list_elem_of_here)
    ltac:(discriminate))).
  eexists _, _. vm_compute. reflexivity.
Defined.

(** C4 as stated fails: two blocks of unrecognised cell types, one of int32
    and one of int16 indices, are written without an exception; in ASCII
    mode their rows are in the output. *)
Lemma mixed_cell_dtypes_not_fatal :
  arr_dtype (data (narrow (mkCellBlock "wedge5" (Ndarray np_int32 5 [[0; 1; 2; 3; 0]]))))
  ≠ arr_dtype (data (narrow (mkCellBlock "edge" (Ndarray np_int16 2 [[0; 1]]))))
  ∧ wr_end (ply.write host0 (Path "mesh.ply") mesh_mixed_custom true) = Ok ()
  ∧ wr_end (ply.write host0 (Path "mesh.ply") mesh_mixed_custom false) = Ok ()
  ∧ ∃ pre, wr_out (ply.write host0 (Path "mesh.ply") mesh_mixed_custom false)
           = pre ++ text_line "5 0 1 2 3 0" ++ text_line "2 0 1".
Proof.
  split; [discriminate|]. split; [vm_compute; reflexivity|].
  split; [vm_compute; reflexivity|].
  exists (take (length (wr_out (ply.write host0 (Path "mesh.ply")
                                      mesh_mixed_custom false)) - 18)
            (wr_out (ply.write host0 (Path "mesh.ply") mesh_mixed_custom false))).
  vm_compute. reflexivity.
Qed.

(** ** Lines of text *)

Lemma encode_app s1 s2 : encode (s1 +:+ s2) = encode s1 ++ encode s2.
Proof.
  unfold encode. induction s1 as [|c s1 IH]; [reflexivity|].
  rewrite append_cons. cbn [list_ascii_of_string app]. by rewrite IH.
Qed.

Lemma text_line_app s : text_line s = encode s ++ [LF].
Proof. unfold text_line. by rewrite encode_app. Qed.

Lemma decode_encode s : decode (encode s) = s.
Proof. apply string_of_list_ascii_of_string. Qed.

Lemma seven_bit_by (b : bytes) :
  forallb (λ c, (N_of_ascii c <? 128)%N) b = true -> seven_bit b.
Proof.
  intros H. apply Forall_forall. intros c Hc.
  apply N.ltb_lt. rewrite forallb_forall in H. by apply H, list_elem_of_In.
Qed.

Lemma readline_no_LF (l : bytes) rest :
  Forall (λ c, c ≠ LF) l -> readline (l ++ LF :: rest) = (l ++ [LF], rest).
Proof.
  induction 1 as [|c l Hc _ IH]; [reflexivity|].
  cbn [app readline]. destruct (Ascii.eqb_spec c LF); [done|].
  by rewrite IH.
Qed.

Lemma readline_text_line s rest :
  no_LF s -> readline (text_line s ++ rest) = (text_line s, rest).
Proof.
  intros H. rewrite text_line_app, <- app_assoc. cbn [app].
  by apply readline_no_LF.
Qed.

Lemma next_line_loop_significant k s rest :
  significant s -> next_line_loop (S k) (text_line s ++ rest) = Ok (s, rest).
Proof.
  intros (Hlf & Hs & Hne & Hc). cbn [next_line_loop].
  rewrite readline_text_line by done.
  unfold text_line. rewrite !decode_encode, !Hs.
  destruct (String.eqb_spec s EmptyString); [done|].
  destruct (String.eqb_spec (py_take 7 s) "comment"); [done|].
  reflexivity.
Qed.

Lemma next_line_significant s rest :
  significant s -> _next_line (text_line s ++ rest) = Ok (s, rest).
Proof. apply next_line_loop_significant. Qed.

(** A comment line is passed over. *)
Lemma next_line_comment c s rest :
  no_LF c -> py_take 7 (strip (c +:+ String LF EmptyString)) = "comment" ->
  significant s ->
  _next_line (text_line c ++ text_line s ++ rest) = Ok (s, rest).
Proof.
  intros Hlf Hc Hs. unfold _next_line.
  cbn [next_line_loop]. rewrite readline_text_line by done.
  assert (decode (text_line c) = c +:+ String LF EmptyString) as ->
    by apply decode_encode.
  rewrite Hc. rewrite String.eqb_refl, andb_false_r.
  rewrite length_app, (text_line_app c), length_app. cbn [length].
  rewrite Nat.add_1_r. cbn [Nat.add].
  by apply next_line_loop_significant.
Qed.

(** *** [strip] *)

Lemma rstrip_app a b :
  rstrip (a +:+ b) =
  match rstrip b with
  | EmptyString => rstrip a
  | r => a +:+ r
  end.
Proof.
  induction a as [|c a IH].
  - rewrite append_nil_l. by destruct (rstrip b).
  - rewrite append_cons. cbn [rstrip]. rewrite IH.
    destruct (rstrip b) as [|c' r] eqn:E; [reflexivity|].
    destruct a; reflexivity.
Qed.

Lemma digit_not_space c : is_digit c = true -> is_space c = false.
Proof. destruct c as [[] [] [] [] [] [] [] []]; vm_compute; congruence. Qed.

Lemma digit_not_LF c : is_digit c = true -> c ≠ LF.
Proof. destruct c as [[] [] [] [] [] [] [] []]; vm_compute; congruence. Qed.

Lemma rstrip_digits d : span_digits d = (d, EmptyString) -> rstrip d = d.
Proof.
  induction d as [|c d IH]; [reflexivity|].
  cbn [span_digits]. destruct (is_digit c) eqn:Hc; [|discriminate].
  destruct (span_digits d) as [d' t] eqn:E. intros [= -> ->].
  cbn [rstrip]. rewrite IH by reflexivity.
  destruct d; [by rewrite digit_not_space|reflexivity].
Qed.

Lemma no_LF_digits d : span_digits d = (d, EmptyString) -> no_LF d.
Proof.
  unfold no_LF. induction d as [|c d IH]; [constructor|].
  cbn [span_digits]. destruct (is_digit c) eqn:Hc; [|discriminate].
  destruct (span_digits d) as [d' t] eqn:E. intros [= -> ->].
  cbn [list_ascii_of_string]. constructor; [by apply digit_not_LF|by apply IH].
Qed.

Lemma no_LF_app a b : no_LF a -> no_LF b -> no_LF (a +:+ b).
Proof.
  unfold no_LF. intros Ha Hb.
  change (list_ascii_of_string (a +:+ b)) with (encode (a +:+ b)).
  rewrite encode_app. by apply Forall_app.
Qed.

Lemma str_digits n :
  0 <= n -> span_digits (str n) = (str n, EmptyString) ∧ str n ≠ EmptyString.
Proof.
  intros Hn. destruct n as [|p|p]; [by split| |lia].
  split; [apply str_pos_digits|apply str_pos_nonempty].
Qed.

Lemma rstrip_count (prefix : string) n :
  0 <= n ->
  rstrip ((prefix +:+ str n) +:+ String LF EmptyString) = prefix +:+ str n.
Proof.
  intros Hn. destruct (str_digits n Hn) as [Hd Hne].
  rewrite rstrip_app. change (rstrip (String LF EmptyString)) with EmptyString.
  cbv iota. rewrite rstrip_app, (rstrip_digits _ Hd).
  by destruct (str n).
Qed.

(** The two element lines of the header are significant. *)
Lemma significant_element_vertex n :
  0 <= n -> significant ("element vertex " +:+ str n).
Proof.
  intros Hn. destruct (str_digits n Hn) as [Hd Hne].
  split; [|split; [|split]].
  - apply no_LF_app; [|by apply no_LF_digits].
    unfold no_LF. cbn. repeat constructor; discriminate.
  - unfold strip.
    change (lstrip (("element vertex " +:+ str n) +:+ String LF EmptyString))
      with (("element vertex " +:+ str n) +:+ String LF EmptyString).
    by apply rstrip_count.
  - discriminate.
  - discriminate.
Qed.

Lemma significant_element_face n :
  0 <= n -> significant ("element face " +:+ str n).
Proof.
  intros Hn. destruct (str_digits n Hn) as [Hd Hne].
  split; [|split; [|split]].
  - apply no_LF_app; [|by apply no_LF_digits].
    unfold no_LF. cbn. repeat constructor; discriminate.
  - unfold strip.
    change (lstrip (("element face " +:+ str n) +:+ String LF EmptyString))
      with (("element face " +:+ str n) +:+ String LF EmptyString).
    by apply rstrip_count.
  - discriminate.
  - discriminate.
Qed.

(** The comment line of the writer is passed over. *)
Lemma comment_line_is_comment (version now : string) :
  py_take 7 (strip (("comment Created by meshio v" +:+ version +:+ ", " +:+ now)
                    +:+ String LF EmptyString)) = "comment".
Proof.
  unfold strip.
  change (lstrip (("comment Created by meshio v" +:+ version +:+ ", " +:+ now)
                  +:+ String LF EmptyString))
    with ("comment Created by meshio v"
          +:+ ((version +:+ ", " +:+ now) +:+ String LF EmptyString)).
  rewrite rstrip_app.
  destruct (rstrip ((version +:+ ", " +:+ now) +:+ String LF EmptyString));
    reflexivity.
Qed.

Lemma comment_line_no_LF (version now : string) :
  no_LF version -> no_LF now ->
  no_LF ("comment Created by meshio v" +:+ version +:+ ", " +:+ now).
Proof.
  intros Hv Hn. apply no_LF_app; [|apply no_LF_app; [done|apply no_LF_app; [|done]]];
    unfold no_LF; cbn; repeat constructor; discriminate.
Qed.

(** ** Reading the header that [write] made *)

Ltac solve_significant :=
  split; [unfold no_LF; cbn; repeat constructor; discriminate
         |split; [reflexivity|split; discriminate]].

Ltac each_name H :=
  repeat (apply elem_of_cons in H as [->|H]); [..|by apply elem_of_nil in H].

Lemma significant_property_list tc :
  tc ∈ cell_type_names ->
  significant ("property list uint8 " +:+ tc +:+ " vertex_indices").
Proof.
  intros Ht. unfold cell_type_names in Ht. each_name Ht; solve_significant.
Qed.

Lemma significant_end_header : significant "end_header".
Proof. solve_significant. Qed.

Lemma re_property_list_cell tc :
  tc ∈ cell_type_names ->
  re_property_list ("property list uint8 " +:+ tc +:+ " vertex_indices")
  = Some ("uint8", tc, "vertex_indices").
Proof.
  intros Ht. unfold cell_type_names in Ht. each_name Ht; reflexivity.
Qed.

Lemma re_element_count what n :
  0 <= n ->
  re_element what (("element " +:+ what +:+ " ") +:+ str n) = Some (str n).
Proof.
  intros Hn. destruct (str_digits n Hn) as [Hd Hne]. unfold re_element.
  assert (∀ p s, after_prefix p (p +:+ s) = Some s) as Hp.
  { clear. induction p as [|c p IH]; intros s.
    - by destruct s.
    - rewrite append_cons. cbn [after_prefix]. rewrite Ascii.eqb_refl. apply IH. }
  rewrite Hp, Hd. by destruct (str n).
Qed.

Lemma take8_property tp dim :
  py_take 8 ("property " +:+ tp +:+ " " +:+ dim) = "property".
Proof. reflexivity. Qed.

(** *** Point data in the header *)

Lemma visible_not_space c : (32 < N_of_ascii c < 127)%N -> is_space c = false.
Proof.
  intros H. unfold is_space. cbv zeta.
  destruct (N.leb_spec 9 (N_of_ascii c)), (N.leb_spec (N_of_ascii c) 13),
    (N.leb_spec 28 (N_of_ascii c)), (N.leb_spec (N_of_ascii c) 32);
    cbn; try reflexivity; lia.
Qed.

Lemma visible_not_LF c : (32 < N_of_ascii c < 127)%N -> c ≠ LF.
Proof. intros H ->. vm_compute in H. destruct H as [H _]. discriminate. Qed.

Lemma visible_not_blank c : (32 < N_of_ascii c < 127)%N -> Ascii.eqb c " " = false.
Proof.
  intros H. destruct (Ascii.eqb_spec c " ") as [->|]; [|done].
  vm_compute in H. destruct H as [H _]. discriminate.
Qed.

Lemma plain_name_no_LF s : plain_name s -> no_LF s.
Proof.
  intros [_ H]. unfold no_LF. eapply Forall_impl; [exact H|].
  apply visible_not_LF.
Qed.

Lemma plain_name_rstrip s : plain_name s -> rstrip s = s ∧ s ≠ EmptyString.
Proof.
  intros [Hne H]. split; [|done]. clear Hne.
  induction s as [|c s IH]; [reflexivity|].
  cbn [list_ascii_of_string] in H. apply Forall_cons in H as [Hc H].
  cbn [rstrip]. rewrite IH by done.
  destruct s; [by rewrite visible_not_space|reflexivity].
Qed.

Lemma last_blank_plain s :
  Forall (λ c, (32 < N_of_ascii c < 127)%N) (list_ascii_of_string s) ->
  last_blank s = None.
Proof.
  induction s as [|c s IH]; [reflexivity|].
  cbn [list_ascii_of_string]. intros [Hc H]%Forall_cons.
  cbn [last_blank]. rewrite IH by done. by rewrite visible_not_blank.
Qed.

Lemma last_blank_app a s :
  plain_name s -> last_blank (a +:+ " " +:+ s) = Some (a, s).
Proof.
  intros [Hne H]. induction a as [|c a IH].
  - rewrite append_nil_l. change (" " +:+ s) with (String " " s).
    cbn [last_blank]. rewrite last_blank_plain by done.
    change (Ascii.eqb " " " ") with true. by destruct s.
  - rewrite append_cons. cbn [last_blank]. by rewrite IH.
Qed.

Lemma after_prefix_app p s : after_prefix p (p +:+ s) = Some s.
Proof.
  induction p as [|c p IH].
  - by destruct s.
  - rewrite append_cons. cbn [after_prefix]. rewrite Ascii.eqb_refl. apply IH.
Qed.

Lemma re_property_key tp key :
  tp ≠ EmptyString -> plain_name key ->
  re_property ("property " +:+ tp +:+ " " +:+ key) = Some (tp, key).
Proof.
  intros Ht Hk. unfold re_property. rewrite after_prefix_app.
  destruct tp as [|c tp]; [done|]. rewrite append_cons.
  unfold two_groups. by rewrite last_blank_app.
Qed.

Lemma point_type_names_plain tp : tp ∈ point_type_names -> plain_name tp.
Proof.
  intros Ht. unfold point_type_names in Ht.
  each_name Ht; (split; [discriminate|]); cbn; repeat constructor.
Qed.

Lemma significant_property_key tp key :
  plain_name tp -> plain_name key ->
  significant ("property " +:+ tp +:+ " " +:+ key).
Proof.
  intros Ht Hk. split; [|split; [|split]].
  - apply no_LF_app; [|apply no_LF_app; [by apply plain_name_no_LF|apply no_LF_app]].
    + unfold no_LF. cbn. repeat constructor; discriminate.
    + unfold no_LF. cbn. repeat constructor; discriminate.
    + by apply plain_name_no_LF.
  - unfold strip.
    change (lstrip (("property " +:+ tp +:+ " " +:+ key) +:+ String LF EmptyString))
      with (("property " +:+ tp +:+ " " +:+ key) +:+ String LF EmptyString).
    rewrite rstrip_app. change (rstrip (String LF EmptyString)) with EmptyString.
    cbv iota. rewrite !rstrip_app.
    destruct (plain_name_rstrip key Hk) as [-> Hne].
    destruct key as [|c key]; [done|].
    change (" " +:+ String c key) with (String " " (String c key)).
    cbv iota. by destruct tp.
  - discriminate.
  - discriminate.
Qed.

Lemma point_data_text_cons p props :
  point_data_text (p :: props)
  = text_line ("property " +:+ fst p +:+ " " +:+ snd p) ++ point_data_text props.
Proof. reflexivity. Qed.

Lemma point_data_text_length props :
  (length props <= length (point_data_text props))%nat.
Proof.
  induction props as [|p props IH]; [done|].
  rewrite point_data_text_cons, length_app, text_line_app, length_app.
  cbn [length]. lia.
Qed.

(** The loop over the property lines of the vertex element. *)
Lemma vertex_properties_lines props : ∀ fuel tp key line rest formats names,
  Forall (λ p, plain_name (fst p) ∧ plain_name (snd p)) ((tp, key) :: props) ->
  significant line -> String.eqb (py_take 8 line) "property" = false ->
  (length props < fuel)%nat ->
  vertex_properties fuel ("property " +:+ tp +:+ " " +:+ key)
    (point_data_text props ++ text_line line ++ rest) formats names
  = Ok (line, rest, formats ++ tp :: map fst props, names ++ key :: map snd props).
Proof.
  induction props as [|[tp' key'] props IH];
    intros fuel tp key line rest formats names Hall Hl Hp Hfuel;
    apply Forall_cons in Hall as [[Ht Hk] Hall]; cbn [fst snd] in Ht, Hk;
    (destruct fuel as [|fuel]; [cbn [length] in Hfuel; lia|]);
    cbn [vertex_properties]; rewrite take8_property;
    change (String.eqb "property" "property") with true; cbv iota;
    (rewrite re_property_key by (done || by destruct Ht)).
  - cbn [point_data_text map concat app].
    rewrite next_line_significant by done. cbn [mbind outcome_bind].
    destruct fuel; cbn [vertex_properties]; by rewrite Hp.
  - rewrite point_data_text_cons, <- app_assoc. cbn [fst snd].
    pose proof Hall as Hall'. apply Forall_cons in Hall' as [[Ht' Hk'] _].
    cbn [fst snd] in Ht', Hk'.
    rewrite next_line_significant by (by apply significant_property_key).
    cbn [mbind outcome_bind].
    rewrite IH by (done || (cbn [length] in Hfuel; lia)).
    cbn [map fst snd]. by rewrite <- !app_assoc.
Qed.

Lemma face_properties_written fuel tc line rest names dtypes :
  tc ∈ cell_type_names ->
  significant line -> String.eqb (py_take 8 line) "property" = false ->
  face_properties (S fuel) ("property list uint8 " +:+ tc +:+ " vertex_indices")
    (text_line line ++ rest) names dtypes
  = Ok (line, rest, names ++ ["vertex_indices"], dtypes ++ [PList "uint8" tc]).
Proof.
  intros Ht Hl Hp. cbn [face_properties].
  change (py_take 8 ("property list uint8 " +:+ tc +:+ " vertex_indices"))
    with "property".
  change (py_take 13 ("property list uint8 " +:+ tc +:+ " vertex_indices"))
    with "property list".
  change (String.eqb "property" "property") with true.
  change (String.eqb "property list" "property list") with true. cbv iota.
  rewrite re_property_list_cell by done. cbn [mbind outcome_bind].
  rewrite next_line_significant by done. cbn [mbind outcome_bind fst snd].
  destruct fuel; cbn [face_properties]; by rewrite Hp.
Qed.

Lemma header_loop_written fuel n k tp tc props rest :
  0 <= n -> 0 <= k -> tp ∈ point_type_names -> tc ∈ cell_type_names ->
  Forall (λ p, plain_name (fst p) ∧ plain_name (snd p)) props ->
  (length (point_data_text props) <= fuel)%nat ->
  header_loop (S (S fuel)) ("element vertex " +:+ str n)
    (vertex_properties_text tp ++ point_data_text props ++ face_header_text k tc
     ++ text_line "end_header" ++ rest)
    (mkHeader 0 0 [] [] [] [])
  = Ok (mkHeader n k ([tp; tp; tp] ++ map fst props)
          (["x"; "y"; "z"] ++ map snd props) ["vertex_indices"]
          [PList "uint8" tc], rest).
Proof.
  intros Hn Hk Htp Htc Hprops Hfuel.
  pose proof (point_type_names_plain tp Htp) as Hplain.
  assert (∀ d, d ∈ ["x"; "y"; "z"] -> plain_name d) as Hdim.
  { intros d Hd. each_name Hd; (split; [discriminate|]); cbn; repeat constructor. }
  assert (Hx : "x" ∈ ["x"; "y"; "z"]) by (apply list_elem_of_here).
  assert (Hy : "y" ∈ ["x"; "y"; "z"])
    by (apply list_elem_of_further, list_elem_of_here).
  assert (Hz : "z" ∈ ["x"; "y"; "z"])
    by (do 2 apply list_elem_of_further; apply list_elem_of_here).
  cbn [header_loop].
  change (String.eqb ("element vertex " +:+ str n) "end_header") with false.
  change (String.eqb (py_take 8 ("element vertex " +:+ str n)) "obj_info") with false.
  cbv iota.
  change ("element vertex " +:+ str n)
    with (("element " +:+ "vertex" +:+ " ") +:+ str n) at 1.
  rewrite re_element_count by done.
  rewrite int_of_digits_str by done.
  unfold vertex_properties_text, face_header_text. rewrite <- !app_assoc.
  rewrite next_line_significant by (apply significant_property_key; auto).
  cbn [mbind outcome_bind].
  rewrite !app_assoc.
  rewrite <- (app_assoc (text_line ("property " +:+ tp +:+ " " +:+ "y"))).
  change (text_line ("property " +:+ tp +:+ " " +:+ "y")
          ++ text_line ("property " +:+ tp +:+ " " +:+ "z")
          ++ point_data_text props)
    with (point_data_text ((tp, "y") :: (tp, "z") :: props)).
  rewrite <- !app_assoc.
  rewrite (app_assoc (text_line ("property list uint8 " +:+ tc +:+ " vertex_indices"))).
  rewrite vertex_properties_lines;
    [|repeat (apply Forall_cons; split; [split; auto|]); done
     |by apply significant_element_face|reflexivity
     |rewrite length_app;
      pose proof (point_data_text_length ((tp, "y") :: (tp, "z") :: props)); lia].
  cbn [mbind outcome_bind point_data_formats point_data_names app map fst snd
       num_cells cell_data_names cell_data_dtypes].
  change (String.eqb ("element face " +:+ str k) "end_header") with false.
  change (String.eqb (py_take 8 ("element face " +:+ str k)) "obj_info") with false.
  change (re_element "vertex" ("element face " +:+ str k)) with (@None string).
  cbv iota.
  change ("element face " +:+ str k)
    with (("element " +:+ "face" +:+ " ") +:+ str k) at 1.
  rewrite re_element_count by done.
  rewrite int_of_digits_str by done.
  destruct (Z.ltb_spec k 0) as [?|_]; [lia|].
  rewrite <- !app_assoc.
  rewrite next_line_significant by (by apply significant_property_list).
  cbn [mbind outcome_bind].
  rewrite face_properties_written;
    [|done|apply significant_end_header|reflexivity].
  cbn [mbind outcome_bind num_verts point_data_formats point_data_names app].
  destruct fuel; reflexivity.
Qed.

(** [read_buffer] on a header written in binary mode: what is left is the
    body, for [_read_binary]. *)
Lemma read_buffer_written h n k tp tc props body :
  0 <= n -> 0 <= k -> tp ∈ point_type_names -> tc ∈ cell_type_names ->
  Forall (λ p, plain_name (fst p) ∧ plain_name (snd p)) props ->
  no_LF (meshio_version h) -> no_LF (now_isoformat h) ->
  read_buffer h (vertex_header_text h true n tp ++ point_data_text props
                 ++ face_header_text k tc ++ text_line "end_header" ++ body)
  = _read_binary body (sys_byteorder h) (["x"; "y"; "z"] ++ map snd props)
      ([tp; tp; tp] ++ map fst props) n k
      ["vertex_indices"] [PList "uint8" tc].
Proof.
  intros Hn Hk Htp Htc Hprops Hv Hnow. unfold read_buffer, vertex_header_text.
  rewrite <- !app_assoc.
  rewrite (readline_text_line "ply")
    by (unfold no_LF; cbn; repeat constructor; discriminate).
  change (strip (decode (text_line "ply"))) with "ply".
  change (negb (String.eqb "ply" "ply")) with false. cbv iota.
  rewrite next_line_significant by (destruct (sys_byteorder h); solve_significant).
  cbn [mbind outcome_bind].
  rewrite next_line_comment;
    [|by apply comment_line_no_LF|apply comment_line_is_comment
     |by apply significant_element_vertex].
  set (f := vertex_properties_text tp ++ point_data_text props
            ++ face_header_text k tc ++ text_line "end_header" ++ body).
  assert (∃ fuel, length f = S fuel
                  ∧ (length (point_data_text props) <= fuel)%nat) as (fuel & Hf & Hfuel).
  { exists (length f - 1)%nat. subst f. unfold vertex_properties_text.
    rewrite !length_app, !text_line_app, !length_app. cbn [length]. lia. }
  pose proof (header_loop_written fuel n k tp tc props body
                Hn Hk Htp Htc Hprops Hfuel) as Hh.
  fold f in Hh. rewrite <- Hf in Hh.
  destruct (sys_byteorder h); cbn [byteorder_name mbind outcome_bind].
  - change (String.eqb ("format binary_" +:+ "little" +:+ "_endian 1.0")
                       "format ascii 1.0") with false.
    change (String.eqb ("format binary_" +:+ "little" +:+ "_endian 1.0")
                       "format binary_big_endian 1.0") with false.
    change (String.eqb ("format binary_" +:+ "little" +:+ "_endian 1.0")
                       "format binary_little_endian 1.0") with true.
    cbn [negb mbind outcome_bind].
    rewrite Hh. reflexivity.
  - change (String.eqb ("format binary_" +:+ "big" +:+ "_endian 1.0")
                       "format ascii 1.0") with false.
    change (String.eqb ("format binary_" +:+ "big" +:+ "_endian 1.0")
                       "format binary_big_endian 1.0") with true.
    cbn [negb mbind outcome_bind].
    rewrite Hh. reflexivity.
Qed.

(** ** The check of the cell blocks in the generic [write] *)

Lemma int_body_digits d :
  span_digits d = (d, EmptyString) -> d ≠ EmptyString ->
  ∀ p, int_body p d = Some d.
Proof.
  induction d as [|c d IH]; [done|]. intros Hs _ p.
  cbn [span_digits] in Hs. destruct (is_digit c) eqn:Hc; [|discriminate].
  destruct (span_digits d) as [d' t] eqn:E. injection Hs as -> ->.
  cbn [int_body]. rewrite Hc.
  destruct d as [|c' d]; [reflexivity|].
  by rewrite IH.
Qed.

Lemma py_int_str n : 0 <= n -> py_int (str n) = Some n.
Proof.
  intros Hn. destruct (str_digits n Hn) as [Hd Hne]. unfold py_int.
  assert (strip (str n) = str n) as ->.
  { unfold strip. destruct (str n) as [|c d] eqn:E; [done|].
    cbn [span_digits] in Hd. destruct (is_digit c) eqn:Hc; [|discriminate].
    cbn [lstrip]. rewrite (digit_not_space c Hc). apply rstrip_digits.
    cbn [span_digits]. by rewrite Hc. }
  destruct (str n) as [|c d] eqn:E; [done|].
  assert (is_digit c = true) as Hc.
  { cbn [span_digits] in Hd. by destruct (is_digit c). }
  assert (c ≠ "-"%char ∧ c ≠ "+"%char) as [Hm Hp]
    by (split; intros ->; discriminate).
  assert ((let '(neg, body) :=
             match String c d with
             | String "-" r => (true, r)
             | String "+" r => (false, r)
             | _ => (false, String c d)
             end in
           match int_body false body with
           | Some ds => Some (if neg then - int_of_digits ds else int_of_digits ds)
           | None => None
           end)
          = match int_body false (String c d) with
            | Some ds => Some (int_of_digits ds)
            | None => None
            end) as ->.
  { destruct c as [[] [] [] [] [] [] [] []]; try reflexivity; done. }
  rewrite int_body_digits by done. rewrite <- E. f_equal.
  by apply int_of_digits_str.
Qed.







(** ** What [write] writes in binary mode *)

Lemma nth_seq_map {A} (l : list A) d :
  map (λ i, nth i l d) (seq 0 (length l)) = l.
Proof.
  induction l as [|x l IH]; [reflexivity|].
  cbn [length seq map nth]. f_equal.
  rewrite <- seq_shift, map_map. exact IH.
Qed.

(** The columns of an array, put side by side again, are its rows. *)
Lemma row_of_columns (a : ndarray) (wrap : list Z -> flatarray) i :
  (∀ c, flat_values (wrap c) = c) ->
  Forall (λ r, length r = ncols a) (rows a) ->
  (i < nrows a)%nat ->
  map (λ f, nth i (flat_values f) 0) (map wrap (columns a)) = nth i (rows a) [].
Proof.
  intros Hw Hr Hi. unfold columns, nrows, column in *.
  rewrite !map_map.
  assert (length (nth i (rows a) []) = ncols a) as Hlen.
  { rewrite Forall_forall in Hr. apply Hr, list_elem_of_In, nth_In. lia. }
  rewrite <- (nth_seq_map (nth i (rows a) []) 0), Hlen.
  apply map_ext. intros j. rewrite Hw.
  rewrite (nth_indep _ 0 (nth j [] 0)) by (rewrite length_map; lia).
  by rewrite (map_nth (λ r, nth j r 0)).
Qed.

Lemma rows_of_columns (a : ndarray) (wrap : list Z -> flatarray) :
  (∀ c, flat_values (wrap c) = c) ->
  Forall (λ r, length r = ncols a) (rows a) ->
  map (λ i, map (λ f, nth i (flat_values f) 0) (map wrap (columns a)))
      (seq 0 (nrows a))
  = rows a.
Proof.
  intros Hw Hr.
  transitivity (map (λ i, nth i (rows a) []) (seq 0 (nrows a)));
    [|apply nth_seq_map].
  apply map_ext_in. intros i Hi. apply in_seq in Hi.
  apply row_of_columns; [done..|lia].
Qed.

Lemma array_ok_lengths a : array_ok a -> Forall (λ r, length r = ncols a) (rows a).
Proof. intros H. eapply Forall_impl; [exact H|]. cbn. tauto. Qed.

Lemma rec_fromarrays_columns (a : ndarray) (dt : dtype) (extra : list flatarray) :
  Forall (λ r, length r = ncols a) (rows a) ->
  Forall (λ f, flat_shape f = [nrows a]) extra ->
  ∀ arrays, arrays = extra ++ map (Flatarray dt [nrows a]) (columns a) ->
  arrays ≠ [] ->
  rec_fromarrays arrays =
  Ok (map flat_dtype arrays,
      map (λ i, map (λ f, nth i (flat_values f) 0) arrays) (seq 0 (nrows a))).
Proof.
  intros Hr He arrays -> Hne. unfold rec_fromarrays.
  assert (Forall (λ f, flat_shape f = [nrows a])
            (extra ++ map (Flatarray dt [nrows a]) (columns a))) as Hall.
  { apply Forall_app. split; [done|]. apply Forall_forall. intros f Hf.
    apply list_elem_of_fmap in Hf as (c & -> & _). reflexivity. }
  destruct (extra ++ map (Flatarray dt [nrows a]) (columns a)) as [|a0 l] eqn:E;
    [done|].
  assert (flat_shape a0 = [nrows a]) as Ha0
    by (rewrite Forall_forall in Hall; apply Hall, list_elem_of_here).
  rewrite Ha0.
  assert (forallb (λ f, bool_decide (flat_shape f = [nrows a])) (a0 :: l) = true)
    as ->; [|reflexivity].
  apply forallb_forall. intros f Hf. apply bool_decide_eq_true_2.
  rewrite Forall_forall in Hall. by apply Hall, list_elem_of_In.
Qed.

Lemma rec_fromarrays_same_shape n (arrays : list flatarray) :
  arrays ≠ [] -> Forall (λ f, flat_shape f = [n]) arrays ->
  rec_fromarrays arrays =
  Ok (map flat_dtype arrays,
      map (λ i, map (λ f, nth i (flat_values f) 0) arrays) (seq 0 n)).
Proof.
  intros Hne Hall. unfold rec_fromarrays.
  destruct arrays as [|a0 l]; [done|].
  assert (flat_shape a0 = [n]) as Ha0
    by (rewrite Forall_forall in Hall; apply Hall, list_elem_of_here).
  rewrite Ha0.
  assert (forallb (λ f, bool_decide (flat_shape f = [n])) (a0 :: l) = true)
    as ->; [|reflexivity].
  apply forallb_forall. intros f Hf. apply bool_decide_eq_true_2.
  rewrite Forall_forall in Hall. by apply Hall, list_elem_of_In.
Qed.

Lemma write_point_data_header_ready n point_data : ∀ pd s,
  Forall (point_array_ready n) point_data ->
  write_point_data_header point_data pd s
  = (mkW (w_cells s) (w_warnings s)
       (fh s ++ point_data_text (map property_of point_data)),
     Ok (pd ++ map snd point_data)).
Proof.
  induction point_data as [|[key value] rest IH]; intros pd s Hall.
  - cbn. rewrite !app_nil_r. by destruct s.
  - apply Forall_cons in Hall as [(_ & Hshape & _ & _ & tp & Htp & _) Hall].
    cbn [fst snd] in Hshape, Htp.
    cbn [write_point_data_header]. rewrite Hshape, Htp. cbn [length Nat.ltb Nat.leb].
    unfold mbind, W_bind, fh_write. rewrite IH by done.
    cbn [w_cells w_warnings fh map]. rewrite point_data_text_cons.
    unfold property_of. cbn [fst snd]. rewrite Htp. cbn [default from_option].
    by rewrite <- !app_assoc.
Qed.

Lemma write_vertex_header_ready h mesh binary tp s :
  Forall (point_array_ready (nrows (points mesh))) (point_data mesh) ->
  ncols (points mesh) = 3%nat ->
  type_name_table (arr_dtype (points mesh)) = Some tp ->
  write_vertex_header h mesh binary s
  = (mkW (w_cells s) (w_warnings s)
       (fh s ++ vertex_header_text h binary (Z.of_nat (nrows (points mesh))) tp
        ++ point_data_text (map property_of (point_data mesh))),
     Ok (map snd (point_data mesh))).
Proof.
  intros Hpd Hdim Htp. unfold write_vertex_header, vertex_header_text,
    vertex_properties_text.
  rewrite Hdim, Htp. cbn [seq for_].
  change (dim_names !! 0%nat) with (Some "x").
  change (dim_names !! 1%nat) with (Some "y").
  change (dim_names !! 2%nat) with (Some "z").
  destruct binary;
    unfold mbind, W_bind, fh_write, mret, W_ret; cbn [w_cells w_warnings fh];
    rewrite (write_point_data_header_ready _ _ _ _ Hpd);
    cbn [w_cells w_warnings fh app]; by rewrite <- !app_assoc.
Qed.

Lemma wrap_int32_range v : in_range np_int32 (wrap_int32 v).
Proof.
  unfold in_range, wrap_int32. cbn.
  pose proof (Z.mod_pos_bound (v + 2147483648) 4294967296 ltac:(lia)).
  change (2 ^ 31) with 2147483648. change (2 ^ 32) with 4294967296. lia.
Qed.

Lemma narrow_ready b : block_ready b -> block_ready (narrow b).
Proof.
  intros (Hn & Ht & Hr & Ha). unfold narrow.
  destruct (decide (arr_dtype (data b) = np_int64)); [|done].
  split; [done|]. split; [done|]. split.
  - cbn. by destruct (rows (data b)).
  - unfold array_ok in *. cbn. apply Forall_forall. intros r Hr'.
    apply list_elem_of_fmap in Hr' as (r0 & -> & Hr0).
    rewrite Forall_forall in Ha. destruct (Ha r0 Hr0) as [Hl _].
    split; [by rewrite length_map|].
    apply Forall_forall. intros v Hv.
    apply list_elem_of_fmap in Hv as (v0 & -> & _). apply wrap_int32_range.
Qed.

Lemma zip_with_const {A B C} (f : A -> B -> C) (a : A) (l : list B) (k : list A) :
  length k = length l -> Forall (λ x, x = a) k ->
  zip_with f k l = map (f a) l.
Proof.
  revert k; induction l as [|y l IH]; intros [|x k] Hlen Hk; try done.
  apply Forall_cons in Hk as [-> Hk]. cbn. f_equal. apply IH; [|done].
  cbn in Hlen. lia.
Qed.

Lemma tobytes_counted bo dt n (dts : list dtype) (table : list (list Z)) :
  length dts = n -> Forall (λ x, x = dt) dts ->
  Forall (λ r, length r = n) table ->
  tobytes bo (np_uint8 :: dts) (map (cons (Z.of_nat n)) table)
  = encode_rows bo np_uint8 dt table.
Proof.
  intros Hl Hd Ht. unfold tobytes, encode_rows. rewrite map_map. f_equal.
  apply map_ext_in. intros r Hr. apply list_elem_of_In in Hr.
  rewrite Forall_forall in Ht. specialize (Ht r Hr).
  cbn [zip_with concat]. unfold encode_row.
  rewrite (zip_with_const _ dt) by (done || lia).
  rewrite Ht. reflexivity.
Qed.

Lemma nth_replicate_lt {A} (c d : A) n i :
  (i < n)%nat -> nth i (replicate n c) d = c.
Proof.
  revert i; induction n as [|n IH]; intros i Hi; [lia|].
  destruct i; [reflexivity|]. cbn. apply IH. lia.
Qed.

Lemma write_binary_cells_ready h b s :
  block_ready b ->
  write_binary_cells h b s
  = (mkW (w_cells s) (w_warnings s)
       (fh s ++ encode_rows (sys_byteorder h) np_uint8 (arr_dtype (data b))
                  (rows (data b))),
     Ok ()).
Proof.
  intros (Hn & Ht & Hr & Ha). unfold write_binary_cells.
  rewrite Ht, cell_type_to_from_count by lia.
  assert (wrap np_uint8 (Z.of_nat (ncols (data b))) = Z.of_nat (ncols (data b)))
    as -> by (unfold wrap; cbn [kind itemsize np_uint8];
              change (2 ^ (8 * Z.of_nat 1)) with 256; apply Z.mod_small; lia).
  pose proof (array_ok_lengths _ Ha) as Hlen.
  rewrite (rec_fromarrays_columns (data b) (arr_dtype (data b))
    [Flatarray np_uint8 [nrows (data b)]
       (replicate (nrows (data b)) (Z.of_nat (ncols (data b))))]);
    [|done|by repeat constructor|reflexivity|done].
  unfold mbind, W_bind, lift, fh_write. cbn [app map flat_dtype flat_values].
  do 3 f_equal.
  rewrite <- (tobytes_counted _ (arr_dtype (data b)) (ncols (data b))
               (map flat_dtype (map (Flatarray (arr_dtype (data b)) [nrows (data b)])
                                    (columns (data b)))));
    [|by unfold columns; rewrite !length_map, length_seq
     |apply Forall_forall; intros x Hx;
      apply list_elem_of_fmap in Hx as (f & -> & Hf);
      by apply list_elem_of_fmap in Hf as (c & -> & _)
     |done].
  f_equal.
  pose proof (rows_of_columns (data b)
                (Flatarray (arr_dtype (data b)) [nrows (data b)])
                (λ c, eq_refl) Hlen) as Hrc.
  transitivity (map (cons (Z.of_nat (ncols (data b))))
    (map (λ i, map (λ f, nth i (flat_values f) 0)
                 (map (Flatarray (arr_dtype (data b)) [nrows (data b)])
                      (columns (data b))))
         (seq 0 (nrows (data b))))); [|by rewrite Hrc].
  rewrite map_map. apply map_ext_in. intros i Hi. apply in_seq in Hi.
  f_equal. apply nth_replicate_lt. unfold nrows in Hi. unfold nrows. lia.
Qed.

Lemma for_write_binary_cells h cs : ∀ s,
  Forall block_ready cs ->
  for_ cs (write_binary_cells h) s
  = (mkW (w_cells s) (w_warnings s)
       (fh s ++ concat (map (λ b, encode_rows (sys_byteorder h) np_uint8
                                    (arr_dtype (data b)) (rows (data b))) cs)),
     Ok ()).
Proof.
  induction cs as [|b cs IH]; intros s Hcs.
  - cbn. rewrite app_nil_r. by destruct s.
  - apply Forall_cons in Hcs as [Hb Hcs]. cbn [for_ map concat].
    unfold mbind, W_bind. rewrite write_binary_cells_ready by done.
    rewrite IH by done. cbn [w_cells w_warnings fh]. by rewrite <- app_assoc.
Qed.

Lemma encode_rows_blocks bo dt cs :
  (∀ b, b ∈ cs -> arr_dtype (data b) = dt) ->
  concat (map (λ b, encode_rows bo np_uint8 (arr_dtype (data b)) (rows (data b))) cs)
  = encode_rows bo np_uint8 dt (all_rows cs).
Proof.
  intros Hdt. unfold all_rows. induction cs as [|b cs IH]; [reflexivity|].
  cbn [map concat]. rewrite encode_rows_app, IH.
  - by rewrite (Hdt b) by apply list_elem_of_here.
  - intros b' Hb'. by apply Hdt, list_elem_of_further.
Qed.

Lemma count_cells_ready cs : ∀ acc,
  Forall block_ready cs ->
  count_cells cs acc = acc + Z.of_nat (length (all_rows cs)).
Proof.
  unfold all_rows. induction cs as [|b cs IH]; intros acc Hcs.
  - cbn. lia.
  - apply Forall_cons in Hcs as [(Hn & Ht & _) Hcs]. cbn [count_cells map concat].
    rewrite Ht, cell_type_to_from_count by lia.
    destruct (Z.eqb_spec (Z.of_nat (ncols (data b))) 0) as [?|_]; [lia|].
    rewrite IH by done. rewrite length_app. unfold nrows. lia.
Qed.

Lemma all_rows_nonempty cs :
  cs ≠ [] -> Forall block_ready cs -> (0 < length (all_rows cs))%nat.
Proof.
  intros Hne Hcs. destruct cs as [|b cs]; [done|].
  apply Forall_cons in Hcs as [(_ & _ & Hr & _) _].
  unfold all_rows. cbn [map concat]. rewrite length_app.
  destruct (rows (data b)); [done|cbn; lia].
Qed.

Lemma narrow_rows_length b : nrows (data (narrow b)) = nrows (data b).
Proof.
  unfold narrow. destruct (decide _); [|done]. unfold nrows. cbn.
  by rewrite length_map.
Qed.

Lemma narrow_ncols b : ncols (data (narrow b)) = ncols (data b).
Proof. unfold narrow. by destruct (decide _). Qed.

Lemma narrow_cell_type b : cell_type (narrow b) = cell_type b.
Proof. unfold narrow. by destruct (decide _). Qed.

Lemma point_dtype_names dt tp :
  type_name_table dt = Some tp -> dtype_of_format tp = Ok dt ->
  tp ∈ point_type_names ∧ (0 < itemsize dt)%nat.
Proof.
  destruct dt as [k n]. unfold point_type_names.
  destruct k; do 9 (try destruct n as [|n]); cbn; try discriminate;
    intros [= <-]; try discriminate; intros _;
    (split; [repeat (first [apply list_elem_of_here | apply list_elem_of_further])
            | lia]).
Qed.

Lemma cell_dtype_names dt tc :
  numpy_to_ply_dtype dt = Some tc -> dtype_of_format tc = Ok dt ->
  tc ∈ cell_type_names ∧ (0 < itemsize dt)%nat.
Proof.
  destruct dt as [k n]. unfold cell_type_names.
  destruct k; do 9 (try destruct n as [|n]); vm_compute; try discriminate;
    intros [= <-]; try discriminate; intros _;
    (split; [repeat (first [apply list_elem_of_here | apply list_elem_of_further])
            | lia]).
Qed.

Lemma point_arrays_table mesh :
  ncols (points mesh) = 3%nat ->
  Forall (λ r, length r = ncols (points mesh)) (rows (points mesh)) ->
  map (λ i, map (λ f, nth i (flat_values f) 0)
              (map (λ c, Flatarray (arr_dtype (points mesh))
                           [nrows (points mesh)] c) (columns (points mesh))
               ++ map snd (point_data mesh)))
      (seq 0 (nrows (points mesh)))
  = point_table mesh
  ∧ map flat_dtype
      (map (λ c, Flatarray (arr_dtype (points mesh)) [nrows (points mesh)] c)
           (columns (points mesh))
       ++ map snd (point_data mesh))
    = point_dtypes mesh.
Proof.
  intros Hdim Hr. split.
  - unfold point_table. apply map_ext_in. intros i Hi. apply in_seq in Hi.
    rewrite map_app. f_equal; [|apply map_map].
    apply (row_of_columns (points mesh)
             (Flatarray (arr_dtype (points mesh)) [nrows (points mesh)]));
      [done..|lia].
  - unfold point_dtypes. rewrite map_app, !map_map. f_equal.
    unfold columns. rewrite Hdim. reflexivity.
Qed.

(** The file that [write] makes of a ready mesh in binary mode. *)
Lemma ply_write_ready h filename mesh :
  roundtrip_ready h mesh ->
  ∃ tp tc dt,
    tp ∈ point_type_names ∧ tc ∈ cell_type_names
    ∧ dtype_of_format tp = Ok (arr_dtype (points mesh))
    ∧ dtype_of_format tc = Ok dt
    ∧ (0 < itemsize (arr_dtype (points mesh)))%nat ∧ (0 < itemsize dt)%nat
    ∧ (∀ b, b ∈ map narrow (cells mesh) -> arr_dtype (data b) = dt)
    ∧ ply.write h filename mesh true
      = mkWriteResult
          (mkMesh (points mesh) (map narrow (cells mesh)) (point_data mesh)
                  (cell_data mesh))
          (if has_int64 (cells mesh) then [narrowing_warning] else [])
          (vertex_header_text h true (Z.of_nat (nrows (points mesh))) tp
           ++ point_data_text (map property_of (point_data mesh))
           ++ face_header_text (Z.of_nat (length (all_rows (cells mesh)))) tc
           ++ text_line "end_header"
           ++ tobytes (sys_byteorder h) (point_dtypes mesh) (point_table mesh)
           ++ encode_rows (sys_byteorder h) np_uint8 dt
                (all_rows (map narrow (cells mesh))))
          (Ok ()).
Proof.
  intros [Hv Hnow Hpd Hkeys Hxyz Hdim Hpts (tp & Htp & Htpr) Hne Hblocks Hw
          (dt & (tc & Htc & Htcr) & Hdt) Hsize Hwide].
  destruct (point_dtype_names _ _ Htp Htpr) as [Htpn Hpsz].
  destruct (cell_dtype_names _ _ Htc Htcr) as [Htcn Hcsz].
  assert (Hdt' : ∀ b, b ∈ map narrow (cells mesh) -> arr_dtype (data b) = dt).
  { intros b Hb. apply list_elem_of_fmap in Hb as (b0 & -> & Hb0). by apply Hdt. }
  exists tp, tc, dt. do 7 (split; [done|]).
  rewrite ply_write_unfold.
  rewrite (ply_write_body_after_header h mesh true _ _ _
             (write_vertex_header_ready h mesh true tp _ Hpd Hdim Htp)).
  rewrite write_face_header_spec. cbn [w_cells w_warnings fh app]. cbn zeta.
  rewrite count_cells_ready by done.
  pose proof (all_rows_nonempty _ Hne Hblocks) as Hpos.
  destruct (Z.ltb_spec 0 (0 + Z.of_nat (length (all_rows (cells mesh)))))
    as [_|?]; [|lia].
  rewrite (common_dtype_uniform _ dt) by (by destruct (cells mesh) || done).
  rewrite Htc. cbn [w_cells w_warnings fh].
  unfold write_data.
  rewrite (rec_fromarrays_same_shape (nrows (points mesh)));
    [|unfold columns; rewrite Hdim; discriminate
     |apply Forall_app; split;
      [apply Forall_forall; intros f Hf;
       by apply list_elem_of_fmap in Hf as (c & -> & _)
      |apply Forall_forall; intros f Hf;
       apply list_elem_of_fmap in Hf as (kv & -> & Hkv);
       rewrite Forall_forall in Hpd; by destruct (Hpd kv Hkv) as (_ & ? & _)]].
  destruct (point_arrays_table mesh Hdim (array_ok_lengths _ Hpts)) as [-> ->].
  unfold mbind at 1, W_bind at 1, lift at 1.
  unfold mbind at 1, W_bind at 1, fh_write at 1.
  unfold mbind at 1, W_bind at 1, get_cells at 1. cbn [w_cells w_warnings fh].
  rewrite for_write_binary_cells
    by (apply Forall_forall; intros b Hb;
        apply list_elem_of_fmap in Hb as (b0 & -> & Hb0);
        rewrite Forall_forall in Hblocks; by apply narrow_ready, Hblocks).
  rewrite (encode_rows_blocks _ dt) by done.
  cbn [w_cells w_warnings fh].
  f_equal. unfold face_header_text. by rewrite <- !app_assoc, Z.add_0_l.
Qed.

(** ** Reading the body that [write] made *)

Lemma split_fields_encoded bo (dts : list dtype) : ∀ row,
  length row = length dts ->
  split_fields (map itemsize dts) (concat (zip_with (encode_elem bo) dts row))
  = zip_with (encode_elem bo) dts row.
Proof.
  induction dts as [|dt dts IH]; intros [|v row] Hlen; try done.
  cbn [map zip_with concat split_fields].
  rewrite take_app_length' by (by rewrite encode_elem_length).
  rewrite drop_app_length' by (by rewrite encode_elem_length).
  rewrite IH by (cbn in Hlen; lia). reflexivity.
Qed.

Lemma decode_record_encoded bo (dts : list dtype) : ∀ row,
  length row = length dts ->
  Forall2 in_range dts row ->
  decode_record bo dts (concat (zip_with (encode_elem bo) dts row)) = row.
Proof.
  intros row Hlen Hr. unfold decode_record. rewrite split_fields_encoded by done.
  clear Hlen. induction Hr as [|dt v dts row Hv _ IH]; [reflexivity|].
  cbn [zip_with]. by rewrite decode_encode_elem, IH.
Qed.

Lemma record_length bo (dts : list dtype) : ∀ row,
  length row = length dts ->
  length (concat (zip_with (encode_elem bo) dts row)) = sum_nat (map itemsize dts).
Proof.
  induction dts as [|dt dts IH]; intros [|v row] Hlen; try done.
  cbn [map zip_with concat sum_nat foldr].
  rewrite length_app, encode_elem_length. f_equal. apply IH. cbn in Hlen. lia.
Qed.

Lemma tobytes_length bo dts table :
  Forall (λ r, length r = length dts) table ->
  length (tobytes bo dts table) = (sum_nat (map itemsize dts) * length table)%nat.
Proof.
  intros H. unfold tobytes.
  induction H as [|r table Hr _ IH]; [cbn; lia|].
  cbn [map concat length]. rewrite length_app, IH, record_length by done. lia.
Qed.

Lemma frombuffer_tobytes bo dts table :
  (0 < sum_nat (map itemsize dts))%nat ->
  Forall (λ r, length r = length dts) table ->
  frombuffer (sum_nat (map itemsize dts)) (tobytes bo dts table)
  = Ok (map (λ row, concat (zip_with (encode_elem bo) dts row)) table).
Proof.
  intros Hpos H. unfold frombuffer.
  destruct (Nat.eqb_spec (sum_nat (map itemsize dts)) 0) as [?|_]; [lia|].
  rewrite tobytes_length by done.
  rewrite Nat.mul_comm, Nat.Div0.mod_mul. cbn [Nat.eqb].
  rewrite Nat.div_mul by lia. f_equal.
  unfold tobytes. rewrite <- (app_nil_r (concat _)).
  apply records_concat. intros r Hr. apply record_length.
  rewrite Forall_forall in H. by apply H.
Qed.

Lemma decode_table bo dts table :
  Forall (λ r, length r = length dts ∧ Forall2 in_range dts r) table ->
  map (decode_record bo dts)
      (map (λ row, concat (zip_with (encode_elem bo) dts row)) table)
  = table.
Proof.
  intros H. rewrite map_map.
  induction H as [|r table [Hl Hr] _ IH]; [reflexivity|].
  cbn [map]. by rewrite decode_record_encoded, IH.
Qed.

Lemma column_nth j (table : list (list Z)) i :
  nth i (column j table) 0 = nth j (nth i table []) 0.
Proof.
  unfold column.
  destruct (Nat.lt_ge_cases i (length table)) as [Hi|Hi].
  - rewrite (nth_indep _ 0 (nth j [] 0)) by (by rewrite length_map).
    by rewrite (map_nth (λ r, nth j r 0)).
  - rewrite (nth_overflow (map _ _)) by (by rewrite length_map).
    rewrite (nth_overflow table) by done. by destruct j.
Qed.

Lemma xyz_stack (dt : dtype) (table : list (list Z)) :
  Forall (λ r, length r = 3%nat) table ->
  map (λ i, map (λ c : dtype * list Z, nth i (snd c) 0)
              [(dt, column 0 table); (dt, column 1 table);
               (dt, column 2 table)])
      (seq 0 (length table))
  = table.
Proof.
  intros H.
  transitivity (map (λ i, nth i table []) (seq 0 (length table)));
    [|apply nth_seq_map].
  apply map_ext_in. intros i Hi. apply in_seq in Hi.
  cbn [map snd]. rewrite !column_nth.
  assert (length (nth i table []) = 3%nat) as Hl.
  { rewrite Forall_forall in H. apply H, list_elem_of_In, nth_In. lia. }
  destruct (nth i table []) as [|a [|b [|c [|]]]]; try discriminate.
  reflexivity.
Qed.

Lemma runs_from_same n rs : ∀ cur tail,
  (∀ r, r ∈ rs -> length r = n) ->
  runs_from cur n (rs ++ tail) = runs_from (cur ++ rs) n tail.
Proof.
  induction rs as [|r rs IH]; intros cur tail H.
  - by rewrite app_nil_r.
  - cbn [app runs_from]. rewrite decide_True by apply H, list_elem_of_here.
    rewrite IH by (intros r' Hr'; by apply H, list_elem_of_further).
    by rewrite <- app_assoc.
Qed.

Lemma block_rows_uniform b r :
  block_ready b -> r ∈ rows (data b) -> length r = ncols (data b).
Proof.
  intros (_ & _ & _ & Ha) Hr. unfold array_ok in Ha.
  rewrite Forall_forall in Ha. by apply Ha.
Qed.

Lemma runs_from_blocks cs : ∀ cur n,
  Forall block_ready cs -> widths_alternate cs ->
  match cs with b :: _ => ncols (data b) ≠ n | [] => True end ->
  runs_from cur n (all_rows cs) = cur :: map (λ b, rows (data b)) cs.
Proof.
  induction cs as [|b cs IH]; intros cur n Hcs Hw Hn; [reflexivity|].
  apply Forall_cons in Hcs as [Hb Hcs].
  unfold all_rows. cbn [map concat]. fold (all_rows cs).
  destruct (rows (data b)) as [|r0 rs] eqn:E; [by destruct Hb as (_ & _ & ? & _)|].
  assert (∀ r, r ∈ r0 :: rs -> length r = ncols (data b)) as Hu
    by (intros r Hr; apply block_rows_uniform; [done|by rewrite E]).
  cbn [app runs_from].
  rewrite decide_False by (rewrite (Hu r0) by apply list_elem_of_here; done).
  f_equal. rewrite (Hu r0) by apply list_elem_of_here.
  rewrite runs_from_same by (intros r Hr; by apply Hu, list_elem_of_further).
  cbn [app]. apply IH; [done| |].
  - destruct cs; [done|]. by destruct Hw.
  - destruct cs; [done|]. destruct Hw as [Hw _]. congruence.
Qed.

Lemma runs_all_rows cs :
  Forall block_ready cs -> widths_alternate cs ->
  runs (all_rows cs) = map (λ b, rows (data b)) cs.
Proof.
  intros Hcs Hw. destruct cs as [|b cs]; [reflexivity|].
  pose proof Hcs as Hcs'. apply Forall_cons in Hcs as [Hb Hcs].
  unfold all_rows. cbn [map concat]. fold (all_rows cs).
  destruct (rows (data b)) as [|r0 rs] eqn:E; [by destruct Hb as (_ & _ & ? & _)|].
  assert (∀ r, r ∈ r0 :: rs -> length r = ncols (data b)) as Hu
    by (intros r Hr; apply block_rows_uniform; [done|by rewrite E]).
  cbn [app runs]. rewrite (Hu r0) by apply list_elem_of_here.
  rewrite runs_from_same by (intros r Hr; by apply Hu, list_elem_of_further).
  cbn [app]. apply runs_from_blocks; [done| |].
  - destruct cs; [done|]. by destruct Hw.
  - destruct cs; [done|]. destruct Hw as [Hw _]. congruence.
Qed.

Lemma block_of_run_rows dt b :
  block_ready b -> arr_dtype (data b) = dt ->
  block_of_run dt (rows (data b)) = b.
Proof.
  intros Hb Hdt. pose proof Hb as (Hn & Ht & Hr & Ha).
  unfold block_of_run.
  assert (length (hd [] (rows (data b))) = ncols (data b)) as ->.
  { destruct (rows (data b)) as [|r0 rs] eqn:E; [done|].
    apply block_rows_uniform; [done|]. rewrite E. apply list_elem_of_here. }
  rewrite <- Ht, <- Hdt. by destruct b as [t [d n rs]].
Qed.

Lemma blocks_of_runs dt cs :
  Forall block_ready cs -> widths_alternate cs ->
  (∀ b, b ∈ cs -> arr_dtype (data b) = dt) ->
  map (block_of_run dt) (runs (all_rows cs)) = cs.
Proof.
  intros Hcs Hw Hdt. rewrite runs_all_rows, map_map by done.
  clear Hw. induction Hcs as [|b cs Hb _ IH]; [reflexivity|].
  cbn [map]. rewrite block_of_run_rows by (done || apply Hdt, list_elem_of_here).
  f_equal. apply IH. intros b' Hb'. by apply Hdt, list_elem_of_further.
Qed.

Lemma widths_alternate_narrow cs :
  widths_alternate cs -> widths_alternate (map narrow cs).
Proof.
  induction cs as [|b [|b' cs] IH]; [done..|].
  intros [H1 H2].
  change (ncols (data (narrow b)) ≠ ncols (data (narrow b'))
          ∧ widths_alternate (map narrow (b' :: cs))).
  rewrite !narrow_ncols. split; [done|]. by apply IH.
Qed.

Lemma encoded_cells_size bo dt cs :
  (0 < itemsize dt)%nat ->
  Forall block_ready cs ->
  (∀ b, b ∈ cs -> arr_dtype (data (narrow b)) = dt) ->
  Z.of_nat (length (encode_rows bo np_uint8 dt (all_rows (map narrow cs))))
  = cell_bytes cs.
Proof.
  intros Hd Hcs Hdt. unfold all_rows.
  assert (0 < itemsize np_uint8)%nat as Hu8 by (cbn; lia).
  induction Hcs as [|b cs Hb _ IH]; [reflexivity|].
  cbn [map concat cell_bytes foldr]. fold (cell_bytes cs).
  rewrite encode_rows_app, length_app, Nat2Z.inj_add, IH
    by (intros b' Hb'; by apply Hdt, list_elem_of_further).
  f_equal.
  rewrite (encode_rows_uniform_length bo np_uint8 dt Hu8 Hd
             (ncols (data (narrow b))))
    by (intros r Hr; by apply block_rows_uniform; [apply narrow_ready|]).
  rewrite (Hdt b) by apply list_elem_of_here.
  rewrite narrow_ncols. fold (nrows (data (narrow b))).
  rewrite narrow_rows_length. cbn [itemsize np_uint8]. lia.
Qed.

Lemma row_ok_uint8 dt b r :
  block_ready b -> arr_dtype (data b) = dt -> r ∈ rows (data b) ->
  row_ok np_uint8 dt r.
Proof.
  intros Hb Hdt Hr. pose proof (block_rows_uniform b r Hb Hr) as Hl.
  destruct Hb as (Hn & _ & _ & Ha). unfold array_ok in Ha.
  rewrite Forall_forall in Ha. destruct (Ha r Hr) as [_ Hin].
  split; [|by rewrite <- Hdt].
  rewrite Hl. change (256 ^ Z.of_nat (itemsize np_uint8)) with 256. lia.
Qed.

Lemma elem_of_concat_inv {A} (x : A) ls :
  x ∈ concat ls -> ∃ l, l ∈ ls ∧ x ∈ l.
Proof.
  induction ls as [|l ls IH]; cbn; [by intros ?%elem_of_nil|].
  intros [H|H]%elem_of_app.
  - exists l. split; [apply list_elem_of_here|done].
  - destruct (IH H) as (l' & ? & ?). exists l'.
    split; [by apply list_elem_of_further|done].
Qed.

Lemma all_rows_ok dt cs :
  Forall block_ready cs -> (∀ b, b ∈ cs -> arr_dtype (data b) = dt) ->
  Forall (row_ok np_uint8 dt) (all_rows cs).
Proof.
  intros Hcs Hdt. apply Forall_forall. intros r Hr.
  apply elem_of_concat_inv in Hr as (run & Hrun & Hr).
  apply list_elem_of_fmap in Hrun as (b & -> & Hb).
  rewrite Forall_forall in Hcs. by apply (row_ok_uint8 dt b); auto.
Qed.

(** ** Reading back what the binary writer wrote *)

Lemma all_rows_wide cs :
  Forall block_ready cs -> Forall (λ b, ncols (data b) ≠ 1%nat) cs ->
  Forall (λ r, length r ≠ 1%nat) (all_rows cs).
Proof.
  intros Hcs Hw. apply Forall_forall. intros r Hr.
  apply elem_of_concat_inv in Hr as (l & Hl & Hr).
  apply list_elem_of_fmap in Hl as (b & -> & Hb).
  rewrite Forall_forall in Hcs, Hw.
  rewrite (block_rows_uniform b r); [by apply Hw|by apply Hcs|done].
Qed.

Lemma for_each_app {A B} (f : A -> outcome B) l1 l2 r1 r2 :
  for_each f l1 = Ok r1 -> for_each f l2 = Ok r2 ->
  for_each f (l1 ++ l2) = Ok (r1 ++ r2).
Proof.
  revert r1. induction l1 as [|a l1 IH]; intros r1 H1 H2.
  - injection H1 as <-. exact H2.
  - cbn [app for_each] in *. destruct (f a) as [b| | |]; try discriminate.
    cbn [mbind outcome_bind] in *.
    destruct (for_each f l1) as [bs| | |]; try discriminate.
    cbn [mbind outcome_bind] in *. injection H1 as <-.
    by rewrite (IH bs eq_refl H2).
Qed.

(** The dtypes that the binary reader finds for the point data. *)
Lemma formats_of_point_data n pd :
  Forall (point_array_ready n) pd ->
  for_each dtype_of_format (map fst (map property_of pd))
  = Ok (map (λ kv, flat_dtype (snd kv)) pd).
Proof.
  induction 1 as [|[k v] pd (_ & _ & _ & _ & tp & Htp & Hfmt) _ IH];
    [reflexivity|].
  cbn [fst snd] in Htp, Hfmt. cbn [map for_each].
  change (fst (property_of (k, v)))
    with (default EmptyString (type_name_table (flat_dtype v))).
  rewrite Htp. change (default EmptyString (Some tp)) with tp. rewrite Hfmt.
  cbn [mbind outcome_bind]. rewrite IH. reflexivity.
Qed.

Lemma properties_plain n pd :
  Forall (point_array_ready n) pd ->
  Forall (λ p, plain_name (fst p) ∧ plain_name (snd p)) (map property_of pd).
Proof.
  intros H. apply Forall_fmap. eapply Forall_impl; [exact H|].
  intros kv (Hk & _ & _ & _ & tp & Htp & Hfmt). unfold property_of, compose.
  cbn [fst snd]. rewrite Htp. change (default EmptyString (Some tp)) with tp. split; [|done].
  apply point_type_names_plain. by destruct (point_dtype_names _ _ Htp Hfmt).
Qed.

Lemma properties_keys pd : map snd (map property_of pd) = map fst pd.
Proof. rewrite map_map. reflexivity. Qed.

Lemma has_dup_NoDup l : NoDup l -> has_dup l = false.
Proof.
  induction 1 as [|x l Hx _ IH]; [reflexivity|].
  cbn [has_dup]. by rewrite bool_decide_eq_false_2, IH.
Qed.

Lemma names_NoDup keys :
  NoDup keys -> Forall (λ k, k ∉ dim_names) keys ->
  NoDup (["x"; "y"; "z"] ++ keys).
Proof.
  intros Hk Hx. apply NoDup_app. split; [|split; [|done]].
  - repeat constructor; rewrite ?elem_of_cons, ?elem_of_nil;
      intros H; repeat destruct H as [H|H]; done.
  - intros d Hd Hin. rewrite Forall_forall in Hx. by apply (Hx d Hin).
Qed.

Lemma nth_map_seq {A} (f : nat -> A) n i d :
  (i < n)%nat -> nth i (map f (seq 0 n)) d = f i.
Proof.
  intros Hi. rewrite (nth_indep _ d (f 0%nat)) by (by rewrite length_map, length_seq).
  by rewrite (map_nth f), seq_nth.
Qed.

Lemma point_table_length mesh : length (point_table mesh) = nrows (points mesh).
Proof. unfold point_table. by rewrite length_map, length_seq. Qed.

Lemma point_row_length mesh i :
  array_ok (points mesh) -> (i < nrows (points mesh))%nat ->
  length (nth i (rows (points mesh)) []) = ncols (points mesh)
  ∧ Forall (in_range (arr_dtype (points mesh))) (nth i (rows (points mesh)) []).
Proof.
  intros Ha Hi. unfold array_ok in Ha. rewrite Forall_forall in Ha.
  apply Ha, list_elem_of_In, nth_In. exact Hi.
Qed.

Lemma point_table_ok mesh :
  ncols (points mesh) = 3%nat -> array_ok (points mesh) ->
  Forall (point_array_ready (nrows (points mesh))) (point_data mesh) ->
  Forall (λ r, length r = length (point_dtypes mesh)
               ∧ Forall2 in_range (point_dtypes mesh) r) (point_table mesh).
Proof.
  intros Hn Ha Hpd. unfold point_table. apply Forall_forall. intros r Hr.
  apply list_elem_of_fmap in Hr as (i & -> & Hi).
  apply list_elem_of_In, in_seq in Hi.
  destruct (point_row_length mesh i Ha) as [Hl Hin]; [lia|]. rewrite Hn in Hl.
  unfold point_dtypes. split.
  - rewrite !length_app, !length_map, length_replicate. lia.
  - apply Forall2_app.
    + destruct (nth i (rows (points mesh)) []) as [|x [|y [|z [|]]]];
        try discriminate.
      apply Forall_cons in Hin as [? Hin]. apply Forall_cons in Hin as [? Hin].
      apply Forall_cons in Hin as [? _]. by repeat constructor.
    + clear -Hpd Hi. induction Hpd as [|kv pd (_ & _ & Hlen & Hv & _) _ IH];
        [constructor|].
      cbn [map]. constructor; [|exact IH].
      rewrite Forall_forall in Hv. apply Hv, list_elem_of_In, nth_In. lia.
Qed.

(** The first three columns of the records are the coordinates. *)
Lemma column_xyz mesh j :
  ncols (points mesh) = 3%nat -> array_ok (points mesh) -> (j < 3)%nat ->
  column j (point_table mesh) = column j (rows (points mesh)).
Proof.
  intros Hn Ha Hj. unfold column.
  rewrite <- (nth_seq_map (rows (points mesh)) []) at 1.
  unfold point_table. fold (nrows (points mesh)). rewrite !map_map. apply map_ext_in. intros i Hi.
  apply in_seq in Hi.
  destruct (point_row_length mesh i Ha) as [Hl _]; [unfold nrows in *; lia|].
  rewrite app_nth1 by lia. reflexivity.
Qed.

(** The columns after them are the point data arrays. *)
Lemma column_point_data mesh pre k v suf :
  ncols (points mesh) = 3%nat -> array_ok (points mesh) ->
  point_data mesh = pre ++ (k, v) :: suf ->
  length (flat_values v) = nrows (points mesh) ->
  column (3 + length pre) (point_table mesh) = flat_values v.
Proof.
  intros Hn Ha Hpd Hlen. unfold column.
  rewrite <- (nth_seq_map (flat_values v) 0) at 1. rewrite Hlen.
  unfold point_table. rewrite !map_map. apply map_ext_in. intros i Hi.
  apply in_seq in Hi.
  destruct (point_row_length mesh i Ha) as [Hl _]; [lia|].
  rewrite app_nth2 by lia. rewrite Hl, Hn.
  replace (3 + length pre - 3)%nat with (length pre) by lia.
  rewrite Hpd, map_app. cbn [map].
  rewrite app_nth2 by (rewrite length_map; lia).
  rewrite length_map, Nat.sub_diag. reflexivity.
Qed.

Lemma index_of_app_r name l1 l2 :
  name ∉ l1 ->
  index_of name (l1 ++ l2) = option_map (λ j, (length l1 + j)%nat) (index_of name l2).
Proof.
  induction l1 as [|x l1 IH]; intros Hn.
  - cbn. by destruct (index_of name l2).
  - apply not_elem_of_cons in Hn as [Hx Hn]. cbn [app index_of].
    destruct (String.eqb_spec name x); [done|].
    rewrite IH by done. by destruct (index_of name l2).
Qed.

Lemma index_of_head name l : index_of name (name :: l) = Some 0%nat.
Proof. cbn. by rewrite String.eqb_refl. Qed.

(** The dictionary of point data that [_read_binary] makes of the records. *)
Lemma point_data_read mesh suf : ∀ pre,
  ncols (points mesh) = 3%nat -> array_ok (points mesh) ->
  Forall (point_array_ready (nrows (points mesh))) (point_data mesh) ->
  NoDup (map fst (point_data mesh)) ->
  Forall (λ k, k ∉ dim_names) (map fst (point_data mesh)) ->
  point_data mesh = pre ++ suf ->
  omap (λ name,
          if bool_decide (name ∈ ["x"; "y"; "z"]) then None
          else match index_of name (["x"; "y"; "z"] ++ map fst (point_data mesh)) with
               | Some j =>
                 Some (name, Flatarray (nth j (point_dtypes mesh) (Dtype Kother 0))
                               [length (point_table mesh)]
                               (column j (point_table mesh)))
               | None => None
               end) (map fst suf)
  = suf.
Proof.
  induction suf as [|[k v] suf IH]; intros pre Hn Ha Hpd Hnd Hxyz Heq;
    [reflexivity|].
  cbn [map fst list_omap omap].
  assert (k ∈ map fst (point_data mesh)) as Hk.
  { rewrite Heq, map_app. apply elem_of_app. right. apply list_elem_of_here. }
  assert ((k, v) ∈ point_data mesh) as Hkv.
  { rewrite Heq. apply elem_of_app. right. apply list_elem_of_here. }
  pose proof (proj1 (Forall_forall _ _) Hxyz k Hk) as Hnot. cbv beta in Hnot.
  rewrite bool_decide_eq_false_2 by exact Hnot.
  rewrite (index_of_app_r k ["x"; "y"; "z"]) by exact Hnot.
  assert (k ∉ map fst pre) as Hpre.
  { rewrite Heq, map_app in Hnd. apply NoDup_app in Hnd as (_ & Hd & _).
    intros Hin. apply (Hd k Hin). apply list_elem_of_here. }
  rewrite Heq at 1. rewrite map_app, (index_of_app_r k (map fst pre)) by done.
  cbn [map fst]. rewrite index_of_head. cbn [option_map length].
  rewrite length_map, Nat.add_0_r.
  rewrite (column_point_data mesh pre k v suf Hn Ha Heq).
  2: { pose proof Hpd as Hpd'. rewrite Forall_forall in Hpd'.
       by destruct (Hpd' _ Hkv) as (_ & _ & ? & _). }
  assert (nth (3 + length pre) (point_dtypes mesh) (Dtype Kother 0) = flat_dtype v)
    as ->.
  { unfold point_dtypes. rewrite app_nth2 by (rewrite length_replicate; lia).
    rewrite length_replicate.
    replace (3 + length pre - 3)%nat with (length pre) by lia.
    rewrite Heq, map_app. cbn [map].
    rewrite app_nth2 by (rewrite length_map; lia).
    by rewrite length_map, Nat.sub_diag. }
  rewrite point_table_length.
  assert (flat_shape v = [nrows (points mesh)]) as Hshape.
  { pose proof Hpd as Hpd'. rewrite Forall_forall in Hpd'.
    by destruct (Hpd' _ Hkv) as (_ & ? & _). }
  f_equal.
  - rewrite <- Hshape. by destruct v.
  - rewrite <- (point_table_length mesh).
    apply (IH (pre ++ [(k, v)])); try done. by rewrite <- app_assoc.
Qed.

Lemma read_binary_written bo tp tc mesh cs dtc :
  dtype_of_format tp = Ok (arr_dtype (points mesh)) ->
  dtype_of_format tc = Ok dtc ->
  (0 < itemsize (arr_dtype (points mesh)))%nat -> (0 < itemsize dtc)%nat ->
  ncols (points mesh) = 3%nat -> array_ok (points mesh) ->
  Forall (point_array_ready (nrows (points mesh))) (point_data mesh) ->
  NoDup (map fst (point_data mesh)) ->
  Forall (λ k, k ∉ dim_names) (map fst (point_data mesh)) ->
  Forall block_ready cs -> widths_alternate cs ->
  Forall (λ b, ncols (data b) ≠ 1%nat) cs ->
  (∀ b, b ∈ cs -> arr_dtype (data b) = dtc) ->
  Z.of_nat (length (encode_rows bo np_uint8 dtc (all_rows cs))) < 2 ^ 63 ->
  _read_binary (tobytes bo (point_dtypes mesh) (point_table mesh)
                ++ encode_rows bo np_uint8 dtc (all_rows cs))
    bo (["x"; "y"; "z"] ++ map snd (map property_of (point_data mesh)))
    ([tp; tp; tp] ++ map fst (map property_of (point_data mesh)))
    (Z.of_nat (nrows (points mesh)))
    (Z.of_nat (length (all_rows cs))) ["vertex_indices"] [PList "uint8" tc]
  = Ok (mkMesh (points mesh) cs (point_data mesh) []).
Proof.
  intros Htp Htc Hp Hc Hn Ha Hpd Hnd Hxyz Hcs Hw Hwide Hdt Hsize.
  unfold _read_binary. rewrite properties_keys.
  assert (length (["x"; "y"; "z"] ++ map fst (point_data mesh))
          = length ([tp; tp; tp] ++ map fst (map property_of (point_data mesh))))
    as Hlen1 by (by rewrite !length_app, !length_map).
  rewrite Hlen1, firstn_all.
  assert (for_each dtype_of_format
            ([tp; tp; tp] ++ map fst (map property_of (point_data mesh)))
          = Ok (point_dtypes mesh)) as ->.
  { apply for_each_app; [|by apply (formats_of_point_data (nrows (points mesh)))].
    cbn [for_each]. rewrite Htp. reflexivity. }
  cbn [mbind outcome_bind].
  assert (length (point_dtypes mesh)
          = length (["x"; "y"; "z"] ++ map fst (point_data mesh))) as Hlen2.
  { unfold point_dtypes. by rewrite !length_app, !length_map, length_replicate. }
  rewrite Hlen2, firstn_all.
  rewrite has_dup_NoDup by (by apply names_NoDup).
  pose proof (point_table_ok mesh Hn Ha Hpd) as Htab.
  assert (Forall (λ r, length r = length (point_dtypes mesh)) (point_table mesh))
    as Hlen by (eapply Forall_impl; [exact Htab|]; by intros r [? _]).
  assert (0 < sum_nat (map itemsize (point_dtypes mesh)))%nat as Hpos.
  { unfold point_dtypes. cbn [replicate app map sum_nat foldr]. lia. }
  assert (Z.to_nat (Z.of_nat (nrows (points mesh))
                    * Z.of_nat (sum_nat (map itemsize (point_dtypes mesh))))
          = length (tobytes bo (point_dtypes mesh) (point_table mesh))) as ->.
  { rewrite tobytes_length, point_table_length by done. lia. }
  rewrite take_app_length, drop_app_length.
  rewrite frombuffer_tobytes by done.
  cbn [mbind outcome_bind]. rewrite decode_table by done.
  assert (omap (λ name,
            if bool_decide (name ∈ ["x"; "y"; "z"]) then None
            else match index_of name (["x"; "y"; "z"] ++ map fst (point_data mesh)) with
                 | Some j =>
                   Some (name, Flatarray (nth j (point_dtypes mesh) (Dtype Kother 0))
                                 [length (point_table mesh)]
                                 (column j (point_table mesh)))
                 | None => None
                 end) (["x"; "y"; "z"] ++ map fst (point_data mesh))
          = point_data mesh) as ->.
  { cbn [app list_omap omap].
    rewrite !bool_decide_eq_true_2
      by (repeat first [apply list_elem_of_here | apply list_elem_of_further]).
    by apply (point_data_read mesh (point_data mesh) []). }
  unfold field. cbn [app index_of String.eqb Ascii.eqb Bool.eqb option_map].
  cbn [mbind outcome_bind].
  rewrite !column_xyz by (done || lia).
  change (nth 0 (point_dtypes mesh) (Dtype Kother 0)) with (arr_dtype (points mesh)).
  change (nth 1 (point_dtypes mesh) (Dtype Kother 0)) with (arr_dtype (points mesh)).
  change (nth 2 (point_dtypes mesh) (Dtype Kother 0)) with (arr_dtype (points mesh)).
  unfold column_stack.
  cbn [forallb fst snd andb]. rewrite !bool_decide_eq_true_2 by done.
  cbn [andb].
  assert (∀ j, length (column j (rows (points mesh))) = length (rows (points mesh)))
    as Hcol by (intros j; apply length_map).
  rewrite !Hcol. rewrite !bool_decide_eq_true_2 by done.
  cbn [andb mbind outcome_bind length].
  rewrite xyz_stack
    by (eapply Forall_impl; [exact (array_ok_lengths _ Ha)|];
        intros r Hr; cbn beta in Hr; by rewrite <- Hn).
  cbn [for_each]. unfold np_dtype_of_prop.
  change (dtype_of_format "uint8") with (Ok np_uint8).
  rewrite Htc. cbn [for_each mbind outcome_bind zip zip_with read_cell_data].
  change (Z.to_nat 0) with 0%nat. rewrite drop_0.
  rewrite <- (app_nil_r (encode_rows _ _ _ _)).
  rewrite read_binary_list_encoded
    by (done || (cbn; lia) || (by apply all_rows_ok) || by apply all_rows_wide).
  cbn [mbind outcome_bind dict_set dict_get dict_del String.eqb Ascii.eqb Bool.eqb].
  rewrite blocks_of_runs by done.
  unfold Mesh_init. cbn [forallb cell_data_rows andb].
  assert (forallb (λ kv : string * flatarray,
            bool_decide (head (flat_shape (snd kv))
                         = Some (nrows (Ndarray (arr_dtype (points mesh)) 3
                                          (rows (points mesh))))))
            (point_data mesh) = true) as ->.
  { apply forallb_forall. intros kv Hkv. apply bool_decide_eq_true_2.
    rewrite Forall_forall in Hpd.
    destruct (Hpd kv (proj2 (list_elem_of_In _ _) Hkv)) as (_ & -> & _).
    reflexivity. }
  cbn [andb]. rewrite <- Hn. by destruct (points mesh).
Qed.

Lemma all_rows_narrow_length cs :
  length (all_rows (map narrow cs)) = length (all_rows cs).
Proof.
  unfold all_rows. induction cs as [|b cs IH]; [reflexivity|].
  cbn [map concat]. rewrite !length_app, IH. f_equal. apply narrow_rows_length.
Qed.

(** What a ready mesh becomes when it is written in binary mode and the
    bytes are read again: the same points, and the blocks with their 64-bit
    indices narrowed. *)
Lemma binary_roundtrip h filename mesh :
  roundtrip_ready h mesh ->
  wr_end (ply.write h filename mesh true) = Ok ()
  ∧ wr_warnings (ply.write h filename mesh true)
    = (if has_int64 (cells mesh) then [narrowing_warning] else [])
  ∧ cells (wr_mesh (ply.write h filename mesh true)) = map narrow (cells mesh)
  ∧ read_buffer h (wr_out (ply.write h filename mesh true))
    = Ok (mkMesh (points mesh) (map narrow (cells mesh)) (point_data mesh) []).
Proof.
  intros Hr.
  destruct (ply_write_ready h filename mesh Hr)
    as (tp & tc & dt & Htp & Htc & Htpr & Htcr & Hp & Hc & Hdt & ->).
  destruct Hr as [Hv Hnow Hpd Hkeys Hxyz Hdim Hpts _ Hne Hblocks Hw
                  (dt' & _ & Hdt') Hsize Hwide].
  cbn [wr_end wr_warnings wr_mesh wr_out cells]. do 3 (split; [done|]).
  rewrite read_buffer_written
    by (done || lia || by apply (properties_plain (nrows (points mesh)))).
  rewrite <- all_rows_narrow_length.
  apply read_binary_written; try done.
  - apply Forall_forall. intros b Hb.
    apply list_elem_of_fmap in Hb as (b0 & -> & Hb0). apply narrow_ready.
    rewrite Forall_forall in Hblocks. by apply Hblocks.
  - by apply widths_alternate_narrow.
  - apply Forall_forall. intros b Hb.
    apply list_elem_of_fmap in Hb as (b0 & -> & Hb0). rewrite narrow_ncols.
    rewrite Forall_forall in Hwide. by apply Hwide.
  - rewrite encoded_cells_size; [done..|].
    intros b Hb. apply Hdt, list_elem_of_fmap. by exists b.
Qed.

(** ** The round trip through the binary format *)



Lemma ready_host0 mesh :
  Forall (point_array_ready (nrows (points mesh))) (point_data mesh) ->
  NoDup (map fst (point_data mesh)) ->
  Forall (λ k, k ∉ dim_names) (map fst (point_data mesh)) ->
  ncols (points mesh) = 3%nat ->
  array_ok (points mesh) ->
  point_dtype_supported (arr_dtype (points mesh)) ->
  cells mesh ≠ [] -> Forall block_ready (cells mesh) ->
  widths_alternate (cells mesh) ->
  (∃ dt, cell_dtype_supported dt
         ∧ ∀ b, b ∈ cells mesh -> arr_dtype (data (narrow b)) = dt) ->
  cell_bytes (cells mesh) < 2 ^ 63 ->
  Forall (λ b, ncols (data b) ≠ 1%nat) (cells mesh) ->
  roundtrip_ready host0 mesh.
Proof.
  intros. split; try done; cbn; repeat constructor; discriminate.
Qed.

Ltac solve_elem :=
  repeat first [apply list_elem_of_here | apply list_elem_of_further].

(** The conditions of the round trip on a closed mesh and [host0]. *)
Ltac solve_rows :=
  unfold block_ready, array_ok, fits_int32, point_array_ready, plain_name; cbn;
  repeat match goal with
         | |- Forall _ _ => constructor
         | |- _ ∧ _ => split
         | |- _ -> _ => intros _
         | |- point_dtype_supported _ => eexists; split; reflexivity
         end;
  unfold in_range, one_f64; cbn; try reflexivity; try discriminate; try lia.

Ltac solve_notin :=
  let H := fresh in
  intros H; repeat (apply elem_of_cons in H as [H|H]; [discriminate|]);
  by apply elem_of_nil in H.

Ltac solve_keys :=
  cbn; unfold dim_names;
  repeat first [ apply NoDup_cons_2; [solve_notin|]
               | apply Forall_cons_2; [solve_notin|] ];
  first [apply NoDup_nil_2 | apply Forall_nil_2].

Ltac solve_ready dt tc :=
  apply ready_host0;
  [ solve_rows | solve_keys | solve_keys
  | reflexivity
  | solve_rows
  | eexists; split; reflexivity
  | discriminate
  | solve_rows
  | repeat split; discriminate
  | exists dt; split;
    [ exists tc; split; reflexivity
    | intros b Hb; repeat (apply elem_of_cons in Hb as [->|Hb];
                           [reflexivity|]); by apply elem_of_nil in Hb ]
  | reflexivity
  | repeat (apply Forall_cons_2; [cbn; lia|]); apply Forall_nil_2 ].

(** ** The cast of 64-bit indices *)






(** ** Blocks of a cell type that the format does not have *)

Lemma write_binary_cells_unrecognised h b s :
  unrecognised b = true ->
  write_binary_cells h b s
  = (mkW (w_cells s) (w_warnings s ++ [skipping_warning]) (fh s), Ok ()).
Proof.
  unfold unrecognised, write_binary_cells.
  by destruct (cell_type_to_count (cell_type b)).
Qed.

Lemma block_ready_recognised b : block_ready b -> unrecognised b = false.
Proof.
  intros (Hn & Ht & _). unfold unrecognised.
  by rewrite Ht, cell_type_to_from_count by lia.
Qed.

Lemma wrap_in_range dt v : in_rangeb dt v = true -> wrap dt v = v.
Proof.
  unfold in_rangeb, wrap. cbv zeta.
  destruct (kind dt); intros [H1 H2]%andb_true_iff;
    apply Z.leb_le in H1; apply Z.ltb_lt in H2;
    try (apply Z.mod_small; lia).
  destruct (itemsize dt) as [|n].
  { change (2 ^ (8 * Z.of_nat 0 - 1)) with 0 in *. lia. }
  replace (8 * Z.of_nat (S n)) with (Z.succ (8 * Z.of_nat (S n) - 1)) by lia.
  rewrite Z.pow_succ_r by lia.
  set (k := 2 ^ (8 * Z.of_nat (S n) - 1)) in *.
  replace (2 * k / 2) with k by (apply Z.div_unique_exact; lia).
  rewrite Z.mod_small; lia.
Qed.

Lemma write_ascii_cells_rows h b s :
  ascii_block b ->
  write_ascii_cells h b s
  = (mkW (w_cells s) (w_warnings s) (fh s ++ ascii_rows h b), Ok ()).
Proof.
  intros [Hk Hr]. unfold write_ascii_cells, ascii_rows.
  rewrite (wrap_in_range _ _ Hr).
  apply elem_of_cons in Hk as [->|Hk]; [reflexivity|].
  apply list_elem_of_singleton in Hk as ->. reflexivity.
Qed.

Lemma for_write_ascii_cells h cs : ∀ s,
  Forall ascii_block cs ->
  for_ cs (write_ascii_cells h) s
  = (mkW (w_cells s) (w_warnings s) (fh s ++ concat (map (ascii_rows h) cs)),
     Ok ()).
Proof.
  induction cs as [|b cs IH]; intros s Hcs.
  - cbn. rewrite app_nil_r. by destruct s.
  - apply Forall_cons in Hcs as [Hb Hcs]. cbn [for_ map concat].
    unfold mbind, W_bind. rewrite write_ascii_cells_rows by done.
    rewrite IH by done. cbn [w_cells w_warnings fh]. by rewrite <- app_assoc.
Qed.

Lemma for_write_binary_cells_mixed h cs : ∀ s,
  Forall (λ b, unrecognised b = true ∨ block_ready b) cs ->
  for_ cs (write_binary_cells h) s
  = (mkW (w_cells s)
       (w_warnings s
        ++ map (λ _, skipping_warning) (filter (λ b, unrecognised b = true) cs))
       (fh s
        ++ concat (map (binary_rows h)
                     (filter (λ b, unrecognised b = false) cs))),
     Ok ()).
Proof.
  induction cs as [|b cs IH]; intros s Hcs.
  - cbn. rewrite !app_nil_r. by destruct s.
  - apply Forall_cons in Hcs as [Hb Hcs]. cbn [for_].
    unfold mbind, W_bind. destruct Hb as [Hb|Hb].
    + rewrite write_binary_cells_unrecognised, IH by done.
      cbn [w_cells w_warnings fh].
      rewrite filter_cons_True, filter_cons_False by (done || congruence).
      cbn [map]. by rewrite <- app_assoc.
    + pose proof (block_ready_recognised b Hb) as Hrec.
      rewrite write_binary_cells_ready, IH by done.
      cbn [w_cells w_warnings fh].
      rewrite filter_cons_False, filter_cons_True by (done || congruence).
      cbn [map concat]. by rewrite <- app_assoc.
Qed.

(** C8: what the two branches of [write] do with the cells.  The binary
    branch writes the records of the blocks of a recognised cell type and
    skips every other block with one warning; the ASCII branch writes the
    rows of every block, whether its cell type is recognised or not, and
    raises no warning. *)
Theorem unrecognised_blocks_skipped_in_binary_only h cs s
    (Hcs : Forall (λ b, unrecognised b = true ∨ block_ready b) cs)
    (Hascii : Forall ascii_block cs) :
  for_ cs (write_binary_cells h) s
  = (mkW (w_cells s)
       (w_warnings s
        ++ map (λ _, skipping_warning) (filter (λ b, unrecognised b = true) cs))
       (fh s
        ++ concat (map (binary_rows h)
                     (filter (λ b, unrecognised b = false) cs))),
     Ok ())
  ∧ for_ cs (write_ascii_cells h) s
    = (mkW (w_cells s) (w_warnings s) (fh s ++ concat (map (ascii_rows h) cs)),
       Ok ()).
Proof.
  split; [by apply for_write_binary_cells_mixed|by apply for_write_ascii_cells].
Qed.

Lemma unrecognised_blocks_skipped_in_binary_only_witness :
  for_ (cells mesh_custom) (write_ascii_cells host0) (mkW (cells mesh_custom) [] [])
  = (mkW (cells mesh_custom) []
       (text_line "3 0 1 2" ++ text_line "5 1 3 2 0 0"), Ok ()).
Proof.
  apply (proj2 (unrecognised_blocks_skipped_in_binary_only host0
                  (cells mesh_custom) (mkW (cells mesh_custom) [] [])
                  ltac:(constructor; [right; solve_rows|];
                        constructor; [by left|constructor])
                  ltac:(repeat (constructor; [split; [solve_elem|reflexivity]|]);
                        constructor))).
Defined.

(** The file that [write] makes of a triangle and a block of a custom cell
    type in ASCII mode: the header declares one face, the body holds the
    rows of both blocks, and there is no warning; in binary mode the block is
    left out with a warning. *)
Lemma custom_block_written_in_ascii :
  wr_end (ply.write host0 (Path "mesh.ply") mesh_custom false) = Ok ()
  ∧ wr_warnings (ply.write host0 (Path "mesh.ply") mesh_custom false) = []
  ∧ wr_out (ply.write host0 (Path "mesh.ply") mesh_custom false)
    = text_line "ply" ++ text_line "format ascii 1.0"
      ++ text_line "comment Created by meshio v4.0.0, 2020-02-18T10:30:00.000000"
      ++ text_line "element vertex 4"
      ++ text_line "property int32 x" ++ text_line "property int32 y"
      ++ text_line "property int32 z"
      ++ text_line "element face 1"
      ++ text_line "property list uint8 int32 vertex_indices"
      ++ text_line "end_header"
      ++ text_line "0 0 0" ++ text_line "1 0 0"
      ++ text_line "0 1 0" ++ text_line "1 1 0"
      ++ text_line "3 0 1 2" ++ text_line "5 1 3 2 0 0"
  ∧ wr_warnings (ply.write host0 (Path "mesh.ply") mesh_custom true)
    = [skipping_warning].
Proof. repeat split; vm_compute; reflexivity. Qed.

(** ** The round trip through the ASCII format *)

(** *** Words and lines *)















(** *** The text that [write] makes of a table *)






(** *** One block for each width *)







(** *** The file that [write] makes in ASCII mode *)




(** *** Reading the file back *)












(** Each mode needs its own condition on the widths: a block of vertices
    is written in both modes, but the binary reader fails on it while the
    ASCII reader returns it; a triangle, a quad and another triangle come
    back from the binary file as they were and from the ASCII file as two
    blocks. *)
Lemma widths_matter_in_each_mode :
  wr_end (ply.write host_text (Path "mesh.ply") mesh_vertex true) = Ok ()
  ∧ read_buffer host_text (wr_out (ply.write host_text (Path "mesh.ply") mesh_vertex true))
    = Raise IndexError
  ∧ read_buffer host_text (wr_out (ply.write host_text (Path "mesh.ply") mesh_vertex false))
    = Ok mesh_vertex
  ∧ read_buffer host_text
      (wr_out (ply.write host_text (Path "mesh.ply") mesh_interleaved true))
    = Ok mesh_interleaved
  ∧ read_buffer host_text
      (wr_out (ply.write host_text (Path "mesh.ply") mesh_interleaved false))
    = Ok (mkMesh grid_points
            [mkCellBlock "triangle" (Ndarray np_int32 3 [[0; 1; 2]; [2; 1; 3]]);
             mkCellBlock "quad" (Ndarray np_int32 4 [[0; 2; 3; 1]])] [] []).
Proof. repeat split; vm_compute; reflexivity. Qed.

(** ** The faces of an ASCII body *)




(** ** The cast of 64-bit indices, in both modes *)




(* ===================================================================== *)
(** * Part III: further properties of the code *)
(* ===================================================================== *)

(** ** Tags and the check of [write] *)

Lemma py_take_drop_polygon g :
  py_take 7 ("polygon" +:+ g) = "polygon" ∧ py_drop 7 ("polygon" +:+ g) = g.
Proof. split; [|reflexivity]. unfold py_take. cbn. by destruct g. Qed.

(** A block that carries the tag of its width passes the check of the
    generic [write]. *)
Lemma check_cell_formed nnpc dt b :
  nnpc_standard nnpc -> block_formed dt b -> check_cell nnpc b = Ok ().
Proof.
  intros (H1 & H2 & H3 & H4) (Ht & _ & _). unfold check_cell. rewrite Ht.
  destruct (ncols (data b)) as [|[|[|[|[|n]]]]] eqn:E.
  - reflexivity.
  - change (cell_type_from_count (Z.of_nat 1)) with "vertex".
    change (String.eqb (py_take 7 "vertex") "polygon") with false.
    cbv iota. rewrite H1. reflexivity.
  - change (cell_type_from_count (Z.of_nat 2)) with "line".
    change (String.eqb (py_take 7 "line") "polygon") with false.
    cbv iota. rewrite H2. reflexivity.
  - change (cell_type_from_count (Z.of_nat 3)) with "triangle".
    change (String.eqb (py_take 7 "triangle") "polygon") with false.
    cbv iota. rewrite H3. reflexivity.
  - change (cell_type_from_count (Z.of_nat 4)) with "quad".
    change (String.eqb (py_take 7 "quad") "polygon") with false.
    cbv iota. rewrite H4. reflexivity.
  - rewrite cell_type_from_count_other by lia.
    destruct (py_take_drop_polygon (str (Z.of_nat (S (S (S (S (S n))))))))
      as [-> ->].
    rewrite String.eqb_refl, py_int_str by lia.
    by rewrite bool_decide_eq_false_2 by (intros H; by apply H).
Qed.

(** ** What the decoder of ragged lists returns on any buffer *)

Lemma records_length k n (b : bytes) : length (records k n b) = k.
Proof. revert b. induction k as [|k IH]; intros b; cbn; [done|by rewrite IH]. Qed.

Lemma decode_block_formed buffer cdt ddt bo offsets lengths bound b :
  decode_block buffer cdt ddt bo offsets lengths bound = Ok (Some b) ->
  block_formed ddt b.
Proof.
  unfold decode_block. destruct bound as [start end_].
  destruct (start =? end_)%nat; [discriminate|].
  destruct (_ <? 0); [discriminate|].
  destruct (frombuffer _ _) as [recs| | |]; try discriminate.
  cbn [mbind outcome_bind]. destruct (_ =? 1)%nat; [discriminate|].
  intros [= <-].
  split; [reflexivity|]. split; [reflexivity|].
  cbn [data rows ncols]. apply Forall_forall. intros r Hr.
  apply list_elem_of_fmap in Hr as (rec & -> & _).
  by rewrite length_map, records_length.
Qed.

Lemma decode_blocks_formed buffer cdt ddt bo offsets lengths bounds :
  ∀ blocks,
  decode_blocks buffer cdt ddt bo offsets lengths bounds = Ok blocks ->
  Forall (block_formed ddt) blocks.
Proof.
  induction bounds as [|bound bounds IH]; intros blocks H.
  - injection H as <-. constructor.
  - cbn [decode_blocks] in H.
    destruct (decode_block _ _ _ _ _ _ bound) as [ob| | |] eqn:Hb;
      try discriminate.
    cbn [mbind outcome_bind] in H.
    destruct (decode_blocks _ _ _ _ _ _ bounds) as [bs| | |];
      try discriminate.
    cbn [mbind outcome_bind] in H. injection H as <-.
    specialize (IH bs eq_refl).
    destruct ob as [b|]; [|exact IH].
    constructor; [|exact IH]. by eapply decode_block_formed.
Qed.

(** Whatever the buffer holds, the blocks that [_read_binary_list] returns
    carry the tag of their width, rows of that width and the data dtype, and
    the generic [write] accepts them. *)
Theorem binary_blocks_are_formed buffer cdt ddt n bo nnpc off blocks
    (Hnn : nnpc_standard nnpc)
    (Hr : _read_binary_list buffer cdt ddt n bo = Ok (off, blocks)) :
  Forall (block_formed ddt) blocks ∧ check_cells nnpc blocks = Ok ().
Proof.
  assert (Forall (block_formed ddt) blocks) as Hf.
  { unfold _read_binary_list in Hr. destruct (negb _); [discriminate|].
    destruct (decode_blocks _ _ _ _ _ _ _) as [bs| | |] eqn:Hb;
      try discriminate.
    cbn [mbind outcome_bind] in Hr. injection Hr as _ <-.
    by eapply decode_blocks_formed. }
  split; [exact Hf|]. apply check_cells_all_ok.
  eapply Forall_impl; [exact Hf|]. intros b Hb. by eapply check_cell_formed.
Qed.

Lemma binary_blocks_are_formed_witness :
  Forall (block_formed np_int32)
    (map (block_of_run np_int32) (runs ragged_example))
  ∧ check_cells nnpc0 (map (block_of_run np_int32) (runs ragged_example)) = Ok ().
Proof.
  eapply (binary_blocks_are_formed
            (encode_rows Little np_uint8 np_int32 ragged_example)
            np_uint8 np_int32 6 Little nnpc0).
  - repeat split; reflexivity.
  - vm_compute. reflexivity.
Defined.

(** ** The tables of [register] *)

Lemma foldl_insert_name (name : string) exts : ∀ (m : gmap string string) e,
  foldl (λ m ext, <[ext := name]> m) m exts !! e
  = if decide (e ∈ exts) then Some name else m !! e.
Proof.
  induction exts as [|x exts IH]; intros m e; cbn [foldl].
  - rewrite decide_False by apply not_elem_of_nil. reflexivity.
  - rewrite IH. destruct (decide (e ∈ exts)) as [Hin|Hin].
    + rewrite decide_True by (by apply list_elem_of_further). reflexivity.
    + destruct (decide (e = x)) as [->|Hne].
      * rewrite decide_True by apply list_elem_of_here.
        by rewrite lookup_insert_eq.
      * rewrite decide_False by (rewrite elem_of_cons; tauto).
        by rewrite lookup_insert_ne.
Qed.

Lemma foldl_insert_absent {V} (wm : list (string * V)) : ∀ (m : gmap string V) k,
  k ∉ map fst wm ->
  foldl (λ m kv, <[fst kv := snd kv]> m) m wm !! k = m !! k.
Proof.
  induction wm as [|[k' v] wm IH]; intros m k Hk; cbn [foldl]; [done|].
  cbn [map fst] in Hk. apply not_elem_of_cons in Hk as [Hne Hk].
  rewrite IH by done. cbn [fst snd]. by rewrite lookup_insert_ne.
Qed.

Lemma foldl_insert_present {V} (wm : list (string * V)) : ∀ (m : gmap string V) k v,
  NoDup (map fst wm) -> (k, v) ∈ wm ->
  foldl (λ m kv, <[fst kv := snd kv]> m) m wm !! k = Some v.
Proof.
  induction wm as [|[k' v'] wm IH]; intros m k v Hnd Hin; cbn [foldl].
  - by apply elem_of_nil in Hin.
  - cbn [map fst] in Hnd. apply NoDup_cons in Hnd as [Hk' Hnd].
    apply elem_of_cons in Hin as [[= -> ->]|Hin].
    + rewrite foldl_insert_absent by done. cbn [fst snd].
      by rewrite lookup_insert_eq.
    + by apply IH.
Qed.

(** [register] enters its extensions, its reader and its writers, and leaves
    every other entry of the three tables as it was: each extension of the
    call resolves to the new name, the reader of the name is the new one
    when one is given, and the writers of the call are found under their
    keys. *)
Theorem register_enters_and_keeps name exts rd wm reg :
  (∀ e, extension_to_filetype (register name exts rd wm reg) !! e
        = if decide (e ∈ exts) then Some name
          else extension_to_filetype reg !! e)
  ∧ (∀ k, reader_map (register name exts rd wm reg) !! k
          = match rd with
            | Some r => if decide (k = name) then Some r else reader_map reg !! k
            | None => reader_map reg !! k
            end)
  ∧ (∀ k, k ∉ map fst wm ->
          _writer_map (register name exts rd wm reg) !! k = _writer_map reg !! k)
  ∧ (NoDup (map fst wm) -> ∀ k w, (k, w) ∈ wm ->
       _writer_map (register name exts rd wm reg) !! k = Some w).
Proof.
  unfold register. cbn [extension_to_filetype reader_map _writer_map].
  split; [|split; [|split]].
  - intros e. apply foldl_insert_name.
  - intros k. destruct rd as [r|]; [|reflexivity].
    destruct (decide (k = name)) as [->|Hne].
    + by rewrite lookup_insert_eq.
    + by rewrite lookup_insert_ne.
  - intros k Hk. by apply foldl_insert_absent.
  - intros Hnd k w Hin. by apply foldl_insert_present.
Qed.

(** ** From a path to the codec and back *)

Lemma accumulated_last pre s :
  lower s ∈ accumulated (pre ++ [s]).
Proof.
  induction pre as [|x pre IH].
  - cbn. replace (s +:+ EmptyString) with s; [apply list_elem_of_here|].
    clear. induction s as [|c s IH]; [reflexivity|].
    rewrite append_cons. by rewrite <- IH.
  - cbn [app accumulated]. by apply list_elem_of_further.
Qed.

Lemma first_registered_single (ext name : string) exts :
  ext ∈ exts ->
  first_registered (<[ext := name]> ∅) exts = Some name.
Proof.
  induction exts as [|e exts IH]; intros Hin; [by apply elem_of_nil in Hin|].
  cbn [first_registered]. destruct (decide (e = ext)) as [->|Hne].
  - by rewrite lookup_insert_eq.
  - rewrite lookup_insert_ne by done. rewrite lookup_empty.
    apply IH. apply elem_of_cons in Hin as [->|Hin]; done.
Qed.

(** With the codec registered, a path whose last suffix is [.ply] in any
    case of letters resolves to it. *)
Lemma filetype_ply h p s :
  last (suffixes p) = Some s -> lower s = ".ply" ->
  _filetype_from_path (ply_registry h) p = Ok "ply".
Proof.
  intros Hs Hl. apply last_Some in Hs as [pre Hs].
  unfold _filetype_from_path. rewrite filetype_from_suffixes_spec, Hs.
  change (extension_to_filetype (ply_registry h))
    with (<[".ply" := "ply"]> (∅ : gmap string string)).
  rewrite (first_registered_single ".ply" "ply"); [reflexivity|].
  rewrite <- Hl. apply accumulated_last.
Qed.

Lemma check_cells_ready nnpc cs :
  nnpc_standard nnpc -> Forall block_ready cs -> check_cells nnpc cs = Ok ().
Proof.
  intros Hnn Hcs. apply check_cells_all_ok.
  eapply Forall_impl; [exact Hcs|]. intros b (Hn & Ht & _ & Ha).
  apply (check_cell_formed nnpc (arr_dtype (data b))); [done|].
  split; [done|]. split; [done|]. by apply array_ok_lengths.
Qed.

(** The generic [write] on a path of 7-bit characters that ends in [.ply],
    then the generic [read] of the file it left: the mesh of the round trip
    of the codec in binary mode, whose conditions exclude rows of a single
    index. *)
Theorem path_roundtrip h nnpc fs p s mesh
    (Hnn : nnpc_standard nnpc)
    (Hr : roundtrip_ready h mesh)
    (H7 : seven_bit_text p)
    (Hs : last (suffixes p) = Some s)
    (Hply : lower s = ".ply")
    (Hfs : fs !! p
           = Some (wr_out (write nnpc (ply_registry h) (Path p) mesh None []))) :
  wr_end (write nnpc (ply_registry h) (Path p) mesh None []) = Ok ()
  ∧ read fs (ply_registry h) (Path p) None
    = Ok (mkMesh (points mesh) (map narrow (cells mesh)) (point_data mesh) []).
Proof.
  assert (write nnpc (ply_registry h) (Path p) mesh None []
          = ply.write h (Path p) mesh true) as Hw.
  { unfold write, write_format. rewrite (filetype_ply h p s Hs Hply).
    change (_writer_map (ply_registry h))
      with (<["ply" := ply.write_kw h]> (∅ : gmap string writer)).
    rewrite lookup_insert_eq.
    rewrite check_cells_ready by (done || by destruct Hr). reflexivity. }
  rewrite Hw in Hfs |- *.
  destruct (binary_roundtrip h (Path p) mesh Hr) as (He & _ & _ & Hread).
  split; [exact He|].
  unfold read. rewrite Hfs.
  rewrite bool_decide_eq_true_2 by (by eexists).
  rewrite (filetype_ply h p s Hs Hply). cbn [mbind outcome_bind].
  change (reader_map (ply_registry h))
    with (<["ply" := ply.read h]> (∅ : gmap string reader)).
  rewrite lookup_insert_eq. unfold ply.read, open_file. rewrite Hfs.
  exact Hread.
Qed.

Lemma path_roundtrip_witness :
  wr_end (write nnpc0 (ply_registry host0) (Path "out/mesh.v2.PLY")
            mesh_point_data None []) = Ok ()
  ∧ read (<["out/mesh.v2.PLY" :=
             wr_out (write nnpc0 (ply_registry host0) (Path "out/mesh.v2.PLY")
                       mesh_point_data None [])]> ∅)
      (ply_registry host0) (Path "out/mesh.v2.PLY") None
    = Ok (mkMesh (points mesh_point_data) (map narrow (cells mesh_point_data))
            (point_data mesh_point_data) []).
Proof.
  apply (path_roundtrip host0 nnpc0 _ "out/mesh.v2.PLY" ".PLY" mesh_point_data).
  - repeat split; reflexivity.
  - solve_ready np_int32 "int32".
  - apply seven_bit_by. reflexivity.
  - reflexivity.
  - reflexivity.
  - apply lookup_insert_eq.
Defined.

(** ** [_next_line] *)



Lemma next_line_loop_end : ∀ fuel, next_line_loop fuel [] = Diverge.
Proof. induction fuel as [|fuel IH]; [reflexivity|]. cbn. exact IH. Qed.








(** ** The header ends with [end_header] *)

Lemma readline_shorter (f : bytes) :
  f ≠ [] -> (length (snd (readline f)) < length f)%nat.
Proof.
  induction f as [|c f IH]; [done|]. intros _. cbn [readline].
  destruct (Ascii.eqb c LF); [cbn; lia|].
  destruct f as [|c' f]; [cbn; lia|].
  specialize (IH ltac:(done)).
  destruct (readline (c' :: f)) as [l r]. cbn [snd length] in *. lia.
Qed.

Lemma stripped_lines_fuel : ∀ n m f,
  (length f <= n)%nat -> (length f <= m)%nat ->
  stripped_lines n f = stripped_lines m f.
Proof.
  induction n as [|n IH]; intros m f Hn Hm.
  - destruct f; [by destruct m|cbn in Hn; lia].
  - destruct f as [|c f]; [by destruct m|].
    destruct m as [|m]; [cbn in Hm; lia|].
    cbn [stripped_lines]. f_equal.
    pose proof (readline_shorter (c :: f) ltac:(done)).
    apply IH; cbn [length] in *; lia.
Qed.

Lemma stripped_lines_cons f :
  f ≠ [] ->
  stripped_lines (length f) f
  = strip (decode (fst (readline f)))
    :: stripped_lines (length (snd (readline f))) (snd (readline f)).
Proof.
  intros Hf. destruct f as [|c f]; [done|].
  cbn [length stripped_lines]. f_equal.
  pose proof (readline_shorter (c :: f) ltac:(done)).
  apply stripped_lines_fuel; cbn [length] in *; lia.
Qed.

(** A line that [_next_line] returns is a line of the stream, and so is
    every line of what it leaves. *)
Lemma next_line_loop_lines : ∀ fuel f line f',
  next_line_loop fuel f = Ok (line, f') ->
  line ∈ stripped_lines (length f) f
  ∧ ∀ x, x ∈ stripped_lines (length f') f' -> x ∈ stripped_lines (length f) f.
Proof.
  induction fuel as [|fuel IH]; intros f line f' H; [discriminate|].
  destruct f as [|c f].
  { cbn in H. by rewrite next_line_loop_end in H. }
  rewrite (stripped_lines_cons (c :: f)) by done.
  cbn [next_line_loop] in H.
  destruct (readline (c :: f)) as [raw f1]. cbn [fst snd].
  destruct (negb _ && negb _).
  - injection H as <- <-. split; [apply list_elem_of_here|].
    intros x Hx. by apply list_elem_of_further.
  - destruct (IH _ _ _ H) as [H1 H2]. split.
    + by apply list_elem_of_further.
    + intros x Hx. by apply list_elem_of_further, H2.
Qed.

Lemma vertex_properties_lines_of : ∀ fuel line f formats names line' f' fm nm,
  vertex_properties fuel line f formats names = Ok (line', f', fm, nm) ->
  (line' = line ∨ line' ∈ stripped_lines (length f) f)
  ∧ ∀ x, x ∈ stripped_lines (length f') f' -> x ∈ stripped_lines (length f) f.
Proof.
  induction fuel as [|fuel IH]; intros line f formats names line' f' fm nm H.
  - cbn in H. destruct (String.eqb _ _); [discriminate|].
    injection H as <- <- _ _. auto.
  - cbn [vertex_properties] in H. destruct (String.eqb _ _).
    + destruct (re_property line) as [[g0 g1]|]; [|discriminate].
      destruct (_next_line f) as [[l1 f1]| | |] eqn:Hn; try discriminate.
      cbn [mbind outcome_bind] in H.
      apply next_line_loop_lines in Hn as [Hn1 Hn2].
      destruct (IH _ _ _ _ _ _ _ _ H) as [[->|H1] H2]; split; auto.
    + injection H as <- <- _ _. auto.
Qed.

Lemma face_properties_lines_of : ∀ fuel line f names dtypes line' f' nm dt,
  face_properties fuel line f names dtypes = Ok (line', f', nm, dt) ->
  (line' = line ∨ line' ∈ stripped_lines (length f) f)
  ∧ ∀ x, x ∈ stripped_lines (length f') f' -> x ∈ stripped_lines (length f) f.
Proof.
  induction fuel as [|fuel IH]; intros line f names dtypes line' f' nm dt H.
  - cbn in H. destruct (String.eqb _ _); [discriminate|].
    injection H as <- <- _ _. auto.
  - cbn [face_properties] in H. destruct (String.eqb (py_take 8 line) _).
    + match type of H with
      | (?e ≫= _) = _ => destruct e as [entry| | |]; try discriminate
      end.
      cbn [mbind outcome_bind] in H.
      destruct (_next_line f) as [[l1 f1]| | |] eqn:Hn; try discriminate.
      cbn [mbind outcome_bind] in H.
      apply next_line_loop_lines in Hn as [Hn1 Hn2].
      destruct (IH _ _ _ _ _ _ _ _ H) as [[->|H1] H2]; split; auto.
    + injection H as <- <- _ _. auto.
Qed.

Lemma header_loop_ends : ∀ fuel line f hd hd' f',
  header_loop fuel line f hd = Ok (hd', f') ->
  line = "end_header" ∨ "end_header" ∈ stripped_lines (length f) f.
Proof.
  induction fuel as [|fuel IH]; intros line f hd hd' f' H.
  - cbn in H. destruct (String.eqb_spec line "end_header"); [auto|discriminate].
  - cbn [header_loop] in H.
    destruct (String.eqb_spec line "end_header"); [auto|]. right.
    destruct (String.eqb (py_take 8 line) "obj_info").
    + destruct (_next_line f) as [[l1 f1]| | |] eqn:Hn; try discriminate.
      cbn [mbind outcome_bind] in H.
      apply next_line_loop_lines in Hn as [Hn1 Hn2].
      destruct (IH _ _ _ _ _ H) as [->|H1]; auto.
    + destruct (re_element "vertex" line) as [g|].
      * destruct (_next_line f) as [[l1 f1]| | |] eqn:Hn; try discriminate.
        cbn [mbind outcome_bind] in H.
        apply next_line_loop_lines in Hn as [Hn1 Hn2].
        destruct (vertex_properties _ l1 f1 _ _) as [[[[l2 f2] fm] nm]| | |] eqn:Hv;
          try discriminate.
        cbn [mbind outcome_bind] in H.
        apply vertex_properties_lines_of in Hv as [Hv1 Hv2].
        destruct (IH _ _ _ _ _ H) as [->|H1]; [|auto].
        destruct Hv1 as [->|Hv1]; auto.
      * destruct (re_element "face" line) as [g|]; [|discriminate].
        destruct (_ <? 0); [discriminate|].
        destruct (_next_line f) as [[l1 f1]| | |] eqn:Hn; try discriminate.
        cbn [mbind outcome_bind] in H.
        apply next_line_loop_lines in Hn as [Hn1 Hn2].
        destruct (face_properties _ l1 f1 _ _) as [[[[l2 f2] nm] dt]| | |] eqn:Hv;
          try discriminate.
        cbn [mbind outcome_bind] in H.
        apply face_properties_lines_of in Hv as [Hv1 Hv2].
        destruct (IH _ _ _ _ _ H) as [->|H1]; [|auto].
        destruct Hv1 as [->|Hv1]; auto.
Qed.

(** [read_buffer] returns a mesh only for a stream whose first line is
    [ply] and which has a line [end_header]: any other stream makes it raise
    or never return.  The lines up to [end_header] are of 7-bit
    characters; what follows them is free. *)
Theorem read_buffer_needs_end_header h f m
    (H7 : seven_bit (header_bytes (length f) f))
    (Hr : read_buffer h f = Ok m) :
  head (stripped_lines (length f) f) = Some "ply"
  ∧ "end_header" ∈ stripped_lines (length f) f.
Proof.
  unfold read_buffer in Hr.
  destruct f as [|c f].
  { cbn in Hr. discriminate. }
  rewrite (stripped_lines_cons (c :: f)) by done.
  destruct (readline (c :: f)) as [raw f1]. cbn [fst snd head].
  destruct (String.eqb_spec (strip (decode raw)) "ply") as [->|];
    [|discriminate].
  split; [reflexivity|]. cbn [negb] in Hr. apply list_elem_of_further.
  destruct (_next_line f1) as [[fmt f2]| | |] eqn:Hn1; try discriminate.
  cbn [mbind outcome_bind] in Hr.
  apply next_line_loop_lines in Hn1 as [_ Hsub1].
  match type of Hr with
  | (?e ≫= _) = _ => destruct e as [[is_binary bo]| | |]; try discriminate
  end.
  cbn [mbind outcome_bind] in Hr.
  destruct (_next_line f2) as [[line f3]| | |] eqn:Hn2; try discriminate.
  cbn [mbind outcome_bind] in Hr.
  apply next_line_loop_lines in Hn2 as [Hin2 Hsub2].
  destruct (header_loop _ line f3 _) as [[hd f4]| | |] eqn:Hh; try discriminate.
  apply header_loop_ends in Hh as [->|Hh]; auto.
Qed.

Lemma read_buffer_needs_end_header_witness :
  head (stripped_lines (length empty_ply) empty_ply) = Some "ply"
  ∧ "end_header" ∈ stripped_lines (length empty_ply) empty_ply.
Proof.
  apply (read_buffer_needs_end_header host0 empty_ply
           (mkMesh (Ndarray np_float32 3 []) [] [] [])).
  - apply seven_bit_by. vm_compute. reflexivity.
  - vm_compute. reflexivity.
Defined.

(** ** What the header must not hold *)

Lemma header_loop_unknown fuel line f hd :
  line ≠ "end_header" ->
  String.eqb (py_take 8 line) "obj_info" = false ->
  re_element "vertex" line = None -> re_element "face" line = None ->
  header_loop (S fuel) line f hd
  = Raise (ReadError ("Expected `element vertex` or `element face` or `obj_info`, "
                      +:+ "got `" +:+ line +:+ "`")).
Proof.
  intros Hne Ho Hv Hf. cbn [header_loop].
  destruct (String.eqb_spec line "end_header"); [done|].
  by rewrite Ho, Hv, Hf.
Qed.

(** [read_buffer] raises [ReadError] on a stream whose first line, of 7-bit
    characters, is not [ply] (the empty stream is one), on a format line that
    is none of the three it knows, and on a header line that is neither an
    element [vertex] or [face] with its count, nor [obj_info], nor
    [end_header]: other elements are not read.  The lines are of 7-bit
    characters. *)
Theorem read_buffer_rejects h fmt line rest
    (Hfmt : significant fmt) (Hline : significant line)
    (H7f : seven_bit_text fmt) (H7l : seven_bit_text line) :
  (∀ f, seven_bit (fst (readline f)) ->
        strip (decode (fst (readline f))) ≠ "ply" ->
        read_buffer h f = Raise (ReadError "Expected ply"))
  ∧ (fmt ∉ ["format ascii 1.0"; "format binary_big_endian 1.0";
            "format binary_little_endian 1.0"] ->
     read_buffer h (text_line "ply" ++ text_line fmt ++ rest)
     = Raise (ReadError EmptyString))
  ∧ (fmt ∈ ["format ascii 1.0"; "format binary_big_endian 1.0";
            "format binary_little_endian 1.0"] ->
     line ≠ "end_header" ->
     String.eqb (py_take 8 line) "obj_info" = false ->
     re_element "vertex" line = None -> re_element "face" line = None ->
     read_buffer h (text_line "ply" ++ text_line fmt ++ text_line line ++ rest)
     = Raise (ReadError ("Expected `element vertex` or `element face` or `obj_info`, "
                         +:+ "got `" +:+ line +:+ "`"))).
Proof.
  assert (Hply : ∀ r, readline (text_line "ply" ++ r) = (text_line "ply", r)).
  { intros r. apply readline_text_line.
    unfold no_LF; cbn; repeat constructor; discriminate. }
  split; [|split].
  - intros f _ Hf. unfold read_buffer. destruct (readline f) as [raw f1].
    cbn [fst] in Hf. by destruct (String.eqb_spec (strip (decode raw)) "ply").
  - intros Hnot. unfold read_buffer. rewrite Hply.
    change (strip (decode (text_line "ply"))) with "ply".
    change (negb (String.eqb "ply" "ply")) with false. cbv iota.
    rewrite next_line_significant by done. cbn [mbind outcome_bind].
    destruct (String.eqb_spec fmt "format ascii 1.0") as [->|];
      [exfalso; apply Hnot; solve_elem|].
    destruct (String.eqb_spec fmt "format binary_big_endian 1.0") as [->|];
      [exfalso; apply Hnot; solve_elem|].
    destruct (String.eqb_spec fmt "format binary_little_endian 1.0") as [->|];
      [exfalso; apply Hnot; solve_elem|].
    reflexivity.
  - intros Hin Hne Ho Hv Hf. unfold read_buffer. rewrite Hply.
    change (strip (decode (text_line "ply"))) with "ply".
    change (negb (String.eqb "ply" "ply")) with false. cbv iota.
    rewrite next_line_significant by done. cbn [mbind outcome_bind].
    each_name Hin; cbn [String.eqb Ascii.eqb Bool.eqb negb mbind outcome_bind];
      rewrite next_line_significant by done; cbn [mbind outcome_bind];
      by rewrite header_loop_unknown.
Qed.

Lemma read_buffer_rejects_witness :
  read_buffer host0
    (text_line "ply" ++ text_line "format ascii 1.0"
     ++ text_line "element edge 4" ++ text_line "end_header")
  = Raise (ReadError ("Expected `element vertex` or `element face` or `obj_info`, "
                      +:+ "got `" +:+ "element edge 4" +:+ "`")).
Proof.
  apply (proj2 (proj2 (read_buffer_rejects host0 "format ascii 1.0"
                         "element edge 4" (text_line "end_header")
                         ltac:(solve_significant) ltac:(solve_significant)
                         ltac:(apply seven_bit_by; reflexivity)
                         ltac:(apply seven_bit_by; reflexivity))));
    try reflexivity; [solve_elem|discriminate].
Defined.

(** ** The coordinates in a binary file *)

Lemma for_each_dtype_ended l :
  (∃ r, for_each dtype_of_format l = Ok r)
  ∨ ∃ e, for_each dtype_of_format l = Raise e.
Proof.
  induction l as [|a l IH]; [left; by eexists|].
  cbn [for_each].
  assert ((∃ dt, dtype_of_format a = Ok dt) ∨ ∃ e, dtype_of_format a = Raise e)
    as [[dt ->]|[e ->]].
  { unfold dtype_of_format.
    destruct (dict_get a ply_to_numpy_dtype_string); [left|right]; by eexists. }
  - cbn [mbind outcome_bind].
    destruct IH as [[r ->]|[e ->]]; [left|right]; by eexists.
  - right. by eexists.
Qed.

Lemma index_of_absent name names : name ∉ names -> index_of name names = None.
Proof.
  induction names as [|n names IH]; intros H; [reflexivity|].
  apply not_elem_of_cons in H as [Hne H]. cbn [index_of].
  destruct (String.eqb_spec name n); [done|]. by rewrite IH.
Qed.

Lemma field_ended names dts table name :
  (∃ c, field names dts table name = Ok c)
  ∨ ∃ e, field names dts table name = Raise e.
Proof.
  unfold field. destruct (index_of name names); [left|right]; by eexists.
Qed.

Lemma field_absent names dts table name :
  name ∉ names -> ∃ e, field names dts table name = Raise e.
Proof.
  intros H. unfold field. rewrite index_of_absent by done. by eexists.
Qed.

(** [_read_binary] does not return a mesh when one of [x], [y] and [z] is
    not among the properties of the vertices: it raises. *)
Theorem read_binary_needs_xyz f bo names formats nv nc cn cd d
    (Hd : d ∈ ["x"; "y"; "z"])
    (Hn : d ∉ names) :
  ∃ e, _read_binary f bo names formats nv nc cn cd = Raise e.
Proof.
  unfold _read_binary.
  destruct (for_each_dtype_ended (take (length names) formats)) as [[dts ->]|[e ->]];
    [|by eexists].
  cbn [mbind outcome_bind].
  destruct (has_dup _); [by eexists|].
  assert (d ∉ take (length dts) names) as Hn'.
  { intros Hin. apply Hn.
    apply elem_of_take in Hin as (i & Hi & _). by eapply list_elem_of_lookup_2. }
  unfold frombuffer. destruct (_ =? 0)%nat; [by eexists|].
  destruct (_ mod _ =? 0)%nat; [|by eexists].
  cbn [mbind outcome_bind].
  set (table := map _ _). set (nms := take (length dts) names) in *.
  each_name Hd.
  - destruct (field_absent nms dts table "x" Hn') as [e ->]. by eexists.
  - destruct (field_ended nms dts table "x") as [[c ->]|[e ->]]; [|by eexists].
    cbn [mbind outcome_bind].
    destruct (field_absent nms dts table "y" Hn') as [e ->]. by eexists.
  - destruct (field_ended nms dts table "x") as [[c ->]|[e ->]]; [|by eexists].
    cbn [mbind outcome_bind].
    destruct (field_ended nms dts table "y") as [[c' ->]|[e ->]]; [|by eexists].
    cbn [mbind outcome_bind].
    destruct (field_absent nms dts table "z" Hn') as [e ->]. by eexists.
Qed.

Lemma read_binary_needs_xyz_witness :
  ∃ e, _read_binary [] Little ["x"; "y"] ["float"; "float"] 0 0 [] [] = Raise e.
Proof.
  apply (read_binary_needs_xyz [] Little ["x"; "y"] ["float"; "float"] 0 0 [] [] "z").
  - solve_elem.
  - solve_notin.
Defined.

(** ** What [write] of the codec does to the caller's mesh *)

Lemma narrow_other b : arr_dtype (data b) ≠ np_int64 -> narrow b = b.
Proof. intros H. unfold narrow. by destruct (decide _). Qed.

Lemma narrow_no_int64 cs : has_int64 cs = false -> map narrow cs = cs.
Proof.
  unfold has_int64. induction cs as [|b cs IH]; [done|].
  cbn [existsb map]. intros H. apply orb_false_elim in H as [Hb H].
  apply bool_decide_eq_false in Hb. by rewrite narrow_other, IH.
Qed.

Lemma mesh_eta mesh :
  mkMesh (points mesh) (cells mesh) (point_data mesh) (cell_data mesh) = mesh.
Proof. by destruct mesh. Qed.

Lemma common_dtype_ended cs : ∀ cur,
  (∃ r, common_dtype cs cur = Ok r) ∨ ∃ e, common_dtype cs cur = Raise e.
Proof.
  induction cs as [|b cs IH]; intros cur; [left; by eexists|].
  cbn [common_dtype]. destruct (decide _); [right; by eexists|apply IH].
Qed.

Lemma result_cells mesh (p : wstate * outcome ()) :
  cells (wr_mesh (let '(s, r) := p in
                  mkWriteResult
                    (mkMesh (points mesh) (w_cells s) (point_data mesh)
                       (cell_data mesh))
                    (w_warnings s) (fh s) r))
  = w_cells (fst p).
Proof. by destruct p. Qed.

Lemma write_data_cells h mesh binary pd s :
  w_cells (fst (write_data h mesh binary pd s)) = w_cells s.
Proof. by destruct (write_data_same_cells h mesh binary pd s) as [-> _]. Qed.

(** The cells of the caller after [write], in either mode and however the
    call ends. *)
Lemma ply_write_cells h filename mesh binary :
  cells (wr_mesh (ply.write h filename mesh binary)) = cells mesh
  ∨ cells (wr_mesh (ply.write h filename mesh binary)) = map narrow (cells mesh).
Proof.
  rewrite ply_write_unfold, result_cells.
  pose proof (write_vertex_header_frame h mesh binary (mkW (cells mesh) [] []))
    as [[Hc _] He].
  destruct (write_vertex_header h mesh binary (mkW (cells mesh) [] []))
    as [s1 r1] eqn:Hh.
  cbn [fst snd w_cells] in Hc, He. destruct He as [[pd ->]|[e ->]].
  2: { rewrite (ply_write_body_header_raise _ _ _ _ _ _ Hh). by left. }
  rewrite (ply_write_body_after_header _ _ _ _ _ _ Hh).
  rewrite write_face_header_spec. cbn zeta. rewrite Hc.
  destruct (0 <? count_cells (cells mesh) 0).
  - right.
    destruct (common_dtype _ _) as [[dt|]| | |]; try reflexivity;
      [destruct (numpy_to_ply_dtype dt); try reflexivity|];
      by rewrite write_data_cells.
  - left. by rewrite write_data_cells.
Qed.

(** [write] changes the caller's mesh by the cast of 64-bit blocks and by
    nothing else: afterwards the blocks are those of before or their casts,
    with the same cell types, widths and numbers of rows in the same order,
    and a mesh without a 64-bit block is the same mesh; this holds in both
    modes and also when the call raises. *)
Theorem write_only_casts h filename mesh binary :
  (cells (wr_mesh (ply.write h filename mesh binary)) = cells mesh
   ∨ cells (wr_mesh (ply.write h filename mesh binary)) = map narrow (cells mesh))
  ∧ map (λ b, (cell_type b, ncols (data b), nrows (data b)))
      (cells (wr_mesh (ply.write h filename mesh binary)))
    = map (λ b, (cell_type b, ncols (data b), nrows (data b))) (cells mesh)
  ∧ (has_int64 (cells mesh) = false ->
     wr_mesh (ply.write h filename mesh binary) = mesh).
Proof.
  pose proof (ply_write_cells h filename mesh binary) as Hc.
  split; [exact Hc|]. split.
  - destruct Hc as [-> | ->]; [reflexivity|].
    rewrite map_map. apply map_ext. intros b.
    by rewrite narrow_cell_type, narrow_ncols, narrow_rows_length.
  - intros H64.
    assert (cells (wr_mesh (ply.write h filename mesh binary)) = cells mesh) as Hc'.
    { destruct Hc as [-> | ->]; [done|by apply narrow_no_int64]. }
    revert Hc'. rewrite ply_write_unfold.
    destruct (ply_write_body _ _ _ _) as [s r]. cbn [wr_mesh cells].
    intros ->. apply mesh_eta.
Qed.

(** ** Points that [write] cannot declare *)

Lemma write_vertex_header_wide h mesh binary tp s :
  type_name_table (arr_dtype (points mesh)) = Some tp ->
  (3 < ncols (points mesh))%nat ->
  write_vertex_header h mesh binary s
  = (mkW (w_cells s) (w_warnings s)
       (fh s ++ vertex_header_text h binary (Z.of_nat (nrows (points mesh))) tp),
     Raise IndexError).
Proof.
  intros Htp Hn. unfold write_vertex_header, vertex_header_text,
    vertex_properties_text.
  destruct (ncols (points mesh)) as [|[|[|[|n]]]]; try lia.
  cbn [seq for_]. rewrite Htp.
  change (dim_names !! 0%nat) with (Some "x").
  change (dim_names !! 1%nat) with (Some "y").
  change (dim_names !! 2%nat) with (Some "z").
  change (dim_names !! 3%nat) with (@None string).
  destruct binary;
    unfold mbind, W_bind, fh_write, lift; cbn [w_cells w_warnings fh];
    rewrite <- !app_assoc; reflexivity.
Qed.

Lemma write_vertex_header_unnamed h mesh binary s :
  type_name_table (arr_dtype (points mesh)) = None ->
  (0 < ncols (points mesh))%nat ->
  write_vertex_header h mesh binary s
  = (mkW (w_cells s) (w_warnings s)
       (fh s ++ text_line "ply"
        ++ text_line (if binary then
                        "format binary_" +:+ byteorder_name (sys_byteorder h)
                        +:+ "_endian 1.0"
                      else "format ascii 1.0")
        ++ text_line ("comment Created by meshio v" +:+ meshio_version h +:+ ", "
                      +:+ now_isoformat h)
        ++ text_line ("element vertex " +:+ str (Z.of_nat (nrows (points mesh))))),
     Raise (KeyError "dtype")).
Proof.
  intros Htp Hn. unfold write_vertex_header.
  destruct (ncols (points mesh)) as [|n]; [lia|].
  cbn [seq for_]. rewrite Htp.
  destruct binary;
    unfold mbind, W_bind, fh_write, lift; cbn [w_cells w_warnings fh];
    rewrite <- !app_assoc; reflexivity.
Qed.

(** The header has names for three coordinates and for ten dtypes.  With a
    fourth coordinate [write] raises [IndexError] once the lines of the
    first three are written, and with a dtype outside its table it raises
    [KeyError] before the first of them; in both cases the caller's mesh is
    as it was and the destination holds the lines written so far. *)
Theorem write_points_out_of_bounds h filename mesh binary :
  (∀ tp, type_name_table (arr_dtype (points mesh)) = Some tp ->
         (3 < ncols (points mesh))%nat ->
         ply.write h filename mesh binary
         = mkWriteResult mesh []
             (vertex_header_text h binary (Z.of_nat (nrows (points mesh))) tp)
             (Raise IndexError))
  ∧ (type_name_table (arr_dtype (points mesh)) = None ->
     (0 < ncols (points mesh))%nat ->
     ply.write h filename mesh binary
     = mkWriteResult mesh []
         (text_line "ply"
          ++ text_line (if binary then
                          "format binary_" +:+ byteorder_name (sys_byteorder h)
                          +:+ "_endian 1.0"
                        else "format ascii 1.0")
          ++ text_line ("comment Created by meshio v" +:+ meshio_version h
                        +:+ ", " +:+ now_isoformat h)
          ++ text_line ("element vertex "
                        +:+ str (Z.of_nat (nrows (points mesh)))))
         (Raise (KeyError "dtype"))).
Proof.
  split.
  - intros tp Htp Hn. rewrite ply_write_unfold.
    rewrite (ply_write_body_header_raise h mesh binary _ _ _
               (write_vertex_header_wide h mesh binary tp _ Htp Hn)).
    cbn [w_cells w_warnings fh app]. by rewrite mesh_eta.
  - intros Htp Hn. rewrite ply_write_unfold.
    rewrite (ply_write_body_header_raise h mesh binary _ _ _
               (write_vertex_header_unnamed h mesh binary _ Htp Hn)).
    cbn [w_cells w_warnings fh app]. by rewrite mesh_eta.
Qed.

Lemma write_points_out_of_bounds_witness :
  ply.write host0 (Path "mesh.ply") mesh_four_columns true
  = mkWriteResult mesh_four_columns []
      (vertex_header_text host0 true
         (Z.of_nat (nrows (points mesh_four_columns))) "int32")
      (Raise IndexError).
Proof.
  apply (proj1 (write_points_out_of_bounds host0 (Path "mesh.ply")
                  mesh_four_columns true) "int32"); [reflexivity|].
  unfold mesh_four_columns. cbn [points ncols]. lia.
Defined.

(** ** Binary files on another host *)

Lemma read_buffer_binary_host h h' f :
  ¬ declares_ascii f -> read_buffer h f = read_buffer h' f.
Proof.
  intros Hna. unfold read_buffer, declares_ascii in *.
  destruct (readline f) as [raw f1]. cbn [snd] in Hna.
  destruct (negb _); [reflexivity|].
  destruct (_next_line f1) as [[line f2]| | |]; try reflexivity.
  cbn [mbind outcome_bind].
  destruct (String.eqb_spec line "format ascii 1.0") as [->|_].
  { exfalso. apply Hna. by eexists. }
  destruct (String.eqb line "format binary_big_endian 1.0"); [reflexivity|].
  destruct (negb _); reflexivity.
Qed.

Lemma written_header_is_binary h n tp rest :
  ¬ declares_ascii (vertex_header_text h true n tp ++ rest).
Proof.
  intros [f2 H]. unfold vertex_header_text in H. rewrite <- !app_assoc in H.
  rewrite (readline_text_line "ply") in H
    by (unfold no_LF; cbn; repeat constructor; discriminate).
  cbn [snd] in H.
  rewrite next_line_significant in H
    by (destruct (sys_byteorder h); solve_significant).
  injection H as H _. by destruct (sys_byteorder h).
Qed.

(** A file that [write] made in binary mode on one host is read on any
    other host, whatever its byte order, as the mesh of the round trip: the
    reader takes the byte order from the header. *)
Theorem written_file_read_on_any_host hw hr filename mesh
    (Hr : roundtrip_ready hw mesh) :
  read_buffer hr (wr_out (ply.write hw filename mesh true))
  = Ok (mkMesh (points mesh) (map narrow (cells mesh)) (point_data mesh) []).
Proof.
  destruct (binary_roundtrip hw filename mesh Hr) as (_ & _ & _ & <-).
  apply read_buffer_binary_host.
  destruct (ply_write_ready hw filename mesh Hr)
    as (tp & tc & dt & _ & _ & _ & _ & _ & _ & _ & ->).
  cbn [wr_out]. apply written_header_is_binary.
Qed.

Lemma written_file_read_on_any_host_witness :
  read_buffer host_big (wr_out (ply.write host0 (Path "mesh.ply")
                                  mesh_point_data true))
  = Ok (mkMesh (points mesh_point_data) (map narrow (cells mesh_point_data))
          (point_data mesh_point_data) []).
Proof.
  apply (written_file_read_on_any_host host0 host_big (Path "mesh.ply")
           mesh_point_data).
  solve_ready np_int32 "int32".
Defined.

(** ** Meshes without a cell that the format knows *)

Lemma header_loop_cloud fuel n tp props rest :
  0 <= n -> tp ∈ point_type_names ->
  Forall (λ p, plain_name (fst p) ∧ plain_name (snd p)) props ->
  header_loop (S fuel) ("element vertex " +:+ str n)
    (vertex_properties_text tp ++ point_data_text props
     ++ text_line "end_header" ++ rest)
    (mkHeader 0 0 [] [] [] [])
  = Ok (mkHeader n 0 ([tp; tp; tp] ++ map fst props)
          (["x"; "y"; "z"] ++ map snd props) [] [], rest).
Proof.
  intros Hn Htp Hprops.
  pose proof (point_type_names_plain tp Htp) as Hplain.
  assert (∀ d, d ∈ ["x"; "y"; "z"] -> plain_name d) as Hdim.
  { intros d Hd. each_name Hd; (split; [discriminate|]); cbn; repeat constructor. }
  assert (Hx : "x" ∈ ["x"; "y"; "z"]) by (apply list_elem_of_here).
  assert (Hy : "y" ∈ ["x"; "y"; "z"])
    by (apply list_elem_of_further, list_elem_of_here).
  assert (Hz : "z" ∈ ["x"; "y"; "z"])
    by (do 2 apply list_elem_of_further; apply list_elem_of_here).
  cbn [header_loop].
  change (String.eqb ("element vertex " +:+ str n) "end_header") with false.
  change (String.eqb (py_take 8 ("element vertex " +:+ str n)) "obj_info") with false.
  cbv iota.
  change ("element vertex " +:+ str n)
    with (("element " +:+ "vertex" +:+ " ") +:+ str n) at 1.
  rewrite re_element_count by done.
  rewrite int_of_digits_str by done.
  unfold vertex_properties_text. rewrite <- !app_assoc.
  rewrite next_line_significant by (apply significant_property_key; auto).
  cbn [mbind outcome_bind].
  rewrite !app_assoc.
  rewrite <- (app_assoc (text_line ("property " +:+ tp +:+ " " +:+ "y"))).
  change (text_line ("property " +:+ tp +:+ " " +:+ "y")
          ++ text_line ("property " +:+ tp +:+ " " +:+ "z")
          ++ point_data_text props)
    with (point_data_text ((tp, "y") :: (tp, "z") :: props)).
  rewrite <- !app_assoc.
  rewrite vertex_properties_lines;
    [|repeat (apply Forall_cons; split; [split; auto|]); done
     |apply significant_end_header|reflexivity
     |rewrite length_app;
      pose proof (point_data_text_length ((tp, "y") :: (tp, "z") :: props)); lia].
  cbn [mbind outcome_bind point_data_formats point_data_names app map fst snd
       num_cells cell_data_names cell_data_dtypes].
  destruct fuel; reflexivity.
Qed.

(** [read_buffer] on a binary header without a face element. *)
Lemma read_buffer_cloud h n tp props body :
  0 <= n -> tp ∈ point_type_names ->
  Forall (λ p, plain_name (fst p) ∧ plain_name (snd p)) props ->
  no_LF (meshio_version h) -> no_LF (now_isoformat h) ->
  read_buffer h (vertex_header_text h true n tp ++ point_data_text props
                 ++ text_line "end_header" ++ body)
  = _read_binary body (sys_byteorder h) (["x"; "y"; "z"] ++ map snd props)
      ([tp; tp; tp] ++ map fst props) n 0 [] [].
Proof.
  intros Hn Htp Hprops Hv Hnow. unfold read_buffer, vertex_header_text.
  rewrite <- !app_assoc.
  rewrite (readline_text_line "ply")
    by (unfold no_LF; cbn; repeat constructor; discriminate).
  change (strip (decode (text_line "ply"))) with "ply".
  change (negb (String.eqb "ply" "ply")) with false. cbv iota.
  rewrite next_line_significant by (destruct (sys_byteorder h); solve_significant).
  cbn [mbind outcome_bind].
  rewrite next_line_comment;
    [|by apply comment_line_no_LF|apply comment_line_is_comment
     |by apply significant_element_vertex].
  pose proof (header_loop_cloud
                (length (vertex_properties_text tp ++ point_data_text props
                         ++ text_line "end_header" ++ body))
                n tp props body Hn Htp Hprops) as Hh.
  destruct (sys_byteorder h); cbn [byteorder_name mbind outcome_bind].
  - change (String.eqb ("format binary_" +:+ "little" +:+ "_endian 1.0")
                       "format ascii 1.0") with false.
    change (String.eqb ("format binary_" +:+ "little" +:+ "_endian 1.0")
                       "format binary_big_endian 1.0") with false.
    change (String.eqb ("format binary_" +:+ "little" +:+ "_endian 1.0")
                       "format binary_little_endian 1.0") with true.
    cbn [negb mbind outcome_bind].
    rewrite Hh. reflexivity.
  - change (String.eqb ("format binary_" +:+ "big" +:+ "_endian 1.0")
                       "format ascii 1.0") with false.
    change (String.eqb ("format binary_" +:+ "big" +:+ "_endian 1.0")
                       "format binary_big_endian 1.0") with true.
    cbn [negb mbind outcome_bind].
    rewrite Hh. reflexivity.
Qed.

Lemma read_binary_cloud bo tp mesh :
  dtype_of_format tp = Ok (arr_dtype (points mesh)) ->
  (0 < itemsize (arr_dtype (points mesh)))%nat ->
  ncols (points mesh) = 3%nat -> array_ok (points mesh) ->
  Forall (point_array_ready (nrows (points mesh))) (point_data mesh) ->
  NoDup (map fst (point_data mesh)) ->
  Forall (λ k, k ∉ dim_names) (map fst (point_data mesh)) ->
  _read_binary (tobytes bo (point_dtypes mesh) (point_table mesh))
    bo (["x"; "y"; "z"] ++ map snd (map property_of (point_data mesh)))
    ([tp; tp; tp] ++ map fst (map property_of (point_data mesh)))
    (Z.of_nat (nrows (points mesh))) 0 [] []
  = Ok (mkMesh (points mesh) [] (point_data mesh) []).
Proof.
  intros Htp Hp Hn Ha Hpd Hnd Hxyz.
  unfold _read_binary. rewrite properties_keys.
  assert (length (["x"; "y"; "z"] ++ map fst (point_data mesh))
          = length ([tp; tp; tp] ++ map fst (map property_of (point_data mesh))))
    as Hlen1 by (by rewrite !length_app, !length_map).
  rewrite Hlen1, firstn_all.
  assert (for_each dtype_of_format
            ([tp; tp; tp] ++ map fst (map property_of (point_data mesh)))
          = Ok (point_dtypes mesh)) as ->.
  { apply for_each_app; [|by apply (formats_of_point_data (nrows (points mesh)))].
    cbn [for_each]. rewrite Htp. reflexivity. }
  cbn [mbind outcome_bind].
  assert (length (point_dtypes mesh)
          = length (["x"; "y"; "z"] ++ map fst (point_data mesh))) as Hlen2.
  { unfold point_dtypes. by rewrite !length_app, !length_map, length_replicate. }
  rewrite Hlen2, firstn_all.
  rewrite has_dup_NoDup by (by apply names_NoDup).
  pose proof (point_table_ok mesh Hn Ha Hpd) as Htab.
  assert (Forall (λ r, length r = length (point_dtypes mesh)) (point_table mesh))
    as Hlen by (eapply Forall_impl; [exact Htab|]; by intros r [? _]).
  assert (0 < sum_nat (map itemsize (point_dtypes mesh)))%nat as Hpos.
  { unfold point_dtypes. cbn [replicate app map sum_nat foldr]. lia. }
  assert (Z.to_nat (Z.of_nat (nrows (points mesh))
                    * Z.of_nat (sum_nat (map itemsize (point_dtypes mesh))))
          = length (tobytes bo (point_dtypes mesh) (point_table mesh))) as ->.
  { rewrite tobytes_length, point_table_length by done. lia. }
  rewrite firstn_all, skipn_all.
  rewrite frombuffer_tobytes by done.
  cbn [mbind outcome_bind]. rewrite decode_table by done.
  assert (omap (λ name,
            if bool_decide (name ∈ ["x"; "y"; "z"]) then None
            else match index_of name (["x"; "y"; "z"] ++ map fst (point_data mesh)) with
                 | Some j =>
                   Some (name, Flatarray (nth j (point_dtypes mesh) (Dtype Kother 0))
                                 [length (point_table mesh)]
                                 (column j (point_table mesh)))
                 | None => None
                 end) (["x"; "y"; "z"] ++ map fst (point_data mesh))
          = point_data mesh) as ->.
  { cbn [app list_omap omap].
    rewrite !bool_decide_eq_true_2
      by (repeat first [apply list_elem_of_here | apply list_elem_of_further]).
    by apply (point_data_read mesh (point_data mesh) []). }
  unfold field. cbn [app index_of String.eqb Ascii.eqb Bool.eqb option_map].
  cbn [mbind outcome_bind].
  rewrite !column_xyz by (done || lia).
  change (nth 0 (point_dtypes mesh) (Dtype Kother 0)) with (arr_dtype (points mesh)).
  change (nth 1 (point_dtypes mesh) (Dtype Kother 0)) with (arr_dtype (points mesh)).
  change (nth 2 (point_dtypes mesh) (Dtype Kother 0)) with (arr_dtype (points mesh)).
  unfold column_stack.
  cbn [forallb fst snd andb]. rewrite !bool_decide_eq_true_2 by done.
  cbn [andb].
  assert (∀ j, length (column j (rows (points mesh))) = length (rows (points mesh)))
    as Hcol by (intros j; apply length_map).
  rewrite !Hcol. rewrite !bool_decide_eq_true_2 by done.
  cbn [andb mbind outcome_bind length].
  rewrite xyz_stack
    by (eapply Forall_impl; [exact (array_ok_lengths _ Ha)|];
        intros r Hr; cbn beta in Hr; by rewrite <- Hn).
  cbn [for_each mbind outcome_bind zip zip_with read_cell_data dict_get dict_del].
  unfold Mesh_init. cbn [forallb cell_data_rows andb].
  assert (forallb (λ kv : string * flatarray,
            bool_decide (head (flat_shape (snd kv))
                         = Some (nrows (Ndarray (arr_dtype (points mesh)) 3
                                          (rows (points mesh))))))
            (point_data mesh) = true) as ->.
  { apply forallb_forall. intros kv Hkv. apply bool_decide_eq_true_2.
    rewrite Forall_forall in Hpd.
    destruct (Hpd kv (proj2 (list_elem_of_In _ _) Hkv)) as (_ & -> & _).
    reflexivity. }
  cbn [andb]. rewrite <- Hn. by destruct (points mesh).
Qed.

Lemma count_cells_unrecognised cs : ∀ acc,
  Forall (λ b, unrecognised b = true) cs -> count_cells cs acc = acc.
Proof.
  induction cs as [|b cs IH]; intros acc Hcs; [reflexivity|].
  apply Forall_cons in Hcs as [Hb Hcs]. cbn [count_cells].
  unfold unrecognised in Hb.
  destruct (cell_type_to_count (cell_type b)); [discriminate|by apply IH].
Qed.

Lemma for_write_binary_cells_skipped h cs : ∀ s,
  Forall (λ b, unrecognised b = true) cs ->
  for_ cs (write_binary_cells h) s
  = (mkW (w_cells s) (w_warnings s ++ map (λ _, skipping_warning) cs) (fh s),
     Ok ()).
Proof.
  induction cs as [|b cs IH]; intros s Hcs.
  - cbn. rewrite app_nil_r. by destruct s.
  - apply Forall_cons in Hcs as [Hb Hcs]. cbn [for_].
    unfold mbind, W_bind.
    rewrite write_binary_cells_unrecognised, IH by done.
    cbn [w_cells w_warnings fh map]. by rewrite <- app_assoc.
Qed.

(** The file that [write] makes in binary mode of a mesh without a cell
    block that the format knows. *)
Lemma ply_write_cloud h filename mesh :
  points_ready h mesh ->
  Forall (λ b, unrecognised b = true) (cells mesh) ->
  ∃ tp,
    tp ∈ point_type_names
    ∧ dtype_of_format tp = Ok (arr_dtype (points mesh))
    ∧ (0 < itemsize (arr_dtype (points mesh)))%nat
    ∧ ply.write h filename mesh true
      = mkWriteResult mesh (map (λ _, skipping_warning) (cells mesh))
          (vertex_header_text h true (Z.of_nat (nrows (points mesh))) tp
           ++ point_data_text (map property_of (point_data mesh))
           ++ text_line "end_header"
           ++ tobytes (sys_byteorder h) (point_dtypes mesh) (point_table mesh))
          (Ok ()).
Proof.
  intros [Hv Hnow Hpd Hkeys Hxyz Hdim Hpts (tp & Htp & Htpr)] Hcs.
  destruct (point_dtype_names _ _ Htp Htpr) as [Htpn Hpsz].
  exists tp. do 3 (split; [done|]).
  rewrite ply_write_unfold.
  rewrite (ply_write_body_after_header h mesh true _ _ _
             (write_vertex_header_ready h mesh true tp _ Hpd Hdim Htp)).
  rewrite write_face_header_spec. cbn [w_cells w_warnings fh app]. cbn zeta.
  rewrite count_cells_unrecognised by done.
  change (0 <? 0) with false. cbv iota. cbn [w_cells w_warnings fh].
  unfold write_data.
  rewrite (rec_fromarrays_same_shape (nrows (points mesh)));
    [|unfold columns; rewrite Hdim; discriminate
     |apply Forall_app; split;
      [apply Forall_forall; intros f Hf;
       by apply list_elem_of_fmap in Hf as (c & -> & _)
      |apply Forall_forall; intros f Hf;
       apply list_elem_of_fmap in Hf as (kv & -> & Hkv);
       rewrite Forall_forall in Hpd; by destruct (Hpd kv Hkv) as (_ & ? & _)]].
  destruct (point_arrays_table mesh Hdim (array_ok_lengths _ Hpts)) as [-> ->].
  unfold mbind at 1, W_bind at 1, lift at 1.
  unfold mbind at 1, W_bind at 1, fh_write at 1.
  unfold mbind at 1, W_bind at 1, get_cells at 1. cbn [w_cells w_warnings fh].
  rewrite for_write_binary_cells_skipped by done.
  cbn [w_cells w_warnings fh app]. rewrite mesh_eta.
  f_equal. by rewrite <- !app_assoc.
Qed.

Lemma points_host0 mesh :
  Forall (point_array_ready (nrows (points mesh))) (point_data mesh) ->
  NoDup (map fst (point_data mesh)) ->
  Forall (λ k, k ∉ dim_names) (map fst (point_data mesh)) ->
  ncols (points mesh) = 3%nat ->
  array_ok (points mesh) ->
  point_dtype_supported (arr_dtype (points mesh)) ->
  points_ready host0 mesh.
Proof.
  intros. split; try done; cbn; repeat constructor; discriminate.
Qed.

(** A mesh without a cell block that the format knows (a point cloud, or
    blocks of custom cell types only, their tags of 7-bit characters) is
    written in binary mode without a face element: [write] returns, warns
    once for each block, leaves the caller's mesh as it is, and the file
    reads back as the points and the point data without any cell. *)
Theorem point_cloud_roundtrip h filename mesh
    (Hp : points_ready h mesh)
    (H7 : Forall (λ b, seven_bit_text (cell_type b)) (cells mesh))
    (Hc : Forall (λ b, unrecognised b = true) (cells mesh)) :
  wr_end (ply.write h filename mesh true) = Ok ()
  ∧ wr_mesh (ply.write h filename mesh true) = mesh
  ∧ wr_warnings (ply.write h filename mesh true)
    = map (λ _, skipping_warning) (cells mesh)
  ∧ read_buffer h (wr_out (ply.write h filename mesh true))
    = Ok (mkMesh (points mesh) [] (point_data mesh) []).
Proof.
  destruct (ply_write_cloud h filename mesh Hp Hc)
    as (tp & Htp & Htpr & Hsz & ->).
  destruct Hp as [Hv Hnow Hpd Hkeys Hxyz Hdim Hpts _].
  cbn [wr_end wr_warnings wr_mesh wr_out]. do 3 (split; [done|]).
  rewrite read_buffer_cloud
    by (done || lia || by apply (properties_plain (nrows (points mesh)))).
  by apply read_binary_cloud.
Qed.

Lemma point_cloud_roundtrip_witness :
  wr_warnings (ply.write host0 (Path "cloud.ply") mesh_cloud true)
  = [skipping_warning; skipping_warning]
  ∧ read_buffer host0 (wr_out (ply.write host0 (Path "cloud.ply") mesh_cloud true))
    = Ok (mkMesh square_points []
            [("id", Flatarray np_int32 [4%nat] [10; 11; 12; 13])] []).
Proof.
  pose proof (point_cloud_roundtrip host0 (Path "cloud.ply") mesh_cloud
                ltac:(apply points_host0;
                      [ solve_rows | solve_keys | solve_keys | reflexivity
                      | solve_rows | eexists; split; reflexivity ])
                ltac:(repeat (apply Forall_cons_2;
                              [apply seven_bit_by; reflexivity|]);
                      apply Forall_nil_2)
                ltac:(repeat constructor)) as (_ & _ & Hw & Hr).
  split; [exact Hw|exact Hr].
Defined.

(** ** Fewer face lines than the header declares *)

Section short_body.
Context (h : host) (c d : string) (dt : dtype).
Context (Hd : dict_get d ply_to_numpy_dtype = Some dt).
Context (Hk : kind dt = Kint ∨ kind dt = Kuint).

Lemma read_faces_short rest : ∀ k f st m,
  face_lines f rest -> Forall (Forall (in_range dt)) rest ->
  no_tokens (after_lines (length rest) f) ->
  read_faces h ["vertex_indices"] [PList c d] k (length rest + S m) f st
  = Raise IndexError.
Proof.
  induction rest as [|r rest IH]; intros k f st m Hl Hr He.
  - cbn [length after_lines] in He. unfold no_tokens in He.
    cbn [length Nat.add read_faces].
    destruct (readline f) as [raw f'] eqn:E. cbn [fst] in He. rewrite He.
    destruct (k =? 0)%nat; reflexivity.
  - destruct Hl as [[extra Hline] Hl]. apply Forall_cons in Hr as [Hr1 Hr].
    cbn [length after_lines] in He.
    cbn [length Nat.add read_faces].
    destruct (readline f) as [raw f'] eqn:E. cbn [fst snd] in *.
    cbn [zip zip_with].
    destruct (k =? 0)%nat.
    + rewrite bool_decide_eq_true_2 by reflexivity.
      rewrite (init_cell_data_row c d _ r extra) by done.
      cbn [mbind outcome_bind polygons fs_cell_data].
      rewrite (read_face_row h c d dt Hd Hk _ r extra) by done.
      cbn [mbind outcome_bind]. by apply IH.
    + cbn [mbind outcome_bind].
      rewrite (read_face_row h c d dt Hd Hk _ r extra) by done.
      cbn [mbind outcome_bind]. by apply IH.
Qed.

End short_body.

(** When the body holds fewer face lines than the header declares (the
    stream ends, or a blank line follows the last face), the ASCII reader
    raises IndexError once it has read the points: it takes the count of the
    row from the first token of a line that has none.  The lines are of
    7-bit characters. *)
Theorem ascii_missing_faces h c d dt f0 names formats nv verts pd f table num_cells
    (Hd : dict_get d ply_to_numpy_dtype = Some dt)
    (Hk : kind dt = Kint ∨ kind dt = Kuint)
    (Hpoints : read_ascii_points h f0 names formats nv = Ok (verts, pd, f))
    (H7 : seven_bit (first_lines (S (length table)) f))
    (Hlines : face_lines f table)
    (Hrange : Forall (Forall (in_range dt)) table)
    (Hend : no_tokens (after_lines (length table) f))
    (Hn : Z.of_nat (length table) < num_cells) :
  _read_ascii h f0 names formats nv num_cells ["vertex_indices"] [PList c d]
  = Raise IndexError.
Proof.
  unfold _read_ascii. rewrite Hpoints. cbn [mbind outcome_bind].
  unfold read_ascii_cells.
  replace (Z.to_nat num_cells)
    with (length table + S (Z.to_nat num_cells - length table - 1))%nat by lia.
  by rewrite (read_faces_short h c d dt Hd Hk table).
Qed.

Lemma ascii_missing_faces_witness :
  _read_ascii host_text
    (text_line "0 0 0" ++ text_line "1 0 0" ++ text_line "0 1 0"
     ++ text_line "1 1 0" ++ text_line "3 0 1 2" ++ text_line "4 0 2 3 1")
    ["x"; "y"; "z"] ["int"; "int"; "int"] 4 3
    ["vertex_indices"] [PList "uchar" "int"]
  = Raise IndexError.
Proof.
  apply (ascii_missing_faces host_text "uchar" "int" np_int32 _ _ _ _
           grid_points [] (text_line "3 0 1 2" ++ text_line "4 0 2 3 1")
           [[0; 1; 2]; [0; 2; 3; 1]]).
  - reflexivity.
  - left. reflexivity.
  - vm_compute. reflexivity.
  - apply seven_bit_by. vm_compute. reflexivity.
  - cbn. repeat split; eexists; vm_compute; reflexivity.
  - repeat constructor; cbn; lia.
  - reflexivity.
  - cbn. lia.
Defined.
